(** * Media::Player::Panel — the floating playlist / cover panel

    A shallow embedding of
    [Telegram/SourceFiles/media/player/media_player_panel.cpp].

    The panel is a widget: its methods mutate the members of one object and
    call into framework objects (two timers, an animation, a scroll area,
    child widgets).  The embedding threads the object explicitly: every
    method is a function from the panel before the call to the panel after
    it.  What a method reads from outside the object (the currently playing
    song, the layout direction, the objects the framework constructs) is
    gathered in a record [World] passed to the call.  Calls into the timers
    and the creation and destruction of child widgets are also appended, in
    program order, to a trace carried by the panel.

    Pixel quantities are C++ [int]; they are modelled in [Z] (signed
    overflow is undefined in C++ and pixel sizes stay far from the limits).

    Framework dispatch is modelled as separate steps: Qt delivers
    [resizeEvent] and [paintEvent], the timers fire, and the list widget
    publishes its height by calling the corresponding handler of the panel.
    The appearance animation is a flag: starting it sets the flag, both
    [animating()] and [animating(getms())] read it, and the clock that
    advances and ends the animation is the step [appearance_tick].

    The file has four parts: the model, the vocabulary of the properties,
    concrete data, and the properties with their proofs. *)

From Stdlib Require Import ZArith List Bool Lia.
Import ListNotations.
Local Open Scope Z_scope.

(** ** Qt value types used by the panel *)

Record QPoint := { px : Z; py : Z }.
Record QSize := { size_w : Z; size_h : Z }.
Record QMargins := { m_left : Z; m_top : Z; m_right : Z; m_bottom : Z }.

(** [QRect] stores its two corners, both inclusive, as Qt does. *)
Record QRect := { x1 : Z; y1 : Z; x2 : Z; y2 : Z }.

(** [QRect(const QPoint &topLeft, const QSize &size)]. *)
Definition QRect_of (topLeft : QPoint) (size : QSize) : QRect :=
  {| x1 := px topLeft; y1 := py topLeft;
     x2 := px topLeft + size_w size - 1;
     y2 := py topLeft + size_h size - 1 |}.

(** [QRect(int left, int top, int width, int height)]. *)
Definition QRect_xywh (x y w h : Z) : QRect :=
  {| x1 := x; y1 := y; x2 := x + w - 1; y2 := y + h - 1 |}.

Definition rect_topLeft (r : QRect) : QPoint := {| px := x1 r; py := y1 r |}.
Definition rect_width (r : QRect) : Z := x2 r - x1 r + 1.
Definition rect_height (r : QRect) : Z := y2 r - y1 r + 1.
Definition rect_size (r : QRect) : QSize :=
  {| size_w := rect_width r; size_h := rect_height r |}.

Definition rect_isNull (r : QRect) : bool :=
  (x2 r =? x1 r - 1) && (y2 r =? y1 r - 1).

(** [QRect::marginsRemoved]. *)
Definition marginsRemoved (r : QRect) (m : QMargins) : QRect :=
  {| x1 := x1 r + m_left m; y1 := y1 r + m_top m;
     x2 := x2 r - m_right m; y2 := y2 r - m_bottom m |}.

(** [QRect::contains(const QRect &, bool proper = false)]: a null rectangle
    contains nothing and is contained in nothing; otherwise both rectangles
    are normalised and compared side by side. *)
Definition rect_contains (outer r : QRect) : bool :=
  if rect_isNull outer || rect_isNull r then false else
  let l1 := if rect_width outer <? 0 then x2 outer else x1 outer in
  let r1 := if rect_width outer <? 0 then x1 outer else x2 outer in
  let l2 := if rect_width r <? 0 then x2 r else x1 r in
  let r2 := if rect_width r <? 0 then x1 r else x2 r in
  if (l2 <? l1) || (r1 <? r2) then false else
  let t1 := if rect_height outer <? 0 then y2 outer else y1 outer in
  let b1 := if rect_height outer <? 0 then y1 outer else y2 outer in
  let t2 := if rect_height r <? 0 then y2 r else y1 r in
  let b2 := if rect_height r <? 0 then y1 r else y2 r in
  if (t2 <? t1) || (b1 <? b2) then false else true.

(** [QRect::contains(const QPoint &)], for a normalised rectangle. *)
Definition rect_contains_point (r : QRect) (p : QPoint) : bool :=
  if rect_isNull r then false else
  (x1 r <=? px p) && (px p <=? x2 r) && (y1 r <=? py p) && (py p <=? y2 r).

(** ** Style constants ([st::...])

    The generated style headers are not part of the sources; the constants
    the panel reads are the fields of this record. *)
Record Style := {
  mediaPlayerPanelMarginLeft : Z;
  mediaPlayerPanelMarginBottom : Z;
  mediaPlayerPanelWidth : Z;
  mediaPlayerListHeightMax : Z;
  mediaPlayerListMarginBottom : Z;
  infoMediaMargin : QMargins;
  overviewFileLayout_songPadding : QMargins;
  overviewFileLayout_songThumbSize : Z;
  mediaPlayerFileLayout_songPadding : QMargins;
  mediaPlayerFileLayout_songThumbSize : Z;
  mediaPlayerScrollShadow_extend : QMargins;
  defaultInnerDropdown_duration : Z
}.

(** ** Application data reached from [refreshList] *)

(** A non-null [PeerData*]; a nullable one is an [option PeerPtr]. *)
Definition PeerPtr := positive.

Record PeerData := {
  migrateTo : option PeerPtr;
  migrateFrom : option PeerPtr
}.

Record DocumentData := { isSharedMediaMusic : bool }.
Record HistoryMedia := { getDocument : option DocumentData }.
Record HistoryItem := {
  getMedia : option HistoryMedia;
  history_peer : PeerPtr        (* item->history()->peer *)
}.

Record FullMsgId := { msg_channel : Z; msg_id : Z }.

(** [FullMsgId::operator bool]: the id is set. *)
Definition FullMsgId_bool (m : FullMsgId) : bool := negb (msg_id m =? 0).

Inductive AudioMsgIdType := Unknown | Voice | Song | Video.

Definition AudioMsgIdType_eqb (a b : AudioMsgIdType) : bool :=
  match a, b with
  | Unknown, Unknown | Voice, Voice | Song, Song | Video, Video => true
  | _, _ => false
  end.

(** ** Framework objects owned by the panel *)

(** [ButtonCallback] is a function object; [None] is the empty one. *)
Definition ButtonCallback := option nat.

(** [base::Timer]: inactive, or armed to fire once after a delay (ms). *)
Inductive Timer := Idle | Once (timeout : Z).

Record CoverWidget := {
  cover_width : Z;
  cover_height : Z;
  cover_right : Z;               (* moveToRight(right, top) *)
  cover_top : Z;
  cover_visible : bool;
  cover_pinCallback : ButtonCallback;
  cover_closeCallback : ButtonCallback
}.

Record PlainShadow := {
  shadow_width : Z;
  shadow_height : Z;
  shadow_right : Z;
  shadow_top : Z;
  shadow_visible : bool
}.

(** [Info::Media::Memento] as [refreshList] fills it. *)
Record Memento := {
  memento_peer : PeerPtr;
  memento_migrated : option PeerPtr;
  memento_aroundId : FullMsgId;
  memento_idsLimit : Z;
  memento_scrollTopItem : FullMsgId;
  memento_scrollTopShift : Z
}.

(** [Info::Media::ListWidget], as far as the panel observes it. *)
Record ListWidget := {
  list_width : Z;
  list_height : Z;
  list_preventAutoHide : bool;
  list_currentSongGeometry : QRect;
  list_restored : option Memento
}.

(** [Ui::ScrollArea]; its geometry is kept as the arguments of the last
    [setGeometryToRight(right, top, width, height)], [None] while the panel
    has not placed it. *)
Record ScrollArea := {
  scroll_widget : option ListWidget;
  scroll_visible : bool;
  scroll_geometryToRight : option (Z * Z * Z * Z);
  scroll_requestedY : option Z    (* argument of the last scrollToY *)
}.

(** ** What a call reads from outside the panel *)
Record World := {
  rtl : bool;
  (* instance()->current(AudioMsgId::Type::Song).contextId() *)
  current_song_contextId : FullMsgId;
  (* App::histItemById *)
  histItemById : FullMsgId -> option HistoryItem;
  peerData : PeerPtr -> PeerData;
  (* the child widgets as their constructors leave them *)
  created_cover : CoverWidget;
  created_shadow : PlainShadow;
  created_list : ListWidget;
  (* heights the new list publishes to its heightValue() subscriber while
     refreshList is still running *)
  published_heights : list Z;
  (* CoverWidget::resizeGetHeight *)
  cover_resizeGetHeight : Z -> Z;
  (* cPlatform() == dbipMac || cPlatform() == dbipMacOld *)
  platform_isMac : bool;
  (* App::wnd() != nullptr, and its windowHandle()->isActive() *)
  has_window : bool;
  window_isActive : bool;
  (* QCursor::pos() and mapToGlobal(QPoint(0, 0)) *)
  cursor_pos : QPoint;
  global_origin : QPoint
}.

(** ** Trace of calls into the framework *)
Inductive TimerId := ShowTimer | HideTimer.
Inductive Child := ChildCover | ChildScrollShadow | ChildList.

Inductive Effect :=
| TimerCancel (t : TimerId)
| TimerCallOnce (t : TimerId) (ms : Z)
| Created (c : Child)
| Destroyed (c : Child).

(** ** The panel *)

(** The enumeration is declared in the header, which is not among the
    sources; the code only tells [Layout::Full] from the other layout. *)
Inductive Layout := Full | OnlyPlaylist.

Definition Layout_eqb (a b : Layout) : bool :=
  match a, b with
  | Full, Full | OnlyPlaylist, OnlyPlaylist => true
  | _, _ => false
  end.

Record Panel := {
  _layout : Layout;
  _hiding : bool;
  _cache : bool;                      (* !_cache.isNull() *)
  _a_appearance : bool;               (* the animation is running *)
  _ignoringEnterEvents : bool;
  _showTimer : Timer;
  _hideTimer : Timer;
  _pinCallback : ButtonCallback;
  _closeCallback : ButtonCallback;
  _cover : option CoverWidget;
  _scroll : ScrollArea;
  _scrollShadow : option PlainShadow;
  _refreshListLifetime : bool;        (* the subscription is alive *)
  _listPeer : option PeerPtr;
  _listMigratedPeer : option PeerPtr;
  (* QWidget part *)
  widget_hidden : bool;               (* isHidden() *)
  widget_size : QSize;
  activeChanged_connected : bool;
  trace : list Effect
}.

(** Assignment to one member; the other members keep their value. *)
Definition set_hiding (v : bool) (p : Panel) : Panel :=
  {| _layout := _layout p; _hiding := v; _cache := _cache p;
     _a_appearance := _a_appearance p;
     _ignoringEnterEvents := _ignoringEnterEvents p;
     _showTimer := _showTimer p; _hideTimer := _hideTimer p;
     _pinCallback := _pinCallback p; _closeCallback := _closeCallback p;
     _cover := _cover p; _scroll := _scroll p;
     _scrollShadow := _scrollShadow p;
     _refreshListLifetime := _refreshListLifetime p;
     _listPeer := _listPeer p; _listMigratedPeer := _listMigratedPeer p;
     widget_hidden := widget_hidden p; widget_size := widget_size p;
     activeChanged_connected := activeChanged_connected p; trace := trace p |}.

Definition set_cache (v : bool) (p : Panel) : Panel :=
  {| _layout := _layout p; _hiding := _hiding p; _cache := v;
     _a_appearance := _a_appearance p;
     _ignoringEnterEvents := _ignoringEnterEvents p;
     _showTimer := _showTimer p; _hideTimer := _hideTimer p;
     _pinCallback := _pinCallback p; _closeCallback := _closeCallback p;
     _cover := _cover p; _scroll := _scroll p;
     _scrollShadow := _scrollShadow p;
     _refreshListLifetime := _refreshListLifetime p;
     _listPeer := _listPeer p; _listMigratedPeer := _listMigratedPeer p;
     widget_hidden := widget_hidden p; widget_size := widget_size p;
     activeChanged_connected := activeChanged_connected p; trace := trace p |}.

Definition set_a_appearance (v : bool) (p : Panel) : Panel :=
  {| _layout := _layout p; _hiding := _hiding p; _cache := _cache p;
     _a_appearance := v; _ignoringEnterEvents := _ignoringEnterEvents p;
     _showTimer := _showTimer p; _hideTimer := _hideTimer p;
     _pinCallback := _pinCallback p; _closeCallback := _closeCallback p;
     _cover := _cover p; _scroll := _scroll p;
     _scrollShadow := _scrollShadow p;
     _refreshListLifetime := _refreshListLifetime p;
     _listPeer := _listPeer p; _listMigratedPeer := _listMigratedPeer p;
     widget_hidden := widget_hidden p; widget_size := widget_size p;
     activeChanged_connected := activeChanged_connected p; trace := trace p |}.

Definition set_ignoringEnterEvents (v : bool) (p : Panel) : Panel :=
  {| _layout := _layout p; _hiding := _hiding p; _cache := _cache p;
     _a_appearance := _a_appearance p; _ignoringEnterEvents := v;
     _showTimer := _showTimer p; _hideTimer := _hideTimer p;
     _pinCallback := _pinCallback p; _closeCallback := _closeCallback p;
     _cover := _cover p; _scroll := _scroll p;
     _scrollShadow := _scrollShadow p;
     _refreshListLifetime := _refreshListLifetime p;
     _listPeer := _listPeer p; _listMigratedPeer := _listMigratedPeer p;
     widget_hidden := widget_hidden p; widget_size := widget_size p;
     activeChanged_connected := activeChanged_connected p; trace := trace p |}.

Definition set_showTimer (v : Timer) (p : Panel) : Panel :=
  {| _layout := _layout p; _hiding := _hiding p; _cache := _cache p;
     _a_appearance := _a_appearance p;
     _ignoringEnterEvents := _ignoringEnterEvents p; _showTimer := v;
     _hideTimer := _hideTimer p; _pinCallback := _pinCallback p;
     _closeCallback := _closeCallback p; _cover := _cover p;
     _scroll := _scroll p; _scrollShadow := _scrollShadow p;
     _refreshListLifetime := _refreshListLifetime p;
     _listPeer := _listPeer p; _listMigratedPeer := _listMigratedPeer p;
     widget_hidden := widget_hidden p; widget_size := widget_size p;
     activeChanged_connected := activeChanged_connected p; trace := trace p |}.

Definition set_hideTimer (v : Timer) (p : Panel) : Panel :=
  {| _layout := _layout p; _hiding := _hiding p; _cache := _cache p;
     _a_appearance := _a_appearance p;
     _ignoringEnterEvents := _ignoringEnterEvents p;
     _showTimer := _showTimer p; _hideTimer := v;
     _pinCallback := _pinCallback p; _closeCallback := _closeCallback p;
     _cover := _cover p; _scroll := _scroll p;
     _scrollShadow := _scrollShadow p;
     _refreshListLifetime := _refreshListLifetime p;
     _listPeer := _listPeer p; _listMigratedPeer := _listMigratedPeer p;
     widget_hidden := widget_hidden p; widget_size := widget_size p;
     activeChanged_connected := activeChanged_connected p; trace := trace p |}.

Definition set_pinCallback (v : ButtonCallback) (p : Panel) : Panel :=
  {| _layout := _layout p; _hiding := _hiding p; _cache := _cache p;
     _a_appearance := _a_appearance p;
     _ignoringEnterEvents := _ignoringEnterEvents p;
     _showTimer := _showTimer p; _hideTimer := _hideTimer p;
     _pinCallback := v; _closeCallback := _closeCallback p;
     _cover := _cover p; _scroll := _scroll p;
     _scrollShadow := _scrollShadow p;
     _refreshListLifetime := _refreshListLifetime p;
     _listPeer := _listPeer p; _listMigratedPeer := _listMigratedPeer p;
     widget_hidden := widget_hidden p; widget_size := widget_size p;
     activeChanged_connected := activeChanged_connected p; trace := trace p |}.

Definition set_closeCallback (v : ButtonCallback) (p : Panel) : Panel :=
  {| _layout := _layout p; _hiding := _hiding p; _cache := _cache p;
     _a_appearance := _a_appearance p;
     _ignoringEnterEvents := _ignoringEnterEvents p;
     _showTimer := _showTimer p; _hideTimer := _hideTimer p;
     _pinCallback := _pinCallback p; _closeCallback := v;
     _cover := _cover p; _scroll := _scroll p;
     _scrollShadow := _scrollShadow p;
     _refreshListLifetime := _refreshListLifetime p;
     _listPeer := _listPeer p; _listMigratedPeer := _listMigratedPeer p;
     widget_hidden := widget_hidden p; widget_size := widget_size p;
     activeChanged_connected := activeChanged_connected p; trace := trace p |}.

Definition set_cover (v : option CoverWidget) (p : Panel) : Panel :=
  {| _layout := _layout p; _hiding := _hiding p; _cache := _cache p;
     _a_appearance := _a_appearance p;
     _ignoringEnterEvents := _ignoringEnterEvents p;
     _showTimer := _showTimer p; _hideTimer := _hideTimer p;
     _pinCallback := _pinCallback p; _closeCallback := _closeCallback p;
     _cover := v; _scroll := _scroll p; _scrollShadow := _scrollShadow p;
     _refreshListLifetime := _refreshListLifetime p;
     _listPeer := _listPeer p; _listMigratedPeer := _listMigratedPeer p;
     widget_hidden := widget_hidden p; widget_size := widget_size p;
     activeChanged_connected := activeChanged_connected p; trace := trace p |}.

Definition set_scroll (v : ScrollArea) (p : Panel) : Panel :=
  {| _layout := _layout p; _hiding := _hiding p; _cache := _cache p;
     _a_appearance := _a_appearance p;
     _ignoringEnterEvents := _ignoringEnterEvents p;
     _showTimer := _showTimer p; _hideTimer := _hideTimer p;
     _pinCallback := _pinCallback p; _closeCallback := _closeCallback p;
     _cover := _cover p; _scroll := v; _scrollShadow := _scrollShadow p;
     _refreshListLifetime := _refreshListLifetime p;
     _listPeer := _listPeer p; _listMigratedPeer := _listMigratedPeer p;
     widget_hidden := widget_hidden p; widget_size := widget_size p;
     activeChanged_connected := activeChanged_connected p; trace := trace p |}.

Definition set_scrollShadow (v : option PlainShadow) (p : Panel) : Panel :=
  {| _layout := _layout p; _hiding := _hiding p; _cache := _cache p;
     _a_appearance := _a_appearance p;
     _ignoringEnterEvents := _ignoringEnterEvents p;
     _showTimer := _showTimer p; _hideTimer := _hideTimer p;
     _pinCallback := _pinCallback p; _closeCallback := _closeCallback p;
     _cover := _cover p; _scroll := _scroll p; _scrollShadow := v;
     _refreshListLifetime := _refreshListLifetime p;
     _listPeer := _listPeer p; _listMigratedPeer := _listMigratedPeer p;
     widget_hidden := widget_hidden p; widget_size := widget_size p;
     activeChanged_connected := activeChanged_connected p; trace := trace p |}.

Definition set_refreshListLifetime (v : bool) (p : Panel) : Panel :=
  {| _layout := _layout p; _hiding := _hiding p; _cache := _cache p;
     _a_appearance := _a_appearance p;
     _ignoringEnterEvents := _ignoringEnterEvents p;
     _showTimer := _showTimer p; _hideTimer := _hideTimer p;
     _pinCallback := _pinCallback p; _closeCallback := _closeCallback p;
     _cover := _cover p; _scroll := _scroll p;
     _scrollShadow := _scrollShadow p; _refreshListLifetime := v;
     _listPeer := _listPeer p; _listMigratedPeer := _listMigratedPeer p;
     widget_hidden := widget_hidden p; widget_size := widget_size p;
     activeChanged_connected := activeChanged_connected p; trace := trace p |}.

Definition set_listPeer (v : option PeerPtr) (p : Panel) : Panel :=
  {| _layout := _layout p; _hiding := _hiding p; _cache := _cache p;
     _a_appearance := _a_appearance p;
     _ignoringEnterEvents := _ignoringEnterEvents p;
     _showTimer := _showTimer p; _hideTimer := _hideTimer p;
     _pinCallback := _pinCallback p; _closeCallback := _closeCallback p;
     _cover := _cover p; _scroll := _scroll p;
     _scrollShadow := _scrollShadow p;
     _refreshListLifetime := _refreshListLifetime p; _listPeer := v;
     _listMigratedPeer := _listMigratedPeer p;
     widget_hidden := widget_hidden p; widget_size := widget_size p;
     activeChanged_connected := activeChanged_connected p; trace := trace p |}.

Definition set_listMigratedPeer (v : option PeerPtr) (p : Panel) : Panel :=
  {| _layout := _layout p; _hiding := _hiding p; _cache := _cache p;
     _a_appearance := _a_appearance p;
     _ignoringEnterEvents := _ignoringEnterEvents p;
     _showTimer := _showTimer p; _hideTimer := _hideTimer p;
     _pinCallback := _pinCallback p; _closeCallback := _closeCallback p;
     _cover := _cover p; _scroll := _scroll p;
     _scrollShadow := _scrollShadow p;
     _refreshListLifetime := _refreshListLifetime p;
     _listPeer := _listPeer p; _listMigratedPeer := v;
     widget_hidden := widget_hidden p; widget_size := widget_size p;
     activeChanged_connected := activeChanged_connected p; trace := trace p |}.

Definition set_widget_hidden (v : bool) (p : Panel) : Panel :=
  {| _layout := _layout p; _hiding := _hiding p; _cache := _cache p;
     _a_appearance := _a_appearance p;
     _ignoringEnterEvents := _ignoringEnterEvents p;
     _showTimer := _showTimer p; _hideTimer := _hideTimer p;
     _pinCallback := _pinCallback p; _closeCallback := _closeCallback p;
     _cover := _cover p; _scroll := _scroll p;
     _scrollShadow := _scrollShadow p;
     _refreshListLifetime := _refreshListLifetime p;
     _listPeer := _listPeer p; _listMigratedPeer := _listMigratedPeer p;
     widget_hidden := v; widget_size := widget_size p;
     activeChanged_connected := activeChanged_connected p; trace := trace p |}.

Definition set_widget_size (v : QSize) (p : Panel) : Panel :=
  {| _layout := _layout p; _hiding := _hiding p; _cache := _cache p;
     _a_appearance := _a_appearance p;
     _ignoringEnterEvents := _ignoringEnterEvents p;
     _showTimer := _showTimer p; _hideTimer := _hideTimer p;
     _pinCallback := _pinCallback p; _closeCallback := _closeCallback p;
     _cover := _cover p; _scroll := _scroll p;
     _scrollShadow := _scrollShadow p;
     _refreshListLifetime := _refreshListLifetime p;
     _listPeer := _listPeer p; _listMigratedPeer := _listMigratedPeer p;
     widget_hidden := widget_hidden p; widget_size := v;
     activeChanged_connected := activeChanged_connected p; trace := trace p |}.

Definition set_activeChanged_connected (v : bool) (p : Panel) : Panel :=
  {| _layout := _layout p; _hiding := _hiding p; _cache := _cache p;
     _a_appearance := _a_appearance p;
     _ignoringEnterEvents := _ignoringEnterEvents p;
     _showTimer := _showTimer p; _hideTimer := _hideTimer p;
     _pinCallback := _pinCallback p; _closeCallback := _closeCallback p;
     _cover := _cover p; _scroll := _scroll p;
     _scrollShadow := _scrollShadow p;
     _refreshListLifetime := _refreshListLifetime p;
     _listPeer := _listPeer p; _listMigratedPeer := _listMigratedPeer p;
     widget_hidden := widget_hidden p; widget_size := widget_size p;
     activeChanged_connected := v; trace := trace p |}.

Definition set_trace (v : list Effect) (p : Panel) : Panel :=
  {| _layout := _layout p; _hiding := _hiding p; _cache := _cache p;
     _a_appearance := _a_appearance p;
     _ignoringEnterEvents := _ignoringEnterEvents p;
     _showTimer := _showTimer p; _hideTimer := _hideTimer p;
     _pinCallback := _pinCallback p; _closeCallback := _closeCallback p;
     _cover := _cover p; _scroll := _scroll p;
     _scrollShadow := _scrollShadow p;
     _refreshListLifetime := _refreshListLifetime p;
     _listPeer := _listPeer p; _listMigratedPeer := _listMigratedPeer p;
     widget_hidden := widget_hidden p; widget_size := widget_size p;
     activeChanged_connected := activeChanged_connected p; trace := v |}.

(** ** Helpers for the framework calls *)

Definition emit (e : Effect) (p : Panel) : Panel :=
  set_trace (trace p ++ [e]) p.

(** [base::Timer::cancel] and [base::Timer::callOnce]. *)
Definition Timer_cancel (t : TimerId) (p : Panel) : Panel :=
  emit (TimerCancel t)
    match t with
    | ShowTimer => set_showTimer Idle p
    | HideTimer => set_hideTimer Idle p
    end.

Definition Timer_callOnce (t : TimerId) (ms : Z) (p : Panel) : Panel :=
  emit (TimerCallOnce t ms)
    match t with
    | ShowTimer => set_showTimer (Once ms) p
    | HideTimer => set_hideTimer (Once ms) p
    end.

Definition timer_of (t : TimerId) (p : Panel) : Timer :=
  match t with ShowTimer => _showTimer p | HideTimer => _hideTimer p end.

(** [QWidget::hide], [QWidget::show], [QWidget::resize], [isHidden],
    [width], [height], [rect]. *)
Definition hide (p : Panel) : Panel := set_widget_hidden true p.
Definition show (p : Panel) : Panel := set_widget_hidden false p.
Definition resize (w h : Z) (p : Panel) : Panel :=
  set_widget_size {| size_w := w; size_h := h |} p.
Definition isHidden (p : Panel) : bool := widget_hidden p.
Definition width (p : Panel) : Z := size_w (widget_size p).
Definition height (p : Panel) : Z := size_h (widget_size p).
Definition rect (p : Panel) : QRect := QRect_xywh 0 0 (width p) (height p).

(** [mapFromGlobal]: a translation by the panel's position on screen. *)
Definition mapFromGlobal (w : World) (pt : QPoint) : QPoint :=
  {| px := px pt - px (global_origin w); py := py pt - py (global_origin w) |}.

(** Updates of the scroll area and of the widget it owns. *)
Definition scroll_setWidget (l : option ListWidget) (s : ScrollArea) :=
  {| scroll_widget := l; scroll_visible := scroll_visible s;
     scroll_geometryToRight := scroll_geometryToRight s;
     scroll_requestedY := scroll_requestedY s |}.

Definition scroll_setVisible (v : bool) (s : ScrollArea) :=
  {| scroll_widget := scroll_widget s; scroll_visible := v;
     scroll_geometryToRight := scroll_geometryToRight s;
     scroll_requestedY := scroll_requestedY s |}.

Definition scroll_setGeometryToRight (g : Z * Z * Z * Z) (s : ScrollArea) :=
  {| scroll_widget := scroll_widget s; scroll_visible := scroll_visible s;
     scroll_geometryToRight := Some g;
     scroll_requestedY := scroll_requestedY s |}.

Definition scroll_scrollToY (y : Z) (s : ScrollArea) :=
  {| scroll_widget := scroll_widget s; scroll_visible := scroll_visible s;
     scroll_geometryToRight := scroll_geometryToRight s;
     scroll_requestedY := Some y |}.

Definition list_setWidth (v : Z) (l : ListWidget) :=
  {| list_width := v; list_height := list_height l;
     list_preventAutoHide := list_preventAutoHide l;
     list_currentSongGeometry := list_currentSongGeometry l;
     list_restored := list_restored l |}.

Definition list_setHeight (v : Z) (l : ListWidget) :=
  {| list_width := list_width l; list_height := v;
     list_preventAutoHide := list_preventAutoHide l;
     list_currentSongGeometry := list_currentSongGeometry l;
     list_restored := list_restored l |}.

Definition list_setPreventAutoHide (v : bool) (l : ListWidget) :=
  {| list_width := list_width l; list_height := list_height l;
     list_preventAutoHide := v;
     list_currentSongGeometry := list_currentSongGeometry l;
     list_restored := list_restored l |}.

Definition list_restoreState (m : Memento) (l : ListWidget) :=
  {| list_width := list_width l; list_height := list_height l;
     list_preventAutoHide := list_preventAutoHide l;
     list_currentSongGeometry := list_currentSongGeometry l;
     list_restored := Some m |}.

(** Apply [f] to the widget owned by the scroll area, if there is one. *)
Definition with_list (f : ListWidget -> ListWidget) (p : Panel) : Panel :=
  match scroll_widget (_scroll p) with
  | Some l => set_scroll (scroll_setWidget (Some (f l)) (_scroll p)) p
  | None => p
  end.

Definition cover_setVisible (v : bool) (c : CoverWidget) :=
  {| cover_width := cover_width c; cover_height := cover_height c;
     cover_right := cover_right c; cover_top := cover_top c;
     cover_visible := v;
     cover_pinCallback := cover_pinCallback c;
     cover_closeCallback := cover_closeCallback c |}.

Definition cover_setPinCallback (cb : ButtonCallback) (c : CoverWidget) :=
  {| cover_width := cover_width c; cover_height := cover_height c;
     cover_right := cover_right c; cover_top := cover_top c;
     cover_visible := cover_visible c;
     cover_pinCallback := cb;
     cover_closeCallback := cover_closeCallback c |}.

Definition cover_setCloseCallback (cb : ButtonCallback) (c : CoverWidget) :=
  {| cover_width := cover_width c; cover_height := cover_height c;
     cover_right := cover_right c; cover_top := cover_top c;
     cover_visible := cover_visible c;
     cover_pinCallback := cover_pinCallback c;
     cover_closeCallback := cb |}.

(** [resizeToWidth(width)] then [moveToRight(right, top)] on the cover. *)
Definition cover_place (w : World) (width right top : Z) (c : CoverWidget) :=
  {| cover_width := width; cover_height := cover_resizeGetHeight w width;
     cover_right := right; cover_top := top;
     cover_visible := cover_visible c;
     cover_pinCallback := cover_pinCallback c;
     cover_closeCallback := cover_closeCallback c |}.

(** [resize(width, height)] then [moveToRight(right, top)] on the shadow. *)
Definition shadow_place (width height right top : Z) (s : PlainShadow) :=
  {| shadow_width := width; shadow_height := height;
     shadow_right := right; shadow_top := top;
     shadow_visible := shadow_visible s |}.

Definition shadow_setVisible (v : bool) (s : PlainShadow) :=
  {| shadow_width := shadow_width s; shadow_height := shadow_height s;
     shadow_right := shadow_right s; shadow_top := shadow_top s;
     shadow_visible := v |}.

(** [TWidget::showChildren] / [hideChildren]: the direct children are the
    scroll area, the cover and the scroll shadow. *)
Definition setChildrenVisible (v : bool) (p : Panel) : Panel :=
  set_scrollShadow (option_map (shadow_setVisible v) (_scrollShadow p))
    (set_cover (option_map (cover_setVisible v) (_cover p))
       (set_scroll (scroll_setVisible v (_scroll p)) p)).

Definition showChildren := setChildrenVisible true.
Definition hideChildren := setChildrenVisible false.

(** The result of a function whose return type is [not_null<T*>]: building
    a [not_null] from a null pointer fails its [Expects] check. *)
Inductive not_null (A : Type) : Type :=
| Returned (a : A)
| ExpectsFailed.
Arguments Returned {A} a.
Arguments ExpectsFailed {A}.

(** ** The methods of [Panel] *)

Definition kPlaylistIdsLimit : Z := 32.
Definition kDelayedHideTimeout : Z := 3000.

Section PanelMethods.

Variable sty : Style.

Definition contentLeft (p : Panel) : Z := mediaPlayerPanelMarginLeft sty.

Definition contentTop (p : Panel) : Z :=
  if Layout_eqb (_layout p) Full then 0 else mediaPlayerPanelMarginLeft sty.

Definition contentRight (p : Panel) : Z :=
  if Layout_eqb (_layout p) Full then 0 else mediaPlayerPanelMarginLeft sty.

Definition contentBottom (p : Panel) : Z := mediaPlayerPanelMarginBottom sty.

Definition scrollMarginBottom (p : Panel) : Z := 0.

(** Declared inline in the header, which is not among the sources: the
    width left between the two horizontal content margins. *)
Definition contentWidth (p : Panel) : Z :=
  width p - contentLeft p - contentRight p.

Definition overlaps (w : World) (globalRect : QRect) (p : Panel) : bool :=
  if isHidden p || _a_appearance p then false else
  let marginLeft := if rtl w then contentRight p else contentLeft p in
  let marginRight := if rtl w then contentLeft p else contentRight p in
  rect_contains
    (marginsRemoved (rect p)
       {| m_left := marginLeft; m_top := contentTop p;
          m_right := marginRight; m_bottom := contentBottom p |})
    (QRect_of (mapFromGlobal w (rect_topLeft globalRect))
       (rect_size globalRect)).

Definition emptyInnerHeight : Z :=
  m_top (infoMediaMargin sty)
  + m_top (overviewFileLayout_songPadding sty)
  + overviewFileLayout_songThumbSize sty
  + m_bottom (overviewFileLayout_songPadding sty)
  + m_bottom (infoMediaMargin sty).

Definition contentTooSmall (p : Panel) : bool :=
  let innerHeight :=
    match scroll_widget (_scroll p) with
    | Some l => list_height l
    | None => emptyInnerHeight
    end in
  (innerHeight <=? emptyInnerHeight)
  && negb (match _cover p with Some _ => true | None => false end).

Definition preventAutoHide (p : Panel) : bool :=
  match scroll_widget (_scroll p) with
  | Some l => list_preventAutoHide l
  | None => false
  end.

(** The local [scrollTop] of [updateControlsGeometry] once the cover has
    been placed, and the local [scrollHeight]. *)
Definition updateControlsGeometry_scrollTop (w : World) (p : Panel) : Z :=
  match _cover p with
  | Some _ => contentTop p + cover_resizeGetHeight w (contentWidth p)
  | None => contentTop p
  end.

Definition updateControlsGeometry_scrollHeight (w : World) (p : Panel) : Z :=
  Z.max (height p - updateControlsGeometry_scrollTop w p
         - contentBottom p - scrollMarginBottom p) 0.

Definition updateControlsGeometry (w : World) (p : Panel) : Panel :=
  let scrollTop0 := contentTop p in
  let width := contentWidth p in
  let scrollTop := updateControlsGeometry_scrollTop w p in
  let p1 :=
    match _cover p with
    | Some c =>
        let p' :=
          set_cover
            (Some (cover_place w width (contentRight p) scrollTop0 c)) p in
        match _scrollShadow p' with
        | Some s =>
            set_scrollShadow
              (Some (shadow_place width
                       (m_bottom (mediaPlayerScrollShadow_extend sty))
                       (contentRight p) scrollTop s)) p'
        | None => p'
        end
    | None => p
    end in
  let scrollHeight := updateControlsGeometry_scrollHeight w p in
  let p2 :=
    if scrollHeight >? 0 then
      set_scroll
        (scroll_setGeometryToRight
           (contentRight p, scrollTop, width, scrollHeight) (_scroll p1)) p1
    else p1 in
  with_list (list_setWidth width) p2.

Definition resizeEvent (w : World) (p : Panel) : Panel :=
  updateControlsGeometry w p.

(** C++ [/] on [int] truncates towards zero. *)
Definition bestPositionFor (left : Z) (p : Panel) : Z :=
  left - contentLeft p
  - m_left (mediaPlayerFileLayout_songPadding sty)
  - Z.quot (mediaPlayerFileLayout_songThumbSize sty) 2.

Definition scrollPlaylistToCurrentTrack (p : Panel) : Panel :=
  match scroll_widget (_scroll p) with
  | Some l =>
      set_scroll
        (scroll_scrollToY
           (y1 (list_currentSongGeometry l) - m_top (infoMediaMargin sty))
           (_scroll p)) p
  | None => p
  end.

(** The locals [listHeight] and [scrollVisible] of [updateSize]. *)
Definition updateSize_listHeight (p : Panel) : Z :=
  match scroll_widget (_scroll p) with
  | Some l => list_height l
  | None => 0
  end.

Definition updateSize (p : Panel) : Panel :=
  let width := contentLeft p + mediaPlayerPanelWidth sty + contentRight p in
  let height0 := contentTop p in
  let height1 :=
    match _cover p with
    | Some c => height0 + cover_height c
    | None => height0
    end in
  let listHeight := updateSize_listHeight p in
  let scrollVisible := listHeight >? 0 in
  let scrollHeight :=
    if scrollVisible
    then Z.min listHeight (mediaPlayerListHeightMax sty)
         + mediaPlayerListMarginBottom sty
    else 0 in
  let height := height1 + (scrollHeight + contentBottom p) in
  let p1 := resize width height p in
  let p2 := set_scroll (scroll_setVisible scrollVisible (_scroll p1)) p1 in
  match _scrollShadow p2 with
  | Some s => set_scrollShadow (Some (shadow_setVisible scrollVisible s)) p2
  | None => p2
  end.

Definition listHeightUpdated (newHeight : Z) (p : Panel) : Panel :=
  if (newHeight >? emptyInnerHeight)
     || match _cover p with Some _ => true | None => false end
  then updateSize p
  else Timer_callOnce HideTimer 0 p.

Definition setPinCallback (callback : ButtonCallback) (p : Panel) : Panel :=
  let p1 := set_pinCallback callback p in
  match _cover p1 with
  | Some c =>
      set_cover (Some (cover_setPinCallback (_pinCallback p1) c)) p1
  | None => p1
  end.

Definition setCloseCallback (callback : ButtonCallback) (p : Panel) : Panel :=
  let p1 := set_closeCallback callback p in
  match _cover p1 with
  | Some c =>
      set_cover (Some (cover_setCloseCallback (_closeCallback p1) c)) p1
  | None => p1
  end.

(** Pointer comparison of two nullable [PeerData*]. *)
Definition ptr_eqb (a b : option PeerPtr) : bool :=
  match a, b with
  | Some x, Some y => Pos.eqb x y
  | None, None => true
  | _, _ => false
  end.

(** [_scroll->takeWidget<QWidget>().destroy()]. *)
Definition scroll_takeWidget_destroy (p : Panel) : Panel :=
  match scroll_widget (_scroll p) with
  | Some _ =>
      emit (Destroyed ChildList)
        (set_scroll (scroll_setWidget None (_scroll p)) p)
  | None => p
  end.

(** [_scroll->setOwnedWidget(std::move(list))]; the scroll area deletes a
    widget it still owns when a new one is set. *)
Definition scroll_setOwnedWidget (l : ListWidget) (p : Panel) : Panel :=
  let p1 := scroll_takeWidget_destroy p in
  set_scroll (scroll_setWidget (Some l) (_scroll p1)) p1.

(** The handler subscribed to [weak->heightValue()]: the list has taken
    the height [newHeight] and tells the panel. *)
Definition heightValue_next (newHeight : Z) (p : Panel) : Panel :=
  match scroll_widget (_scroll p) with
  | Some _ =>
      listHeightUpdated newHeight (with_list (list_setHeight newHeight) p)
  | None => p
  end.

(** The handler subscribed to [weak->checkForHide()]. *)
Definition checkForHide_next (w : World) (p : Panel) : Panel :=
  match scroll_widget (_scroll p) with
  | Some _ =>
      if negb (rect_contains_point (rect p) (mapFromGlobal w (cursor_pos w)))
      then Timer_callOnce HideTimer kDelayedHideTimeout p
      else p
  | None => p
  end.

(** The handler subscribed to [weak->scrollToRequests()]. *)
Definition scrollToRequests_next (newScrollTop : Z) (p : Panel) : Panel :=
  match scroll_widget (_scroll p) with
  | Some _ => set_scroll (scroll_scrollToY newScrollTop (_scroll p)) p
  | None => p
  end.

(** The lambda [peer] of [refreshList]. *)
Definition refreshList_peer (w : World) : option PeerPtr :=
  let contextId := current_song_contextId w in
  let item :=
    if FullMsgId_bool contextId then histItemById w contextId else None in
  let media := match item with Some i => getMedia i | None => None end in
  let document :=
    match media with Some m => getDocument m | None => None end in
  match document, item with
  | Some d, Some i =>
      if negb (isSharedMediaMusic d) then None else
      let result := history_peer i in
      match migrateTo (peerData w result) with
      | Some migrated => Some migrated
      | None => Some result
      end
  | _, _ => None
  end.

(** The local [migrated] of [refreshList]. *)
Definition refreshList_migrated (w : World) : option PeerPtr :=
  match refreshList_peer w with
  | Some pr => migrateFrom (peerData w pr)
  | None => None
  end.

(** The condition of the first [if] of [refreshList]. *)
Definition refreshList_changed (w : World) (p : Panel) : bool :=
  negb (ptr_eqb (_listPeer p) (refreshList_peer w))
  || negb (ptr_eqb (_listMigratedPeer p) (refreshList_migrated w)).

Definition refreshList (w : World) (p : Panel) : Panel :=
  let contextId := current_song_contextId w in
  let peer := refreshList_peer w in
  let migrated := refreshList_migrated w in
  let p1 :=
    if refreshList_changed w p
    then set_listPeer None
           (set_listMigratedPeer None (scroll_takeWidget_destroy p))
    else p in
  match peer, _listPeer p1 with
  | Some pr, None =>
      let p2 := set_listMigratedPeer migrated (set_listPeer (Some pr) p1) in
      let p3 := scroll_setOwnedWidget (created_list w)
                  (emit (Created ChildList) p2) in
      let p4 := updateControlsGeometry w (updateSize p3) in
      let p5 := fold_left (fun q h => heightValue_next h q)
                  (published_heights w) p4 in
      let memento :=
        {| memento_peer := pr;
           memento_migrated := _listMigratedPeer p5;
           memento_aroundId := contextId;
           memento_idsLimit := kPlaylistIdsLimit;
           memento_scrollTopItem := contextId;
           memento_scrollTopShift := - m_top (infoMediaMargin sty) |} in
      with_list (list_restoreState memento) p5
  | _, _ => p1
  end.

(** The handler subscribed in [ensureCreated] to
    [instance()->playlistChanges(AudioMsgId::Type::Song)]; it lives as long
    as [_refreshListLifetime]. *)
Definition playlistChanges_next (type : AudioMsgIdType) (w : World)
    (p : Panel) : Panel :=
  if _refreshListLifetime p && AudioMsgIdType_eqb type Song
  then refreshList w p
  else p.

(** [object_ptr::create] destroys the object it holds before it makes the
    new one. *)
Definition cover_create (w : World) (p : Panel) : Panel :=
  let p1 := match _cover p with
            | Some _ => emit (Destroyed ChildCover) p
            | None => p
            end in
  set_cover (Some (created_cover w)) (emit (Created ChildCover) p1).

Definition scrollShadow_create (w : World) (p : Panel) : Panel :=
  let p1 := match _scrollShadow p with
            | Some _ => emit (Destroyed ChildScrollShadow) p
            | None => p
            end in
  set_scrollShadow (Some (created_shadow w))
    (emit (Created ChildScrollShadow) p1).

Definition cover_destroy (p : Panel) : Panel :=
  match _cover p with
  | Some _ => set_cover None (emit (Destroyed ChildCover) p)
  | None => p
  end.

(** [std::move(_pinCallback)] hands the stored callback to the setter,
    which stores it back. *)
Definition ensureCreated (w : World) (p : Panel) : Panel :=
  match scroll_widget (_scroll p) with
  | Some _ => p
  | None =>
      let p1 :=
        if Layout_eqb (_layout p) Full then
          let q1 := cover_create w p in
          let q2 := setPinCallback (_pinCallback q1) q1 in
          let q3 := setCloseCallback (_closeCallback q2) q2 in
          scrollShadow_create w q3
        else p in
      let p2 := set_refreshListLifetime true p1 in
      let p3 := refreshList w p2 in
      let p4 :=
        if platform_isMac w && has_window w
        then set_activeChanged_connected true p3
        else p3 in
      set_ignoringEnterEvents false p4
  end.

Definition performDestroy (w : World) (p : Panel) : Panel :=
  match scroll_widget (_scroll p) with
  | None => p
  | Some _ =>
      let p1 := cover_destroy p in
      let p2 := scroll_takeWidget_destroy p1 in
      let p3 := set_listPeer None (set_listMigratedPeer None p2) in
      let p4 := set_refreshListLifetime false p3 in
      if platform_isMac w && has_window w
      then set_activeChanged_connected false p4
      else p4
  end.

Definition peer (p : Panel) : not_null PeerPtr :=
  match _listPeer p with
  | Some pr => Returned pr
  | None => ExpectsFailed
  end.

Definition migrated (p : Panel) : option PeerPtr := _listMigratedPeer p.

Definition startAnimation (p : Panel) : Panel :=
  let p1 := if negb (_cache p)
            then set_cache true (showChildren p)   (* _cache = myGrab(this) *)
            else p in
  set_a_appearance true (hideChildren p1).

Definition startHide (p : Panel) : Panel :=
  if _hiding p || isHidden p then p
  else startAnimation (set_hiding true p).

Definition hideFinished (w : World) (p : Panel) : Panel :=
  performDestroy w (set_cache false (hide p)).

Definition appearanceCallback (w : World) (p : Panel) : Panel :=
  if negb (_a_appearance p) && _hiding p
  then hideFinished w (set_hiding false p)
  else p.                                           (* update() *)

Definition startShow (w : World) (p : Panel) : Panel :=
  let p1 := ensureCreated w p in
  if contentTooSmall p1 then p1 else
  if isHidden p1 then
    startAnimation (set_hiding false (show (scrollPlaylistToCurrentTrack p1)))
  else if negb (_hiding p1) then p1
  else startAnimation (set_hiding false p1).

Definition hideIgnoringEnterEvents (w : World) (p : Panel) : Panel :=
  let p1 := set_ignoringEnterEvents true p in
  if isHidden p1 then hideFinished w p1 else startHide p1.

Definition startHideChecked (w : World) (p : Panel) : Panel :=
  if negb (contentTooSmall p) && preventAutoHide p then p
  else if isHidden p then hideFinished w p
  else startHide p.

(** The base-class hooks [TWidget::enterEventHook] and
    [TWidget::leaveEventHook] touch no member of the panel. *)
Definition enterEventHook (w : World) (p : Panel) : Panel :=
  if _ignoringEnterEvents p || contentTooSmall p then p else
  let p1 := Timer_cancel HideTimer p in
  if _a_appearance p1 then startShow w p1
  else Timer_callOnce ShowTimer 0 p1.

Definition leaveEventHook (p : Panel) : Panel :=
  if preventAutoHide p then p else
  let p1 := Timer_cancel ShowTimer p in
  if _a_appearance p1 then startHide p1
  else Timer_callOnce HideTimer 300 p1.

Definition showFromOther (w : World) (p : Panel) : Panel :=
  let p1 := Timer_cancel HideTimer p in
  if _a_appearance p1 then startShow w p1
  else Timer_callOnce ShowTimer 300 p1.

Definition hideFromOther (p : Panel) : Panel :=
  let p1 := Timer_cancel ShowTimer p in
  if _a_appearance p1 then startHide p1
  else Timer_callOnce HideTimer 0 p1.

(** [leaveEvent(nullptr)] reaches [leaveEventHook]. *)
Definition windowActiveChanged (w : World) (p : Panel) : Panel :=
  if negb (window_isActive w) && negb (isHidden p)
  then leaveEventHook p
  else p.

(** The effect of [paintEvent] on the members; what it draws is left out. *)
Definition paintEvent (w : World) (p : Panel) : Panel :=
  if _cache p then
    if _a_appearance p then p
    else if _hiding p || isHidden p then hideFinished w p
    else set_cache false (showChildren p)
  else p.

(** The constructor.  The in-class initialisers of the header (not among
    the sources) leave the flags false, the pointers null, the timers and
    the animation idle; the scroll area is made by the member initialiser
    list, before the body hides the panel and sizes it. *)
Definition ScrollArea_new : ScrollArea :=
  {| scroll_widget := None; scroll_visible := true;
     scroll_geometryToRight := None; scroll_requestedY := None |}.

Definition Panel_new (layout : Layout) : Panel :=
  updateSize
    (hide
       {| _layout := layout;
          _hiding := false;
          _cache := false;
          _a_appearance := false;
          _ignoringEnterEvents := false;
          _showTimer := Idle;
          _hideTimer := Idle;
          _pinCallback := None;
          _closeCallback := None;
          _cover := None;
          _scroll := ScrollArea_new;
          _scrollShadow := None;
          _refreshListLifetime := false;
          _listPeer := None;
          _listMigratedPeer := None;
          widget_hidden := false;
          widget_size := {| size_w := 0; size_h := 0 |};
          activeChanged_connected := false;
          trace := [] |}).

(** ** Steps the framework takes on the panel *)

(** [_showTimer] fires: its callback is [startShow]. *)
Definition showTimer_fired (w : World) (p : Panel) : Panel :=
  match _showTimer p with
  | Once _ => startShow w (set_showTimer Idle p)
  | Idle => p
  end.

(** [_hideTimer] fires: its callback is [startHideChecked]. *)
Definition hideTimer_fired (w : World) (p : Panel) : Panel :=
  match _hideTimer p with
  | Once _ => startHideChecked w (set_hideTimer Idle p)
  | Idle => p
  end.

(** The running animation advances and calls [appearanceCallback]; with
    [finished] it has reached its end and stopped before the call. *)
Definition appearance_tick (finished : bool) (w : World) (p : Panel) : Panel :=
  if _a_appearance p
  then appearanceCallback w (set_a_appearance (negb finished) p)
  else p.

(** The [QWindow::activeChanged] signal, delivered while connected. *)
Definition activeChanged_signal (w : World) (p : Panel) : Panel :=
  if activeChanged_connected p then windowActiveChanged w p else p.

End PanelMethods.

(** ** Runs of the panel

    After construction the panel is driven by its owner (the public
    methods) and by the framework (events, timers, the animation, the
    subscriptions).  [Call] lists these entry points; each call comes with
    the [World] it sees. *)
Inductive Call :=
| Call_resizeEvent
| Call_paintEvent
| Call_enterEventHook
| Call_leaveEventHook
| Call_showFromOther
| Call_hideFromOther
| Call_hideIgnoringEnterEvents
| Call_setPinCallback (callback : ButtonCallback)
| Call_setCloseCallback (callback : ButtonCallback)
| Call_showTimer_fired
| Call_hideTimer_fired
| Call_appearance_tick (finished : bool)
| Call_activeChanged_signal
| Call_playlistChanges (type : AudioMsgIdType)
| Call_heightValue (newHeight : Z)
| Call_checkForHide
| Call_scrollToRequests (newScrollTop : Z)
  (* the list itself changes what preventAutoHide() and
     getCurrentSongGeometry() answer *)
| Call_list_preventAutoHide (v : bool)
| Call_list_currentSong (r : QRect).

Definition list_setCurrentSongGeometry (r : QRect) (l : ListWidget) :=
  {| list_width := list_width l; list_height := list_height l;
     list_preventAutoHide := list_preventAutoHide l;
     list_currentSongGeometry := r;
     list_restored := list_restored l |}.

Definition run (sty : Style) (c : Call) (w : World) (p : Panel) : Panel :=
  match c with
  | Call_resizeEvent => resizeEvent sty w p
  | Call_paintEvent => paintEvent w p
  | Call_enterEventHook => enterEventHook sty w p
  | Call_leaveEventHook => leaveEventHook p
  | Call_showFromOther => showFromOther sty w p
  | Call_hideFromOther => hideFromOther p
  | Call_hideIgnoringEnterEvents => hideIgnoringEnterEvents w p
  | Call_setPinCallback cb => setPinCallback cb p
  | Call_setCloseCallback cb => setCloseCallback cb p
  | Call_showTimer_fired => showTimer_fired sty w p
  | Call_hideTimer_fired => hideTimer_fired sty w p
  | Call_appearance_tick finished => appearance_tick finished w p
  | Call_activeChanged_signal => activeChanged_signal w p
  | Call_playlistChanges type => playlistChanges_next sty type w p
  | Call_heightValue h => heightValue_next sty h p
  | Call_checkForHide => checkForHide_next w p
  | Call_scrollToRequests y => scrollToRequests_next y p
  | Call_list_preventAutoHide v => with_list (list_setPreventAutoHide v) p
  | Call_list_currentSong r => with_list (list_setCurrentSongGeometry r) p
  end.

Inductive reachable (sty : Style) : Panel -> Prop :=
| reachable_new : forall layout, reachable sty (Panel_new sty layout)
| reachable_step : forall p c w,
    reachable sty p -> reachable sty (run sty c w p).

(** Runs made only of the three private methods that touch the list
    widget and the stored peers. *)
Inductive ListCall := LC_refreshList | LC_performDestroy | LC_hideFinished.

Definition run_list (sty : Style) (c : ListCall) (w : World) (p : Panel)
    : Panel :=
  match c with
  | LC_refreshList => refreshList sty w p
  | LC_performDestroy => performDestroy w p
  | LC_hideFinished => hideFinished w p
  end.

Fixpoint run_lists (sty : Style) (cs : list (ListCall * World)) (p : Panel)
    : Panel :=
  match cs with
  | [] => p
  | (c, w) :: rest => run_lists sty rest (run_list sty c w p)
  end.

(** * Vocabulary of the properties

    Views of the panel, the abstract structure the invariants are stated
    on, and the predicates the theorems use. *)

(** The height of the cover, 0 without a cover. *)
Definition cover_height_or_0 (p : Panel) : Z :=
  match _cover p with Some c => cover_height c | None => 0 end.

(** The panel's rectangle with the content margins removed, written out:
    the horizontal margins change sides under right-to-left layout. *)
Definition panel_inner_rect (sty : Style) (w : World) (p : Panel) : QRect :=
  {| x1 := if rtl w then contentRight sty p else contentLeft sty p;
     y1 := contentTop sty p;
     x2 := width p - 1
           - (if rtl w then contentLeft sty p else contentRight sty p);
     y2 := height p - 1 - contentBottom sty p |}.

(** A rectangle of the screen in the coordinates of the panel. *)
Definition rect_fromGlobal (w : World) (g : QRect) : QRect :=
  {| x1 := x1 g - px (global_origin w); y1 := y1 g - py (global_origin w);
     x2 := x2 g - px (global_origin w); y2 := y2 g - py (global_origin w) |}.

(** Timer calls, as opposed to creations and destructions of children. *)
Definition is_timer_op (e : Effect) : bool :=
  match e with
  | TimerCancel _ | TimerCallOnce _ _ => true
  | Created _ | Destroyed _ => false
  end.

(** The timer calls of a trace, and the creations and destructions of
    child widgets of a trace. *)
Definition timer_ops (tr : list Effect) : list Effect := filter is_timer_op tr.

Definition child_ops (tr : list Effect) : list Effect :=
  filter (fun e => negb (is_timer_op e)) tr.

(** A pointer is non-null. *)
Definition is_some {A : Type} (o : option A) : bool :=
  match o with Some _ => true | None => false end.

(** [_cover], [_scrollShadow] and [_scroll->widget()] are non-null. *)
Definition has_cover (p : Panel) : bool := is_some (_cover p).

Definition has_scrollShadow (p : Panel) : bool := is_some (_scrollShadow p).

Definition has_list (p : Panel) : bool := is_some (scroll_widget (_scroll p)).

(** [core] gathers what the geometry code never touches: the layout, the
    flags, the show timer, which children exist and their creations and
    destructions so far, the subscription and the stored peers.  The hide
    timer and the timer calls are left out because [listHeightUpdated] may
    arm the hide timer. *)
Record Core := {
  core_layout : Layout;
  core_hiding : bool;
  core_cache : bool;
  core_animating : bool;
  core_ignoring : bool;
  core_showTimer : Timer;
  core_cover : bool;
  core_shadow : bool;
  core_list : bool;
  core_lifetime : bool;
  core_listPeer : option PeerPtr;
  core_listMigratedPeer : option PeerPtr;
  core_hidden : bool;
  core_connected : bool;
  core_children : list Effect
}.

Definition core (p : Panel) : Core :=
  {| core_layout := _layout p;
     core_hiding := _hiding p;
     core_cache := _cache p;
     core_animating := _a_appearance p;
     core_ignoring := _ignoringEnterEvents p;
     core_showTimer := _showTimer p;
     core_cover := has_cover p;
     core_shadow := has_scrollShadow p;
     core_list := has_list p;
     core_lifetime := _refreshListLifetime p;
     core_listPeer := _listPeer p;
     core_listMigratedPeer := _listMigratedPeer p;
     core_hidden := widget_hidden p;
     core_connected := activeChanged_connected p;
     core_children := child_ops (trace p) |}.

(** The timers and the timer calls recorded in the trace. *)
Definition timers (p : Panel) : Timer * Timer * list Effect :=
  (_showTimer p, _hideTimer p, timer_ops (trace p)).

(** The structure of the panel: which children exist, which peers are
    stored and whether the panel listens to playlist changes.  Only
    [refreshList], [performDestroy] and [ensureCreated] change it, each in
    a way that the structure before the call determines; [S_refreshList],
    [S_performDestroy] and [S_ensureCreated] say how. *)
Record Structure := {
  s_layout : Layout;
  s_cover : bool;
  s_shadow : bool;
  s_list : bool;
  s_listPeer : option PeerPtr;
  s_listMigratedPeer : option PeerPtr;
  s_lifetime : bool
}.

Definition structure_of (c : Core) : Structure :=
  {| s_layout := core_layout c;
     s_cover := core_cover c;
     s_shadow := core_shadow c;
     s_list := core_list c;
     s_listPeer := core_listPeer c;
     s_listMigratedPeer := core_listMigratedPeer c;
     s_lifetime := core_lifetime c |}.

Definition structure (p : Panel) : Structure := structure_of (core p).

Definition S_refreshList (w : World) (s : Structure) : Structure :=
  if negb (ptr_eqb (s_listPeer s) (refreshList_peer w))
     || negb (ptr_eqb (s_listMigratedPeer s) (refreshList_migrated w))
  then {| s_layout := s_layout s;
          s_cover := s_cover s;
          s_shadow := s_shadow s;
          s_list := is_some (refreshList_peer w);
          s_listPeer := refreshList_peer w;
          s_listMigratedPeer := refreshList_migrated w;
          s_lifetime := s_lifetime s |}
  else s.

Definition S_performDestroy (s : Structure) : Structure :=
  if s_list s
  then {| s_layout := s_layout s;
          s_cover := false;
          s_shadow := s_shadow s;
          s_list := false;
          s_listPeer := None;
          s_listMigratedPeer := None;
          s_lifetime := false |}
  else s.

Definition S_ensureCreated (w : World) (s : Structure) : Structure :=
  if s_list s then s else
  S_refreshList w
    {| s_layout := s_layout s;
       s_cover := Layout_eqb (s_layout s) Full || s_cover s;
       s_shadow := Layout_eqb (s_layout s) Full || s_shadow s;
       s_list := false;
       s_listPeer := s_listPeer s;
       s_listMigratedPeer := s_listMigratedPeer s;
       s_lifetime := true |}.

(** What [refreshList] does in each of its three cases. *)
Definition refreshList_cleared (p : Panel) : Panel :=
  set_listPeer None (set_listMigratedPeer None (scroll_takeWidget_destroy p)).

Definition refreshList_installed (w : World) (pr : PeerPtr) (p : Panel)
    : Panel :=
  scroll_setOwnedWidget (created_list w)
    (emit (Created ChildList)
       (set_listMigratedPeer (refreshList_migrated w)
          (set_listPeer (Some pr) (refreshList_cleared p)))).

(** One component of the structure replaced. *)
Definition S_with_cover (v : bool) (s : Structure) : Structure :=
  {| s_layout := s_layout s; s_cover := v; s_shadow := s_shadow s;
     s_list := s_list s; s_listPeer := s_listPeer s;
     s_listMigratedPeer := s_listMigratedPeer s;
     s_lifetime := s_lifetime s |}.

Definition S_with_shadow (v : bool) (s : Structure) : Structure :=
  {| s_layout := s_layout s; s_cover := s_cover s; s_shadow := v;
     s_list := s_list s; s_listPeer := s_listPeer s;
     s_listMigratedPeer := s_listMigratedPeer s;
     s_lifetime := s_lifetime s |}.

Definition S_with_lifetime (v : bool) (s : Structure) : Structure :=
  {| s_layout := s_layout s; s_cover := s_cover s; s_shadow := s_shadow s;
     s_list := s_list s; s_listPeer := s_listPeer s;
     s_listMigratedPeer := s_listMigratedPeer s;
     s_lifetime := v |}.

(** Every call leaves the structure alone, or changes it as one of the
    three methods does; a playlist notification reaches [refreshList] only
    while the subscription is alive. *)
Inductive structure_step (w : World) (s : Structure) : Structure -> Prop :=
| step_same : structure_step w s s
| step_performDestroy : structure_step w s (S_performDestroy s)
| step_ensureCreated : structure_step w s (S_ensureCreated w s)
| step_refreshList :
    s_lifetime s = true -> structure_step w s (S_refreshList w s).

(** The three invariants: a list widget exists exactly when a peer is
    stored; cover and scroll shadow exist only in the full layout; while a
    list widget exists the playlist subscription is alive. *)
Definition list_peer_coupled (s : Structure) : Prop :=
  s_list s = is_some (s_listPeer s).

Definition children_only_full (s : Structure) : Prop :=
  s_cover s || s_shadow s = true -> s_layout s = Full.

Definition list_is_subscribed (s : Structure) : Prop :=
  s_list s = true -> s_lifetime s = true.

Definition structure_ok (s : Structure) : Prop :=
  list_peer_coupled s /\ children_only_full s /\ list_is_subscribed s.


(** [shown_since sty q p]: the panel [p] is reachable and visible, and
    [q] is the panel as the call that last made it visible left it. *)
Inductive shown_since (sty : Style) : Panel -> Panel -> Prop :=
| shown_by_call : forall p c w,
    reachable sty p -> isHidden p = true ->
    isHidden (run sty c w p) = false ->
    shown_since sty (run sty c w p) (run sty c w p)
| shown_kept : forall q p c w,
    shown_since sty q p -> isHidden (run sty c w p) = false ->
    shown_since sty q (run sty c w p).

(** The four members that say whether the panel is on screen:
    isHidden(), _hiding, the animation flag and whether a cache exists. *)
Definition vis (p : Panel) : bool * bool * bool * bool :=
  (isHidden p, _hiding p, _a_appearance p, _cache p).

(** A hidden panel is neither animating nor hiding; _hiding is set only
    while the animation runs; the animation runs only over a cache. *)
Definition vis_ok (v : bool * bool * bool * bool) : Prop :=
  let '(hd, hg, an, ca) := v in
  (hd = true -> an = false /\ hg = false)
  /\ (hg = true -> an = true)
  /\ (an = true -> ca = true).

(** The callbacks stored in the panel and those held by the cover. *)
Definition callbacks (p : Panel)
    : ButtonCallback * ButtonCallback
      * option (ButtonCallback * ButtonCallback) :=
  (_pinCallback p, _closeCallback p,
   option_map (fun c => (cover_pinCallback c, cover_closeCallback c))
     (_cover p)).

(** The cover, when there is one, holds the callbacks the panel stores. *)
Definition callbacks_forwarded (p : Panel) : Prop :=
  match _cover p with
  | Some c => cover_pinCallback c = _pinCallback p
              /\ cover_closeCallback c = _closeCallback p
  | None => True
  end.

(** ** Concrete data used in the examples *)

Definition margins0 : QMargins :=
  {| m_left := 0; m_top := 0; m_right := 0; m_bottom := 0 |}.

Definition sty0 : Style :=
  {| mediaPlayerPanelMarginLeft := 10;
     mediaPlayerPanelMarginBottom := 10;
     mediaPlayerPanelWidth := 344;
     mediaPlayerListHeightMax := 280;
     mediaPlayerListMarginBottom := 10;
     infoMediaMargin :=
       {| m_left := 0; m_top := 6; m_right := 0; m_bottom := 6 |};
     overviewFileLayout_songPadding :=
       {| m_left := 17; m_top := 7; m_right := 10; m_bottom := 6 |};
     overviewFileLayout_songThumbSize := 36;
     mediaPlayerFileLayout_songPadding :=
       {| m_left := 14; m_top := 7; m_right := 10; m_bottom := 4 |};
     mediaPlayerFileLayout_songThumbSize := 36;
     mediaPlayerScrollShadow_extend :=
       {| m_left := 0; m_top := 0; m_right := 0; m_bottom := 3 |};
     defaultInnerDropdown_duration := 150 |}.

Definition cover0 : CoverWidget :=
  {| cover_width := 0; cover_height := 0; cover_right := 0; cover_top := 0;
     cover_visible := true;
     cover_pinCallback := None; cover_closeCallback := None |}.

Definition shadow0 : PlainShadow :=
  {| shadow_width := 0; shadow_height := 0; shadow_right := 0;
     shadow_top := 0; shadow_visible := true |}.

Definition list0 : ListWidget :=
  {| list_width := 0; list_height := 0; list_preventAutoHide := false;
     list_currentSongGeometry := QRect_xywh 0 0 0 0;
     list_restored := None |}.

(** A world in which no song is playing. *)
Definition world_idle : World :=
  {| rtl := false;
     current_song_contextId := {| msg_channel := 0; msg_id := 0 |};
     histItemById := fun _ => None;
     peerData := fun _ => {| migrateTo := None; migrateFrom := None |};
     created_cover := cover0;
     created_shadow := shadow0;
     created_list := list0;
     published_heights := [];
     cover_resizeGetHeight := fun _ => 80;
     platform_isMac := false;
     has_window := true;
     window_isActive := true;
     cursor_pos := {| px := 0; py := 0 |};
     global_origin := {| px := 100; py := 50 |} |}.

(** A world in which message 7 is playing: a music file shared in the
    chat with peer 5, whose playlist is three rows high. *)
Definition world_song : World :=
  {| rtl := false;
     current_song_contextId := {| msg_channel := 0; msg_id := 7 |};
     histItemById := fun m =>
       if msg_id m =? 7 then
         Some {| getMedia :=
                   Some {| getDocument :=
                             Some {| isSharedMediaMusic := true |} |};
                 history_peer := 5%positive |}
       else None;
     peerData := fun _ => {| migrateTo := None; migrateFrom := None |};
     created_cover := cover0;
     created_shadow := shadow0;
     created_list := list0;
     published_heights := [0; 183];
     cover_resizeGetHeight := fun _ => 80;
     platform_isMac := false;
     has_window := true;
     window_isActive := true;
     cursor_pos := {| px := 0; py := 0 |};
     global_origin := {| px := 100; py := 50 |} |}.

(** The panel asked to show itself while message 7 plays: the show timer
    has fired and the appearance animation runs. *)
Definition panel_appearing (sty : Style) (layout : Layout) : Panel :=
  run sty Call_showTimer_fired world_song
    (run sty Call_showFromOther world_song (Panel_new sty layout)).

(** The same panel once the animation has finished. *)
Definition panel_shown (sty : Style) (layout : Layout) : Panel :=
  run sty (Call_appearance_tick true) world_song (panel_appearing sty layout).

(** A panel given its callbacks before it is first shown. *)
Definition panel_with_callbacks (sty : Style) : Panel :=
  run sty Call_showTimer_fired world_song
    (run sty Call_showFromOther world_song
       (run sty (Call_setCloseCallback (Some 2%nat)) world_song
          (run sty (Call_setPinCallback (Some 1%nat)) world_song
             (Panel_new sty Full)))).

(** * Properties *)

(** ** Lists and traces *)

Lemma trace_emit e p : trace (emit e p) = trace p ++ [e].
Proof. reflexivity. Qed.

Lemma app_two {A} (l : list A) (a b : A) : (l ++ [a]) ++ [b] = l ++ [a; b].
Proof. now rewrite <- app_assoc. Qed.

(** ** Geometry: [updateSize] *)


(** ** Geometry: [updateControlsGeometry] *)

Lemma updateControlsGeometry_geometryToRight sty w p :
  scroll_geometryToRight (_scroll (updateControlsGeometry sty w p))
  = if updateControlsGeometry_scrollHeight sty w p >? 0
    then Some (contentRight sty p, updateControlsGeometry_scrollTop sty w p,
               contentWidth sty p,
               updateControlsGeometry_scrollHeight sty w p)
    else scroll_geometryToRight (_scroll p).
Proof.
  unfold updateControlsGeometry, with_list. cbv zeta.
  destruct (updateControlsGeometry_scrollHeight sty w p >? 0);
    destruct (_cover p) eqn:Hc; cbn;
    destruct (_scrollShadow p) eqn:Hs; cbn;
    destruct (scroll_widget (_scroll p)) eqn:Hl; cbn;
    rewrite ?Hc; reflexivity.
Qed.

Lemma updateControlsGeometry_cover sty w p :
  _cover (updateControlsGeometry sty w p)
  = option_map
      (cover_place w (contentWidth sty p) (contentRight sty p)
         (contentTop sty p))
      (_cover p).
Proof.
  unfold updateControlsGeometry, with_list. cbv zeta.
  destruct (updateControlsGeometry_scrollHeight sty w p >? 0);
    destruct (_cover p) eqn:Hc; cbn;
    destruct (_scrollShadow p) eqn:Hs; cbn;
    destruct (scroll_widget (_scroll p)) eqn:Hl; cbn;
    rewrite ?Hc; reflexivity.
Qed.

(** C5. [updateControlsGeometry] computes the scroll height as
    max(height - scrollTop - contentBottom - scrollMarginBottom, 0), where
    scrollTop is contentTop plus the height of the placed cover, if any;
    that height is never negative, and the geometry of the scroll area
    changes only when it is strictly positive (and then becomes the
    computed one). *)
Theorem updateControlsGeometry_scroll (sty : Style) (w : World) (p : Panel) :
  let scrollTop := updateControlsGeometry_scrollTop sty w p in
  let scrollHeight := updateControlsGeometry_scrollHeight sty w p in
  let q := updateControlsGeometry sty w p in
  scrollTop = contentTop sty p
              + match _cover p with
                | Some _ => cover_height_or_0 q
                | None => 0
                end
  /\ scrollHeight =
       Z.max (height p - scrollTop - contentBottom sty p
              - scrollMarginBottom p) 0
  /\ 0 <= scrollHeight
  /\ (scrollHeight <= 0 ->
      scroll_geometryToRight (_scroll q) = scroll_geometryToRight (_scroll p))
  /\ (0 < scrollHeight ->
      scroll_geometryToRight (_scroll q)
      = Some (contentRight sty p, scrollTop, contentWidth sty p, scrollHeight))
  /\ (scroll_geometryToRight (_scroll q) <> scroll_geometryToRight (_scroll p)
      -> 0 < scrollHeight).
Proof.
  cbv zeta. rewrite updateControlsGeometry_geometryToRight.
  split; [|split; [|split; [|split; [|split]]]].
  - unfold cover_height_or_0. rewrite updateControlsGeometry_cover.
    unfold updateControlsGeometry_scrollTop.
    destruct (_cover p); cbn; lia.
  - reflexivity.
  - unfold updateControlsGeometry_scrollHeight. lia.
  - intros H.
    destruct (Z.gtb_spec (updateControlsGeometry_scrollHeight sty w p) 0);
      [lia | reflexivity].
  - intros H.
    destruct (Z.gtb_spec (updateControlsGeometry_scrollHeight sty w p) 0);
      [reflexivity | lia].
  - intros H.
    destruct (Z.gtb_spec (updateControlsGeometry_scrollHeight sty w p) 0);
      [lia | congruence].
Qed.

(** ** [overlaps] *)

Lemma rect_eq a b c d a' b' c' d' :
  a = a' -> b = b' -> c = c' -> d = d' ->
  {| x1 := a; y1 := b; x2 := c; y2 := d |}
  = {| x1 := a'; y1 := b'; x2 := c'; y2 := d' |}.
Proof. intros; subst; reflexivity. Qed.

(** Containment of one non-empty rectangle in another is the comparison
    of the four sides. *)
Lemma rect_contains_sides (o r : QRect) :
  x1 o <= x2 o -> y1 o <= y2 o -> x1 r <= x2 r -> y1 r <= y2 r ->
  rect_contains o r = true
  <-> x1 o <= x1 r /\ x2 r <= x2 o /\ y1 o <= y1 r /\ y2 r <= y2 o.
Proof.
  intros Ho1 Ho2 Hr1 Hr2. unfold rect_contains, rect_isNull, rect_width,
    rect_height.
  destruct (Z.eqb_spec (x2 o) (x1 o - 1)); [lia|].
  destruct (Z.eqb_spec (x2 r) (x1 r - 1)); [lia|]. cbn.
  destruct (Z.ltb_spec (x2 o - x1 o + 1) 0); [lia|].
  destruct (Z.ltb_spec (x2 r - x1 r + 1) 0); [lia|].
  destruct (Z.ltb_spec (y2 o - y1 o + 1) 0); [lia|].
  destruct (Z.ltb_spec (y2 r - y1 r + 1) 0); [lia|].
  destruct (Z.ltb_spec (x1 r) (x1 o)), (Z.ltb_spec (x2 o) (x2 r)),
    (Z.ltb_spec (y1 r) (y1 o)), (Z.ltb_spec (y2 o) (y2 r)); cbn;
    split; intros; try discriminate; try lia; reflexivity.
Qed.

(** C3. [overlaps] answers false whenever the panel is hidden or the
    appearance animation is running; when the panel is visible and not
    animating it answers true exactly when the rectangle, mapped into the
    coordinates of the panel, is contained in the panel's rectangle with
    the content margins removed (left and right swapped under
    right-to-left layout).  For non-empty rectangles the containment is
    the comparison of the four sides. *)
Theorem overlaps_spec (sty : Style) (w : World) (globalRect : QRect)
    (p : Panel) :
  let inner := panel_inner_rect sty w p in
  let mapped := rect_fromGlobal w globalRect in
  (isHidden p = true \/ _a_appearance p = true ->
   overlaps sty w globalRect p = false)
  /\ (isHidden p = false -> _a_appearance p = false ->
      overlaps sty w globalRect p = rect_contains inner mapped)
  /\ (isHidden p = false -> _a_appearance p = false ->
      x1 inner <= x2 inner -> y1 inner <= y2 inner ->
      x1 globalRect <= x2 globalRect -> y1 globalRect <= y2 globalRect ->
      (overlaps sty w globalRect p = true
       <-> x1 inner <= x1 mapped /\ x2 mapped <= x2 inner
           /\ y1 inner <= y1 mapped /\ y2 mapped <= y2 inner)).
Proof.
  cbv zeta.
  assert (Hvis : isHidden p = false -> _a_appearance p = false ->
                 overlaps sty w globalRect p
                 = rect_contains (panel_inner_rect sty w p)
                     (rect_fromGlobal w globalRect)).
  { intros Hh Ha. unfold overlaps. rewrite Hh, Ha. cbn [orb].
    f_equal;
      unfold marginsRemoved, panel_inner_rect, rect, QRect_xywh, QRect_of,
        rect_fromGlobal, mapFromGlobal, rect_topLeft, rect_size, rect_width,
        rect_height;
      cbn [x1 y1 x2 y2 m_left m_top m_right m_bottom px py size_w size_h];
      destruct (rtl w); apply rect_eq; lia. }
  split; [|split].
  - intros [H | H]; unfold overlaps; rewrite H; [reflexivity|].
    now rewrite orb_true_r.
  - exact Hvis.
  - intros Hh Ha Hx Hy Hgx Hgy. rewrite (Hvis Hh Ha).
    apply rect_contains_sides; try assumption;
      unfold rect_fromGlobal; cbn [x1 y1 x2 y2]; lia.
Qed.

Lemma overlaps_spec_witness :
  overlaps sty0 world_song (QRect_xywh 120 70 50 40)
    (panel_shown sty0 OnlyPlaylist)
  = rect_contains
      (panel_inner_rect sty0 world_song (panel_shown sty0 OnlyPlaylist))
      (rect_fromGlobal world_song (QRect_xywh 120 70 50 40)).
Proof.
  apply (proj1 (proj2 (overlaps_spec sty0 world_song (QRect_xywh 120 70 50 40)
                         (panel_shown sty0 OnlyPlaylist))));
    vm_compute; reflexivity.
Defined.

(** ** Frame properties: the geometry code leaves [core] alone *)

Ltac destruct_panel p :=
  let sc := fresh "sc" in
  destruct p as [p_layout p_hiding p_cache p_anim p_ignoring p_showTimer
                 p_hideTimer p_pin p_close p_cover sc p_shadow p_lifetime
                 p_listPeer p_listMigrated p_hidden p_size p_connected
                 p_trace];
  destruct sc as [p_list p_scrollVisible p_scrollGeometry p_scrollY].

Ltac break_match :=
  match goal with
  | |- context [match ?x with _ => _ end] => destruct x eqn:?
  end.

Lemma is_some_option_map {A B : Type} (f : A -> B) (o : option A) :
  is_some (option_map f o) = is_some o.
Proof. now destruct o. Qed.

Ltac crunch :=
  cbn in *; repeat (break_match; cbn in *);
  rewrite ?is_some_option_map;
  try reflexivity; try congruence; try discriminate.

Lemma core_with_list f p : core (with_list f p) = core p.
Proof. unfold with_list, core, has_list. destruct_panel p. crunch. Qed.

Lemma core_updateSize sty p : core (updateSize sty p) = core p.
Proof.
  unfold updateSize, core, has_cover, has_scrollShadow, has_list, resize.
  destruct_panel p. crunch.
Qed.

Lemma core_updateControlsGeometry sty w p :
  core (updateControlsGeometry sty w p) = core p.
Proof.
  unfold updateControlsGeometry. cbv zeta. rewrite core_with_list.
  unfold core, has_cover, has_scrollShadow, has_list.
  destruct (updateControlsGeometry_scrollHeight sty w p >? 0);
    destruct_panel p; crunch.
Qed.

Lemma core_listHeightUpdated sty h p :
  core (listHeightUpdated sty h p) = core p.
Proof.
  unfold listHeightUpdated.
  destruct (_ || _); [apply core_updateSize|].
  unfold Timer_callOnce, emit, core, child_ops. cbn.
  rewrite filter_app. cbn. now rewrite app_nil_r.
Qed.

Lemma core_heightValue_next sty h p : core (heightValue_next sty h p) = core p.
Proof.
  unfold heightValue_next. destruct (scroll_widget (_scroll p)); [|reflexivity].
  now rewrite core_listHeightUpdated, core_with_list.
Qed.

Lemma core_published sty hs p :
  core (fold_left (fun q h => heightValue_next sty h q) hs p) = core p.
Proof.
  revert p. induction hs as [|h hs IH]; intros p; cbn; [reflexivity|].
  now rewrite IH, core_heightValue_next.
Qed.

Lemma timer_ops_app l l' : timer_ops (l ++ l') = timer_ops l ++ timer_ops l'.
Proof. apply filter_app. Qed.

Lemma timers_emit_child e p :
  is_timer_op e = false -> timers (emit e p) = timers p.
Proof.
  intros He. unfold timers, emit. cbn. rewrite timer_ops_app. cbn.
  now rewrite He, app_nil_r.
Qed.

Lemma timers_with_list f p : timers (with_list f p) = timers p.
Proof. unfold with_list. destruct (scroll_widget (_scroll p)); reflexivity. Qed.

Lemma timers_updateSize sty p : timers (updateSize sty p) = timers p.
Proof.
  unfold updateSize. cbv zeta. cbn. destruct (_scrollShadow p); reflexivity.
Qed.

Lemma timers_updateControlsGeometry sty w p :
  timers (updateControlsGeometry sty w p) = timers p.
Proof.
  unfold updateControlsGeometry. cbv zeta. rewrite timers_with_list.
  destruct (updateControlsGeometry_scrollHeight sty w p >? 0);
    destruct (_cover p); cbn; try reflexivity;
    destruct (_scrollShadow p); reflexivity.
Qed.

Lemma has_cover_with_list f p : has_cover (with_list f p) = has_cover p.
Proof. exact (f_equal core_cover (core_with_list f p)). Qed.

Lemma has_cover_updateSize sty p : has_cover (updateSize sty p) = has_cover p.
Proof. exact (f_equal core_cover (core_updateSize sty p)). Qed.

Lemma has_cover_updateControlsGeometry sty w p :
  has_cover (updateControlsGeometry sty w p) = has_cover p.
Proof. exact (f_equal core_cover (core_updateControlsGeometry sty w p)). Qed.

Lemma has_cover_heightValue_next sty h p :
  has_cover (heightValue_next sty h p) = has_cover p.
Proof. exact (f_equal core_cover (core_heightValue_next sty h p)). Qed.

Lemma timers_listHeightUpdated_cover sty h p :
  has_cover p = true -> timers (listHeightUpdated sty h p) = timers p.
Proof.
  unfold listHeightUpdated, has_cover, is_some. intros Hc.
  destruct (_cover p); [|discriminate].
  rewrite orb_true_r. apply timers_updateSize.
Qed.

Lemma timers_heightValue_next_cover sty h p :
  has_cover p = true -> timers (heightValue_next sty h p) = timers p.
Proof.
  intros Hc. unfold heightValue_next.
  destruct (scroll_widget (_scroll p)) eqn:Hl; [|reflexivity].
  rewrite timers_listHeightUpdated_cover.
  - apply timers_with_list.
  - now rewrite has_cover_with_list.
Qed.

Lemma timers_published_cover sty hs p :
  has_cover p = true ->
  timers (fold_left (fun q h => heightValue_next sty h q) hs p) = timers p.
Proof.
  revert p. induction hs as [|h hs IH]; intros p Hc; cbn; [reflexivity|].
  rewrite IH.
  - now apply timers_heightValue_next_cover.
  - now rewrite has_cover_heightValue_next.
Qed.

Lemma timers_takeWidget_destroy p :
  timers (scroll_takeWidget_destroy p) = timers p.
Proof.
  unfold scroll_takeWidget_destroy.
  destruct (scroll_widget (_scroll p)); [|reflexivity].
  now rewrite timers_emit_child.
Qed.

Lemma has_cover_takeWidget_destroy p :
  has_cover (scroll_takeWidget_destroy p) = has_cover p.
Proof.
  unfold scroll_takeWidget_destroy.
  destruct (scroll_widget (_scroll p)); reflexivity.
Qed.

(** With a cover in place [refreshList] leaves the timers alone. *)
Lemma timers_refreshList_cover sty w p :
  has_cover p = true -> timers (refreshList sty w p) = timers p.
Proof.
  intros Hc. unfold refreshList. cbv zeta.
  set (p1 := if refreshList_changed w p then _ else p).
  assert (H1 : timers p1 = timers p /\ has_cover p1 = true).
  { unfold p1. destruct (refreshList_changed w p); [|now split].
    split.
    - change (timers (scroll_takeWidget_destroy p) = timers p).
      apply timers_takeWidget_destroy.
    - change (has_cover (scroll_takeWidget_destroy p) = true).
      now rewrite has_cover_takeWidget_destroy. }
  destruct H1 as [Ht Hc1].
  destruct (refreshList_peer w) as [pr|]; [|exact Ht].
  destruct (_listPeer p1); [exact Ht|].
  rewrite timers_with_list, timers_published_cover,
    timers_updateControlsGeometry, timers_updateSize.
  - unfold scroll_setOwnedWidget. cbv zeta.
    change (timers (scroll_takeWidget_destroy
                      (emit (Created ChildList)
                         (set_listMigratedPeer (refreshList_migrated w)
                            (set_listPeer (Some pr) p1)))) = timers p).
    rewrite timers_takeWidget_destroy, timers_emit_child by reflexivity.
    exact Ht.
  - rewrite has_cover_updateControlsGeometry, has_cover_updateSize.
    unfold scroll_setOwnedWidget. cbv zeta.
    change (has_cover (scroll_takeWidget_destroy
                         (emit (Created ChildList)
                            (set_listMigratedPeer (refreshList_migrated w)
                               (set_listPeer (Some pr) p1)))) = true).
    rewrite has_cover_takeWidget_destroy. exact Hc1.
Qed.

Lemma timers_cover_create w p : timers (cover_create w p) = timers p.
Proof.
  unfold cover_create. cbv zeta.
  transitivity (timers (emit (Created ChildCover)
                          match _cover p with
                          | Some _ => emit (Destroyed ChildCover) p
                          | None => p
                          end)); [reflexivity|].
  rewrite timers_emit_child by reflexivity.
  destruct (_cover p); [|reflexivity]. now rewrite timers_emit_child.
Qed.

Lemma timers_scrollShadow_create w p :
  timers (scrollShadow_create w p) = timers p.
Proof.
  unfold scrollShadow_create. cbv zeta.
  transitivity (timers (emit (Created ChildScrollShadow)
                          match _scrollShadow p with
                          | Some _ => emit (Destroyed ChildScrollShadow) p
                          | None => p
                          end)); [reflexivity|].
  rewrite timers_emit_child by reflexivity.
  destruct (_scrollShadow p); [|reflexivity]. now rewrite timers_emit_child.
Qed.

Lemma timers_setPinCallback cb p : timers (setPinCallback cb p) = timers p.
Proof. unfold setPinCallback, timers. destruct_panel p. crunch. Qed.

Lemma timers_setCloseCallback cb p : timers (setCloseCallback cb p) = timers p.
Proof. unfold setCloseCallback, timers. destruct_panel p. crunch. Qed.

Lemma has_cover_setPinCallback cb p :
  has_cover (setPinCallback cb p) = has_cover p.
Proof. unfold setPinCallback, has_cover. destruct_panel p. crunch. Qed.

Lemma has_cover_setCloseCallback cb p :
  has_cover (setCloseCallback cb p) = has_cover p.
Proof. unfold setCloseCallback, has_cover. destruct_panel p. crunch. Qed.

Lemma has_cover_scrollShadow_create w p :
  has_cover (scrollShadow_create w p) = has_cover p.
Proof. unfold scrollShadow_create, has_cover. destruct_panel p. crunch. Qed.

(** The children made by the first half of [ensureCreated]. *)
Lemma ensureCreated_children_cover w p :
  has_cover p = true ->
  let p1 :=
    if Layout_eqb (_layout p) Full then
      let q1 := cover_create w p in
      let q2 := setPinCallback (_pinCallback q1) q1 in
      let q3 := setCloseCallback (_closeCallback q2) q2 in
      scrollShadow_create w q3
    else p in
  timers p1 = timers p /\ has_cover p1 = true.
Proof.
  intros Hc. cbv zeta. destruct (Layout_eqb (_layout p) Full); [|now split].
  split.
  - now rewrite timers_scrollShadow_create, timers_setCloseCallback,
      timers_setPinCallback, timers_cover_create.
  - now rewrite has_cover_scrollShadow_create, has_cover_setCloseCallback,
      has_cover_setPinCallback.
Qed.

(** When the panel has something to show, [ensureCreated] leaves the
    timers alone. *)
Lemma timers_ensureCreated sty w p :
  has_cover p || has_list p = true ->
  timers (ensureCreated sty w p) = timers p.
Proof.
  intros H. unfold ensureCreated, has_list in *.
  destruct (scroll_widget (_scroll p)); [reflexivity|].
  cbn [is_some] in H. rewrite orb_false_r in H.
  destruct (ensureCreated_children_cover w p H) as [Ht Hc].
  cbv zeta in Ht, Hc |- *.
  set (p1 := if Layout_eqb (_layout p) Full then _ else p) in *.
  transitivity (timers (refreshList sty w (set_refreshListLifetime true p1))).
  - destruct (platform_isMac w && has_window w); reflexivity.
  - rewrite timers_refreshList_cover; [exact Ht | exact Hc].
Qed.

Lemma timers_startAnimation p : timers (startAnimation p) = timers p.
Proof. unfold startAnimation. destruct (negb (_cache p)); reflexivity. Qed.

Lemma timers_startHide p : timers (startHide p) = timers p.
Proof.
  unfold startHide. destruct (_hiding p || isHidden p); [reflexivity|].
  now rewrite timers_startAnimation.
Qed.

Lemma timers_scrollPlaylistToCurrentTrack sty p :
  timers (scrollPlaylistToCurrentTrack sty p) = timers p.
Proof.
  unfold scrollPlaylistToCurrentTrack.
  destruct (scroll_widget (_scroll p)); reflexivity.
Qed.

Lemma timers_startShow sty w p :
  timers (startShow sty w p) = timers (ensureCreated sty w p).
Proof.
  unfold startShow. cbv zeta.
  destruct (contentTooSmall sty (ensureCreated sty w p)); [reflexivity|].
  destruct (isHidden (ensureCreated sty w p)).
  - rewrite timers_startAnimation.
    transitivity (timers (scrollPlaylistToCurrentTrack sty
                            (ensureCreated sty w p))); [reflexivity|].
    apply timers_scrollPlaylistToCurrentTrack.
  - destruct (negb (_hiding (ensureCreated sty w p))); [reflexivity|].
    now rewrite timers_startAnimation.
Qed.

Lemma contentTooSmall_false sty p :
  contentTooSmall sty p = false -> has_cover p || has_list p = true.
Proof.
  unfold contentTooSmall, has_cover, has_list, is_some.
  destruct (_cover p); [reflexivity|].
  destruct (scroll_widget (_scroll p)); [reflexivity|].
  cbn. rewrite Z.leb_refl. discriminate.
Qed.

(** ** Timer-driven show and hide *)

Lemma timers_Timer_cancel_show p :
  timers (Timer_cancel ShowTimer p)
  = (Idle, _hideTimer p, timer_ops (trace p) ++ [TimerCancel ShowTimer]).
Proof. unfold timers, Timer_cancel, emit. cbn. now rewrite timer_ops_app. Qed.

Lemma timers_Timer_cancel_hide p :
  timers (Timer_cancel HideTimer p)
  = (_showTimer p, Idle, timer_ops (trace p) ++ [TimerCancel HideTimer]).
Proof. unfold timers, Timer_cancel, emit. cbn. now rewrite timer_ops_app. Qed.

(** C1. A call of [leaveEventHook] in which preventAutoHide() is false
    cancels the show timer and then either calls [startHide] (animation
    running) or arms the hide timer once with 300 ms, and issues no other
    timer call.  A call of [enterEventHook] in which _ignoringEnterEvents
    and contentTooSmall() are false cancels the hide timer and then either
    calls [startShow] (animation running) or arms the show timer once with
    0 ms, and issues no other timer call.  When an armed show timer fires
    it runs [startShow]; an armed hide timer runs [startHideChecked]. *)
Theorem enter_leave_timer_driven (sty : Style) (w : World) (p : Panel) :
  (preventAutoHide p = false ->
   if _a_appearance p
   then leaveEventHook p = startHide (Timer_cancel ShowTimer p)
        /\ timers (leaveEventHook p)
           = (Idle, _hideTimer p,
              timer_ops (trace p) ++ [TimerCancel ShowTimer])
   else leaveEventHook p
        = Timer_callOnce HideTimer 300 (Timer_cancel ShowTimer p)
        /\ _showTimer (leaveEventHook p) = Idle
        /\ _hideTimer (leaveEventHook p) = Once 300
        /\ trace (leaveEventHook p)
           = trace p ++ [TimerCancel ShowTimer; TimerCallOnce HideTimer 300])
  /\ (_ignoringEnterEvents p = false -> contentTooSmall sty p = false ->
      if _a_appearance p
      then enterEventHook sty w p = startShow sty w (Timer_cancel HideTimer p)
           /\ timers (enterEventHook sty w p)
              = (_showTimer p, Idle,
                 timer_ops (trace p) ++ [TimerCancel HideTimer])
      else enterEventHook sty w p
           = Timer_callOnce ShowTimer 0 (Timer_cancel HideTimer p)
           /\ _showTimer (enterEventHook sty w p) = Once 0
           /\ _hideTimer (enterEventHook sty w p) = Idle
           /\ trace (enterEventHook sty w p)
              = trace p ++ [TimerCancel HideTimer; TimerCallOnce ShowTimer 0])
  /\ (forall t, _showTimer p = Once t ->
      showTimer_fired sty w p = startShow sty w (set_showTimer Idle p))
  /\ (forall t, _hideTimer p = Once t ->
      hideTimer_fired sty w p = startHideChecked sty w (set_hideTimer Idle p)).
Proof.
  split; [|split; [|split]].
  - intros Hp. unfold leaveEventHook. rewrite Hp.
    change (_a_appearance (Timer_cancel ShowTimer p)) with (_a_appearance p).
    destruct (_a_appearance p).
    + split; [reflexivity|].
      now rewrite timers_startHide, timers_Timer_cancel_show.
    + repeat split. cbn. apply app_two.
  - intros Hi Hs. unfold enterEventHook. rewrite Hi, Hs. cbn [orb].
    change (_a_appearance (Timer_cancel HideTimer p)) with (_a_appearance p).
    destruct (_a_appearance p).
    + split; [reflexivity|].
      rewrite timers_startShow, timers_ensureCreated.
      * apply timers_Timer_cancel_hide.
      * apply (contentTooSmall_false sty). exact Hs.
    + repeat split. cbn. apply app_two.
  - intros t Ht. unfold showTimer_fired. now rewrite Ht.
  - intros t Ht. unfold hideTimer_fired. now rewrite Ht.
Qed.

Lemma enter_leave_timer_driven_witness :
  (leaveEventHook (panel_shown sty0 OnlyPlaylist)
   = Timer_callOnce HideTimer 300
       (Timer_cancel ShowTimer (panel_shown sty0 OnlyPlaylist))
   /\ _showTimer (leaveEventHook (panel_shown sty0 OnlyPlaylist)) = Idle
   /\ _hideTimer (leaveEventHook (panel_shown sty0 OnlyPlaylist)) = Once 300
   /\ trace (leaveEventHook (panel_shown sty0 OnlyPlaylist))
      = trace (panel_shown sty0 OnlyPlaylist)
        ++ [TimerCancel ShowTimer; TimerCallOnce HideTimer 300])
  /\ (enterEventHook sty0 world_song (panel_appearing sty0 OnlyPlaylist)
      = startShow sty0 world_song
          (Timer_cancel HideTimer (panel_appearing sty0 OnlyPlaylist))
      /\ timers
           (enterEventHook sty0 world_song (panel_appearing sty0 OnlyPlaylist))
         = (_showTimer (panel_appearing sty0 OnlyPlaylist), Idle,
            timer_ops (trace (panel_appearing sty0 OnlyPlaylist))
            ++ [TimerCancel HideTimer])).
Proof.
  split.
  - exact (proj1 (enter_leave_timer_driven sty0 world_song
                    (panel_shown sty0 OnlyPlaylist))
             eq_refl).
  - exact (proj1 (proj2 (enter_leave_timer_driven sty0 world_song
                           (panel_appearing sty0 OnlyPlaylist)))
             eq_refl eq_refl).
Defined.

(** ** The structure of the panel and how the methods change it *)

Lemma structure_core p q : core q = core p -> structure q = structure p.
Proof. unfold structure. now intros ->. Qed.

Lemma ptr_eqb_eq a b : ptr_eqb a b = true <-> a = b.
Proof.
  destruct a as [x|], b as [y|]; cbn; split; intros H;
    try discriminate; try reflexivity.
  - apply Pos.eqb_eq in H. now subst.
  - injection H as ->. apply Pos.eqb_refl.
Qed.

Lemma refreshList_migrated_none w :
  refreshList_peer w = None -> refreshList_migrated w = None.
Proof. unfold refreshList_migrated. now intros ->. Qed.

Lemma refreshList_unchanged sty w p :
  refreshList_changed w p = false -> refreshList sty w p = p.
Proof.
  intros H. unfold refreshList. cbv zeta. rewrite H.
  unfold refreshList_changed in H. apply orb_false_elim in H as [H1 _].
  apply negb_false_iff, ptr_eqb_eq in H1.
  destruct (refreshList_peer w); [|reflexivity].
  now rewrite H1.
Qed.

Lemma refreshList_changed_none sty w p :
  refreshList_changed w p = true -> refreshList_peer w = None ->
  refreshList sty w p = refreshList_cleared p.
Proof.
  intros H Hp. unfold refreshList. cbv zeta. now rewrite H, Hp.
Qed.

Lemma refreshList_changed_some sty w p pr :
  refreshList_changed w p = true -> refreshList_peer w = Some pr ->
  core (refreshList sty w p) = core (refreshList_installed w pr p).
Proof.
  intros H Hp. unfold refreshList. cbv zeta. rewrite H, Hp.
  change (_listPeer (set_listPeer None _)) with (@None PeerPtr). cbv iota.
  now rewrite core_with_list, core_published, core_updateControlsGeometry,
    core_updateSize.
Qed.

Lemma structure_refreshList sty w p :
  structure (refreshList sty w p) = S_refreshList w (structure p).
Proof.
  destruct (refreshList_changed w p) eqn:H.
  - destruct (refreshList_peer w) as [pr|] eqn:Hp.
    + rewrite (structure_core _ _ (refreshList_changed_some sty w p pr H Hp)).
      unfold S_refreshList, refreshList_changed in *.
      change (s_listPeer (structure p)) with (_listPeer p).
      change (s_listMigratedPeer (structure p)) with (_listMigratedPeer p).
      rewrite H, Hp.
      unfold refreshList_installed, refreshList_cleared, scroll_setOwnedWidget,
        scroll_takeWidget_destroy, structure, core, has_cover,
        has_scrollShadow, has_list.
      destruct_panel p. crunch.
    + rewrite (refreshList_changed_none sty w p H Hp).
      unfold S_refreshList, refreshList_changed in *.
      change (s_listPeer (structure p)) with (_listPeer p).
      change (s_listMigratedPeer (structure p)) with (_listMigratedPeer p).
      rewrite H, Hp, (refreshList_migrated_none w Hp).
      unfold refreshList_cleared, scroll_takeWidget_destroy, structure, core,
        has_cover, has_scrollShadow, has_list.
      destruct_panel p. crunch.
  - rewrite (refreshList_unchanged sty w p H).
    unfold S_refreshList, refreshList_changed in *.
    change (s_listPeer (structure p)) with (_listPeer p).
    change (s_listMigratedPeer (structure p)) with (_listMigratedPeer p).
    now rewrite H.
Qed.

Ltac unfold_structure :=
  unfold structure, structure_of, core, has_cover, has_scrollShadow,
    has_list in *.

Lemma structure_set_ignoringEnterEvents v p :
  structure (set_ignoringEnterEvents v p) = structure p.
Proof. reflexivity. Qed.

Lemma structure_set_activeChanged_connected v p :
  structure (set_activeChanged_connected v p) = structure p.
Proof. reflexivity. Qed.

Lemma structure_performDestroy w p :
  structure (performDestroy w p) = S_performDestroy (structure p).
Proof.
  destruct_panel p.
  unfold performDestroy, S_performDestroy, cover_destroy,
    scroll_takeWidget_destroy, emit.
  unfold_structure. crunch.
Qed.

Lemma structure_hideFinished w p :
  structure (hideFinished w p) = S_performDestroy (structure p).
Proof. unfold hideFinished. now rewrite structure_performDestroy. Qed.

Lemma structure_cover_create w p :
  structure (cover_create w p) = S_with_cover true (structure p).
Proof. destruct_panel p. unfold cover_create. now destruct p_cover. Qed.

Lemma structure_scrollShadow_create w p :
  structure (scrollShadow_create w p) = S_with_shadow true (structure p).
Proof. destruct_panel p. unfold scrollShadow_create. now destruct p_shadow. Qed.

Lemma structure_set_refreshListLifetime v p :
  structure (set_refreshListLifetime v p) = S_with_lifetime v (structure p).
Proof. reflexivity. Qed.

Lemma structure_setPinCallback cb p :
  structure (setPinCallback cb p) = structure p.
Proof. destruct_panel p. unfold setPinCallback. now destruct p_cover. Qed.

Lemma structure_setCloseCallback cb p :
  structure (setCloseCallback cb p) = structure p.
Proof. destruct_panel p. unfold setCloseCallback. now destruct p_cover. Qed.

Lemma structure_ensureCreated sty w p :
  structure (ensureCreated sty w p) = S_ensureCreated w (structure p).
Proof.
  unfold ensureCreated, S_ensureCreated.
  change (s_list (structure p)) with (has_list p). unfold has_list at 1.
  destruct (scroll_widget (_scroll p)) eqn:Hl; [reflexivity|]. cbv zeta.
  cbn [is_some].
  rewrite structure_set_ignoringEnterEvents.
  match goal with
  | |- structure (if ?c then _ else _) = _ =>
      destruct c; rewrite ?structure_set_activeChanged_connected
  end.
  all: rewrite structure_refreshList, structure_set_refreshListLifetime;
    f_equal.
  all: change (s_layout (structure p)) with (_layout p).
  all: destruct (Layout_eqb (_layout p) Full);
    rewrite ?structure_scrollShadow_create, ?structure_setCloseCallback,
      ?structure_setPinCallback, ?structure_cover_create.
  all: assert (Hs : s_list (structure p) = false)
    by (unfold structure, core, has_list; cbn; now rewrite Hl).
  all: assert (Hy : _layout p = s_layout (structure p)) by reflexivity.
  all: revert Hs Hy; generalize (structure p) (_layout p).
  all: intros [] ? Hs Hy; cbn in *; subst; reflexivity.
Qed.

Lemma structure_startAnimation p :
  structure (startAnimation p) = structure p.
Proof.
  destruct_panel p.
  unfold startAnimation, hideChildren, showChildren, setChildrenVisible.
  unfold_structure. crunch.
Qed.

Lemma structure_startHide p : structure (startHide p) = structure p.
Proof.
  unfold startHide. destruct (_hiding p || isHidden p); [reflexivity|].
  now rewrite structure_startAnimation.
Qed.

Lemma structure_scrollPlaylistToCurrentTrack sty p :
  structure (scrollPlaylistToCurrentTrack sty p) = structure p.
Proof.
  destruct_panel p. unfold scrollPlaylistToCurrentTrack.
  unfold_structure. crunch.
Qed.

Lemma structure_startShow sty w p :
  structure (startShow sty w p) = S_ensureCreated w (structure p).
Proof.
  unfold startShow. cbv zeta. rewrite <- (structure_ensureCreated sty).
  destruct (contentTooSmall sty (ensureCreated sty w p)); [reflexivity|].
  destruct (isHidden (ensureCreated sty w p)).
  - rewrite structure_startAnimation.
    transitivity (structure (scrollPlaylistToCurrentTrack sty
                               (ensureCreated sty w p))); [reflexivity|].
    apply structure_scrollPlaylistToCurrentTrack.
  - destruct (negb (_hiding (ensureCreated sty w p))); [reflexivity|].
    now rewrite structure_startAnimation.
Qed.

Lemma structure_leaveEventHook p :
  structure (leaveEventHook p) = structure p.
Proof.
  unfold leaveEventHook. destruct (preventAutoHide p); [reflexivity|].
  cbv zeta.
  destruct (_a_appearance (Timer_cancel ShowTimer p)); [|reflexivity].
  now rewrite structure_startHide.
Qed.

Lemma structure_hideFromOther p : structure (hideFromOther p) = structure p.
Proof.
  unfold hideFromOther. cbv zeta.
  destruct (_a_appearance (Timer_cancel ShowTimer p)); [|reflexivity].
  now rewrite structure_startHide.
Qed.

Lemma structure_checkForHide_next w p :
  structure (checkForHide_next w p) = structure p.
Proof.
  unfold checkForHide_next.
  destruct (scroll_widget (_scroll p)); [|reflexivity].
  destruct (negb _); reflexivity.
Qed.

Lemma structure_scrollToRequests_next y p :
  structure (scrollToRequests_next y p) = structure p.
Proof.
  destruct_panel p. unfold scrollToRequests_next. unfold_structure. crunch.
Qed.

Lemma structure_hideIgnoringEnterEvents w p :
  structure_step w (structure p) (structure (hideIgnoringEnterEvents w p)).
Proof.
  unfold hideIgnoringEnterEvents. cbv zeta.
  destruct (isHidden (set_ignoringEnterEvents true p)).
  - rewrite structure_hideFinished. apply step_performDestroy.
  - rewrite structure_startHide. apply step_same.
Qed.

Lemma structure_startHideChecked sty w p :
  structure_step w (structure p) (structure (startHideChecked sty w p)).
Proof.
  unfold startHideChecked.
  destruct (negb (contentTooSmall sty p) && preventAutoHide p);
    [apply step_same|].
  destruct (isHidden p).
  - rewrite structure_hideFinished. apply step_performDestroy.
  - rewrite structure_startHide. apply step_same.
Qed.

Lemma structure_appearanceCallback w p :
  structure_step w (structure p) (structure (appearanceCallback w p)).
Proof.
  unfold appearanceCallback.
  destruct (negb (_a_appearance p) && _hiding p); [|apply step_same].
  rewrite structure_hideFinished. apply step_performDestroy.
Qed.

Lemma structure_paintEvent w p :
  structure_step w (structure p) (structure (paintEvent w p)).
Proof.
  unfold paintEvent. destruct (_cache p); [|apply step_same].
  destruct (_a_appearance p); [apply step_same|].
  destruct (_hiding p || isHidden p).
  - rewrite structure_hideFinished. apply step_performDestroy.
  - replace (structure (set_cache false (showChildren p))) with (structure p);
      [apply step_same|].
    destruct_panel p. unfold showChildren, setChildrenVisible.
    unfold_structure. crunch.
Qed.

Lemma structure_enterEventHook sty w p :
  structure_step w (structure p) (structure (enterEventHook sty w p)).
Proof.
  unfold enterEventHook.
  destruct (_ignoringEnterEvents p || contentTooSmall sty p);
    [apply step_same|]. cbv zeta.
  destruct (_a_appearance (Timer_cancel HideTimer p)); [|apply step_same].
  rewrite structure_startShow. apply step_ensureCreated.
Qed.

Lemma structure_showFromOther sty w p :
  structure_step w (structure p) (structure (showFromOther sty w p)).
Proof.
  unfold showFromOther. cbv zeta.
  destruct (_a_appearance (Timer_cancel HideTimer p)); [|apply step_same].
  rewrite structure_startShow. apply step_ensureCreated.
Qed.

Lemma structure_playlistChanges_next sty type w p :
  structure_step w (structure p)
    (structure (playlistChanges_next sty type w p)).
Proof.
  unfold playlistChanges_next.
  destruct (_refreshListLifetime p) eqn:Hl; [|apply step_same]. cbn [andb].
  destruct (AudioMsgIdType_eqb type Song); [|apply step_same].
  rewrite structure_refreshList. apply step_refreshList. exact Hl.
Qed.

Lemma structure_run sty c w p :
  structure_step w (structure p) (structure (run sty c w p)).
Proof.
  destruct c; cbn [run].
  - unfold resizeEvent.
    rewrite (structure_core _ _ (core_updateControlsGeometry sty w p)).
    apply step_same.
  - apply structure_paintEvent.
  - apply structure_enterEventHook.
  - rewrite structure_leaveEventHook. apply step_same.
  - apply structure_showFromOther.
  - rewrite structure_hideFromOther. apply step_same.
  - apply structure_hideIgnoringEnterEvents.
  - rewrite structure_setPinCallback. apply step_same.
  - rewrite structure_setCloseCallback. apply step_same.
  - unfold showTimer_fired. destruct (_showTimer p); [apply step_same|].
    rewrite structure_startShow. apply step_ensureCreated.
  - unfold hideTimer_fired. destruct (_hideTimer p); [apply step_same|].
    apply (structure_startHideChecked sty w (set_hideTimer Idle p)).
  - unfold appearance_tick. destruct (_a_appearance p); [|apply step_same].
    apply (structure_appearanceCallback w
             (set_a_appearance (negb finished) p)).
  - unfold activeChanged_signal, windowActiveChanged.
    destruct (activeChanged_connected p); [|apply step_same].
    destruct (negb (window_isActive w) && negb (isHidden p));
      [|apply step_same].
    rewrite structure_leaveEventHook. apply step_same.
  - apply structure_playlistChanges_next.
  - rewrite (structure_core _ _ (core_heightValue_next sty newHeight p)).
    apply step_same.
  - rewrite structure_checkForHide_next. apply step_same.
  - rewrite structure_scrollToRequests_next. apply step_same.
  - rewrite (structure_core _ _ (core_with_list _ p)). apply step_same.
  - rewrite (structure_core _ _ (core_with_list _ p)). apply step_same.
Qed.

(** ** Invariants of the structure *)

Lemma Layout_eqb_eq a b : Layout_eqb a b = true <-> a = b.
Proof. destruct a, b; cbn; split; intros; congruence. Qed.

Lemma list_peer_coupled_refreshList w s :
  list_peer_coupled s -> list_peer_coupled (S_refreshList w s).
Proof.
  unfold list_peer_coupled, S_refreshList. intros H.
  destruct (_ || _); [reflexivity | exact H].
Qed.

Lemma list_peer_coupled_performDestroy s :
  list_peer_coupled s -> list_peer_coupled (S_performDestroy s).
Proof.
  unfold list_peer_coupled, S_performDestroy. intros H.
  destruct (s_list s) eqn:E; [reflexivity | now rewrite E].
Qed.

Lemma structure_ok_step w s s' :
  structure_step w s s' -> structure_ok s -> structure_ok s'.
Proof.
  intros Hstep (H1 & H2 & H3).
  destruct Hstep as [ | | | Hl]; [now repeat split| | |];
    unfold structure_ok, list_peer_coupled, children_only_full,
      list_is_subscribed, S_performDestroy, S_ensureCreated, S_refreshList
      in *;
    destruct s as [lay cov sha lis lp lm lt]; cbn in *.
  - destruct lis; cbn; [|now repeat split].
    repeat split; try discriminate.
    intros H. apply H2. rewrite H. apply orb_true_r.
  - destruct lis; cbn; [now repeat split|].
    assert (Hfull : (Layout_eqb lay Full || cov)
                    || (Layout_eqb lay Full || sha) = true -> lay = Full).
    { intros H. destruct (Layout_eqb lay Full) eqn:E;
        [now apply Layout_eqb_eq | now apply H2]. }
    destruct (negb (ptr_eqb lp (refreshList_peer w))
              || negb (ptr_eqb lm (refreshList_migrated w)));
      cbn; (split; [|split]);
      try reflexivity; try assumption; intros; reflexivity.
  - destruct (negb (ptr_eqb lp (refreshList_peer w))
              || negb (ptr_eqb lm (refreshList_migrated w)));
      cbn; (split; [|split]);
      try reflexivity; try assumption; intros; assumption.
Qed.

Lemma structure_Panel_new sty layout :
  structure (Panel_new sty layout)
  = {| s_layout := layout; s_cover := false; s_shadow := false;
       s_list := false; s_listPeer := None; s_listMigratedPeer := None;
       s_lifetime := false |}.
Proof.
  unfold Panel_new.
  now rewrite (structure_core _ _ (core_updateSize sty _)).
Qed.

Lemma reachable_structure_ok sty p :
  reachable sty p -> structure_ok (structure p).
Proof.
  induction 1 as [layout | p c w _ IH].
  - rewrite structure_Panel_new. repeat split; cbn; discriminate.
  - exact (structure_ok_step w _ _ (structure_run sty c w p) IH).
Qed.

Lemma has_list_structure p : has_list p = s_list (structure p).
Proof. reflexivity. Qed.

Lemma has_cover_structure p : has_cover p = s_cover (structure p).
Proof. reflexivity. Qed.

Lemma has_scrollShadow_structure p :
  has_scrollShadow p = s_shadow (structure p).
Proof. reflexivity. Qed.

(** ** The children and the layout *)

(** C6. The scroll area exists from construction for every layout, with
    no cover and no scroll shadow yet; [ensureCreated] creates the cover
    and the scroll shadow when the layout is Layout::Full and creates
    neither in the other layout; in every reachable state the cover and
    the scroll shadow are non-null only if the layout is Layout::Full. *)
Theorem children_gated_by_layout (sty : Style) :
  (forall layout,
     _scroll (Panel_new sty layout) = scroll_setVisible false ScrollArea_new
     /\ _cover (Panel_new sty layout) = None
     /\ _scrollShadow (Panel_new sty layout) = None)
  /\ (forall w p, _layout p = Full -> has_list p = false ->
      has_cover (ensureCreated sty w p) = true
      /\ has_scrollShadow (ensureCreated sty w p) = true)
  /\ (forall w p, _layout p <> Full ->
      has_cover (ensureCreated sty w p) = has_cover p
      /\ has_scrollShadow (ensureCreated sty w p) = has_scrollShadow p)
  /\ (forall p, reachable sty p ->
      has_cover p = true \/ has_scrollShadow p = true -> _layout p = Full).
Proof.
  split; [|split; [|split]].
  - intros layout. repeat split.
  - intros w p Hf Hl.
    rewrite has_cover_structure, has_scrollShadow_structure,
      structure_ensureCreated.
    unfold S_ensureCreated, S_refreshList.
    rewrite <- has_list_structure, Hl.
    change (s_layout (structure p)) with (_layout p). rewrite Hf.
    destruct (_ || _); split; reflexivity.
  - intros w p Hf.
    rewrite !has_cover_structure, !has_scrollShadow_structure,
      structure_ensureCreated.
    unfold S_ensureCreated, S_refreshList.
    destruct (s_list (structure p)); [now split|].
    change (s_layout (structure p)) with (_layout p).
    destruct (Layout_eqb (_layout p) Full) eqn:E;
      [now apply Layout_eqb_eq in E|].
    destruct (_ || _); split; reflexivity.
  - intros p Hr H. destruct (reachable_structure_ok sty p Hr) as (_ & H2 & _).
    apply H2. rewrite <- has_cover_structure, <- has_scrollShadow_structure.
    destruct H as [-> | ->]; [reflexivity | apply orb_true_r].
Qed.

Lemma reachable_panel_appearing sty layout :
  reachable sty (panel_appearing sty layout).
Proof. do 2 apply reachable_step. apply reachable_new. Qed.

Lemma reachable_panel_shown sty layout :
  reachable sty (panel_shown sty layout).
Proof. apply reachable_step, reachable_panel_appearing. Qed.

Lemma children_gated_by_layout_witness :
  has_cover (panel_shown sty0 Full) = true
  /\ _layout (panel_shown sty0 Full) = Full.
Proof.
  split; [reflexivity|].
  apply (proj2 (proj2 (proj2 (children_gated_by_layout sty0)))
           (panel_shown sty0 Full) (reachable_panel_shown sty0 Full)).
  left. reflexivity.
Defined.

(** ** The list widget and the stored peers *)

Lemma structure_run_list sty c w p :
  list_peer_coupled (structure p) ->
  list_peer_coupled (structure (run_list sty c w p)).
Proof.
  intros H. destruct c; cbn [run_list].
  - rewrite structure_refreshList. now apply list_peer_coupled_refreshList.
  - rewrite structure_performDestroy.
    now apply list_peer_coupled_performDestroy.
  - rewrite structure_hideFinished.
    now apply list_peer_coupled_performDestroy.
Qed.

Lemma structure_run_lists sty cs p :
  list_peer_coupled (structure p) ->
  list_peer_coupled (structure (run_lists sty cs p)).
Proof.
  revert p. induction cs as [|[c w] cs IH]; intros p H; cbn [run_lists].
  - exact H.
  - apply IH. now apply structure_run_list.
Qed.

Lemma child_ops_app l l' : child_ops (l ++ l') = child_ops l ++ child_ops l'.
Proof. apply filter_app. Qed.

Lemma child_ops_refreshList_cleared p :
  child_ops (trace (refreshList_cleared p))
  = child_ops (trace p)
    ++ (if has_list p then [Destroyed ChildList] else []).
Proof.
  destruct_panel p.
  unfold refreshList_cleared, scroll_takeWidget_destroy, has_list, emit.
  cbn. destruct p_list; cbn.
  - now rewrite child_ops_app.
  - now rewrite app_nil_r.
Qed.

Lemma child_ops_refreshList_installed w pr p :
  child_ops (trace (refreshList_installed w pr p))
  = child_ops (trace p)
    ++ (if has_list p then [Destroyed ChildList] else [])
    ++ [Created ChildList].
Proof.
  destruct_panel p.
  unfold refreshList_installed, refreshList_cleared, scroll_setOwnedWidget,
    scroll_takeWidget_destroy, has_list, emit.
  cbn. destruct p_list; cbn.
  - rewrite !child_ops_app, <- app_assoc. reflexivity.
  - now rewrite child_ops_app.
Qed.

Lemma core_children_trace p : core_children (core p) = child_ops (trace p).
Proof. reflexivity. Qed.

(** The creations and destructions [refreshList] adds to the trace. *)
Lemma child_ops_refreshList sty w p :
  child_ops (trace (refreshList sty w p))
  = child_ops (trace p)
    ++ (if refreshList_changed w p && has_list p
        then [Destroyed ChildList] else [])
    ++ (if refreshList_changed w p && is_some (refreshList_peer w)
        then [Created ChildList] else []).
Proof.
  destruct (refreshList_changed w p) eqn:H; cbn [andb].
  - destruct (refreshList_peer w) as [pr|] eqn:Hp; cbn [is_some].
    + rewrite <- core_children_trace,
        (refreshList_changed_some sty w p pr H Hp), core_children_trace.
      apply child_ops_refreshList_installed.
    + rewrite (refreshList_changed_none sty w p H Hp), app_nil_r.
      apply child_ops_refreshList_cleared.
  - rewrite (refreshList_unchanged sty w p H). now rewrite app_nil_r.
Qed.

(** The creations and destructions [performDestroy] adds to the trace. *)
Lemma child_ops_performDestroy w p :
  child_ops (trace (performDestroy w p))
  = child_ops (trace p)
    ++ (if has_list p
        then (if has_cover p then [Destroyed ChildCover] else [])
             ++ [Destroyed ChildList]
        else []).
Proof.
  destruct_panel p.
  unfold performDestroy, cover_destroy, scroll_takeWidget_destroy, has_list,
    has_cover, emit.
  cbn. destruct p_list; cbn; [|now rewrite app_nil_r].
  destruct p_cover; cbn; destruct (platform_isMac w && has_window w); cbn;
    rewrite ?child_ops_app, <- ?app_assoc; reflexivity.
Qed.

Lemma list_and_peer_refreshList sty w p :
  refreshList_changed w p = true ->
  has_list (refreshList sty w p) = is_some (refreshList_peer w)
  /\ _listPeer (refreshList sty w p) = refreshList_peer w.
Proof.
  intros H.
  change (_listPeer (refreshList sty w p))
    with (s_listPeer (structure (refreshList sty w p))).
  rewrite has_list_structure, structure_refreshList.
  unfold S_refreshList. unfold refreshList_changed in H.
  change (s_listPeer (structure p)) with (_listPeer p).
  change (s_listMigratedPeer (structure p)) with (_listMigratedPeer p).
  rewrite H. now split.
Qed.

Lemma list_and_peer_performDestroy w p :
  has_list p = is_some (_listPeer p) ->
  has_list (performDestroy w p) = false
  /\ _listPeer (performDestroy w p) = None.
Proof.
  intros Hc.
  change (_listPeer (performDestroy w p))
    with (s_listPeer (structure (performDestroy w p))).
  rewrite has_list_structure, structure_performDestroy.
  unfold S_performDestroy. rewrite <- has_list_structure.
  destruct (has_list p) eqn:Hl; [now split|].
  rewrite <- has_list_structure, Hl. split; [reflexivity|].
  change (s_listPeer (structure p)) with (_listPeer p).
  now destruct (_listPeer p).
Qed.

(** C10. In every state reached from construction by any sequence of
    [refreshList], [performDestroy] and [hideFinished] calls, the scroll
    area owns a list widget if and only if _listPeer is non-null; each of
    the three calls keeps the two coupled.  They change together:
    [refreshList] leaves the panel alone when the resolved pair is the
    stored one; when the pair differs it destroys the list widget and
    resets the peer, and creates a list widget and stores the resolved
    peer exactly when that peer is non-null.  [performDestroy] and
    [hideFinished] destroy the list widget, if there is one, and leave the
    peer null. *)
Theorem list_and_peer_coupled (sty : Style) :
  (forall layout cs,
     let p := run_lists sty cs (Panel_new sty layout) in
     has_list p = true <-> _listPeer p <> None)
  /\ (forall c w p,
        has_list p = is_some (_listPeer p) ->
        has_list (run_list sty c w p)
        = is_some (_listPeer (run_list sty c w p)))
  /\ (forall w p,
        has_list p = is_some (_listPeer p) ->
        let q := refreshList sty w p in
        (refreshList_changed w p = false -> q = p)
        /\ (refreshList_changed w p = true ->
            has_list q = is_some (refreshList_peer w)
            /\ _listPeer q = refreshList_peer w
            /\ child_ops (trace q)
               = child_ops (trace p)
                 ++ (if is_some (_listPeer p)
                     then [Destroyed ChildList] else [])
                 ++ (if is_some (refreshList_peer w)
                     then [Created ChildList] else [])))
  /\ (forall w p,
        has_list p = is_some (_listPeer p) ->
        let q := performDestroy w p in
        has_list q = false /\ _listPeer q = None
        /\ child_ops (trace q)
           = child_ops (trace p)
             ++ (if is_some (_listPeer p)
                 then (if has_cover p then [Destroyed ChildCover] else [])
                      ++ [Destroyed ChildList]
                 else []))
  /\ (forall w p,
        has_list p = is_some (_listPeer p) ->
        let q := hideFinished w p in
        has_list q = false /\ _listPeer q = None
        /\ child_ops (trace q)
           = child_ops (trace p)
             ++ (if is_some (_listPeer p)
                 then (if has_cover p then [Destroyed ChildCover] else [])
                      ++ [Destroyed ChildList]
                 else [])).
Proof.
  split; [|split; [|split; [|split]]].
  - intros layout cs p.
    assert (H : list_peer_coupled (structure p)).
    { apply structure_run_lists. rewrite structure_Panel_new. reflexivity. }
    unfold list_peer_coupled in H. rewrite <- has_list_structure in H.
    change (s_listPeer (structure p)) with (_listPeer p) in H.
    rewrite H. destruct (_listPeer p); cbn; split; intros; congruence.
  - intros c w p H. exact (structure_run_list sty c w p H).
  - intros w p Hc q. split.
    + apply refreshList_unchanged.
    + intros H. unfold q.
      destruct (list_and_peer_refreshList sty w p H) as [H1 H2].
      split; [exact H1|]. split; [exact H2|].
      rewrite child_ops_refreshList, H, <- Hc. reflexivity.
  - intros w p Hc q. unfold q.
    destruct (list_and_peer_performDestroy w p Hc) as [H1 H2].
    split; [exact H1|]. split; [exact H2|].
    rewrite child_ops_performDestroy, <- Hc. reflexivity.
  - intros w p Hc q. unfold q, hideFinished.
    set (p' := set_cache false (hide p)).
    assert (Hc' : has_list p' = is_some (_listPeer p')) by exact Hc.
    destruct (list_and_peer_performDestroy w p' Hc') as [H1 H2].
    split; [exact H1|]. split; [exact H2|].
    rewrite child_ops_performDestroy.
    change (has_list p') with (has_list p).
    change (has_cover p') with (has_cover p).
    change (trace p') with (trace p).
    rewrite <- Hc. reflexivity.
Qed.

Lemma list_and_peer_coupled_witness :
  (has_list (refreshList sty0 world_song (Panel_new sty0 OnlyPlaylist))
   = is_some (refreshList_peer world_song)
   /\ _listPeer (refreshList sty0 world_song (Panel_new sty0 OnlyPlaylist))
      = refreshList_peer world_song
   /\ child_ops
        (trace (refreshList sty0 world_song (Panel_new sty0 OnlyPlaylist)))
      = child_ops (trace (Panel_new sty0 OnlyPlaylist))
        ++ (if is_some (_listPeer (Panel_new sty0 OnlyPlaylist))
            then [Destroyed ChildList] else [])
        ++ (if is_some (refreshList_peer world_song)
            then [Created ChildList] else []))
  /\ (has_list (performDestroy world_song (panel_shown sty0 OnlyPlaylist))
      = false
      /\ _listPeer (performDestroy world_song (panel_shown sty0 OnlyPlaylist))
         = None
      /\ child_ops
           (trace (performDestroy world_song (panel_shown sty0 OnlyPlaylist)))
         = child_ops (trace (panel_shown sty0 OnlyPlaylist))
           ++ (if is_some (_listPeer (panel_shown sty0 OnlyPlaylist))
               then (if has_cover (panel_shown sty0 OnlyPlaylist)
                     then [Destroyed ChildCover] else [])
                    ++ [Destroyed ChildList]
               else [])).
Proof.
  split.
  - refine (proj2 (proj1 (proj2 (proj2 (list_and_peer_coupled sty0)))
                     world_song (Panel_new sty0 OnlyPlaylist) _) _);
      vm_compute; reflexivity.
  - refine (proj1 (proj2 (proj2 (proj2 (list_and_peer_coupled sty0))))
              world_song (panel_shown sty0 OnlyPlaylist) _).
    vm_compute. reflexivity.
Defined.

(** ** [peer] *)

(** C8. [peer] returns the field _listPeer as a not_null pointer: the call
    fails its contract exactly when _listPeer is null.  The field is null
    from construction, [refreshList] sets it when it installs a list widget
    and resets it when the resolved peer changes, [performDestroy] resets
    it; so in every reachable state a call of [peer] made while no list
    widget exists violates the contract, and a call made while one exists
    returns the stored peer. *)
Theorem peer_requires_list (sty : Style) :
  (forall p, peer p = ExpectsFailed <-> _listPeer p = None)
  /\ (forall layout, _listPeer (Panel_new sty layout) = None)
  /\ (forall w p, refreshList_changed w p = true ->
      _listPeer (refreshList sty w p) = refreshList_peer w
      /\ has_list (refreshList sty w p) = is_some (refreshList_peer w))
  /\ (forall w p, has_list p = true -> _listPeer (performDestroy w p) = None)
  /\ (forall p, reachable sty p -> has_list p = false ->
      peer p = ExpectsFailed)
  /\ (forall p, reachable sty p -> has_list p = true ->
      exists pr, peer p = Returned pr).
Proof.
  split; [|split; [|split; [|split; [|split]]]].
  - intros p. unfold peer. destruct (_listPeer p); split; congruence.
  - reflexivity.
  - intros w p H.
    change (_listPeer (refreshList sty w p))
      with (s_listPeer (structure (refreshList sty w p))).
    rewrite has_list_structure, structure_refreshList.
    unfold S_refreshList, refreshList_changed in *.
    change (s_listPeer (structure p)) with (_listPeer p).
    change (s_listMigratedPeer (structure p)) with (_listMigratedPeer p).
    rewrite H. now split.
  - intros w p H.
    change (_listPeer (performDestroy w p))
      with (s_listPeer (structure (performDestroy w p))).
    rewrite structure_performDestroy. unfold S_performDestroy.
    rewrite <- has_list_structure, H. reflexivity.
  - intros p Hr Hl. destruct (reachable_structure_ok sty p Hr) as (H1 & _).
    unfold list_peer_coupled in H1. rewrite <- has_list_structure, Hl in H1.
    change (s_listPeer (structure p)) with (_listPeer p) in H1.
    unfold peer. destruct (_listPeer p); [discriminate | reflexivity].
  - intros p Hr Hl. destruct (reachable_structure_ok sty p Hr) as (H1 & _).
    unfold list_peer_coupled in H1. rewrite <- has_list_structure, Hl in H1.
    change (s_listPeer (structure p)) with (_listPeer p) in H1.
    unfold peer. destruct (_listPeer p) as [pr|]; [|discriminate].
    now exists pr.
Qed.

Lemma peer_requires_list_witness :
  has_list (Panel_new sty0 Full) = false
  /\ peer (Panel_new sty0 Full) = ExpectsFailed.
Proof.
  split; [vm_compute; reflexivity|].
  apply (proj1 (proj2 (proj2 (proj2 (proj2 (peer_requires_list sty0)))))
           (Panel_new sty0 Full)).
  - apply reachable_new.
  - vm_compute. reflexivity.
Defined.

(** ** [refreshList] and the playlist subscription *)





(** ** Showing the panel *)

Lemma core_hidden_isHidden p : core_hidden (core p) = isHidden p.
Proof. reflexivity. Qed.

Lemma isHidden_core p q : core q = core p -> isHidden q = isHidden p.
Proof. intros H. now rewrite <- !core_hidden_isHidden, H. Qed.

Lemma isHidden_refreshList sty w p :
  isHidden (refreshList sty w p) = isHidden p.
Proof.
  destruct (refreshList_changed w p) eqn:H.
  - destruct (refreshList_peer w) as [pr|] eqn:Hp.
    + rewrite (isHidden_core _ _ (refreshList_changed_some sty w p pr H Hp)).
      destruct_panel p.
      unfold refreshList_installed, refreshList_cleared,
        scroll_setOwnedWidget, scroll_takeWidget_destroy.
      now destruct p_list.
    + rewrite (refreshList_changed_none sty w p H Hp).
      destruct_panel p.
      unfold refreshList_cleared, scroll_takeWidget_destroy.
      now destruct p_list.
  - now rewrite (refreshList_unchanged sty w p H).
Qed.

Lemma isHidden_cover_create w p : isHidden (cover_create w p) = isHidden p.
Proof. destruct_panel p. unfold cover_create. now destruct p_cover. Qed.

Lemma isHidden_scrollShadow_create w p :
  isHidden (scrollShadow_create w p) = isHidden p.
Proof. destruct_panel p. unfold scrollShadow_create. now destruct p_shadow. Qed.

Lemma isHidden_setPinCallback cb p :
  isHidden (setPinCallback cb p) = isHidden p.
Proof. destruct_panel p. unfold setPinCallback. now destruct p_cover. Qed.

Lemma isHidden_setCloseCallback cb p :
  isHidden (setCloseCallback cb p) = isHidden p.
Proof. destruct_panel p. unfold setCloseCallback. now destruct p_cover. Qed.

Lemma isHidden_set_ignoringEnterEvents v p :
  isHidden (set_ignoringEnterEvents v p) = isHidden p.
Proof. reflexivity. Qed.

Lemma isHidden_set_activeChanged_connected v p :
  isHidden (set_activeChanged_connected v p) = isHidden p.
Proof. reflexivity. Qed.

Lemma isHidden_set_refreshListLifetime v p :
  isHidden (set_refreshListLifetime v p) = isHidden p.
Proof. reflexivity. Qed.

Lemma isHidden_ensureCreated sty w p :
  isHidden (ensureCreated sty w p) = isHidden p.
Proof.
  unfold ensureCreated.
  destruct (scroll_widget (_scroll p)); [reflexivity|]. cbv zeta.
  rewrite isHidden_set_ignoringEnterEvents.
  match goal with
  | |- isHidden (if ?c then _ else _) = _ =>
      destruct c; rewrite ?isHidden_set_activeChanged_connected
  end.
  all: rewrite isHidden_refreshList, isHidden_set_refreshListLifetime.
  all: destruct (Layout_eqb (_layout p) Full); [|reflexivity].
  all: now rewrite isHidden_scrollShadow_create, isHidden_setCloseCallback,
         isHidden_setPinCallback, isHidden_cover_create.
Qed.

Lemma isHidden_performDestroy w p :
  isHidden (performDestroy w p) = isHidden p.
Proof.
  destruct_panel p.
  unfold performDestroy, cover_destroy, scroll_takeWidget_destroy.
  cbn. destruct p_list; [|reflexivity].
  destruct p_cover; cbn; destruct (platform_isMac w && has_window w);
    reflexivity.
Qed.

Lemma isHidden_hideFinished w p : isHidden (hideFinished w p) = true.
Proof. unfold hideFinished. now rewrite isHidden_performDestroy. Qed.

Lemma isHidden_startAnimation p : isHidden (startAnimation p) = isHidden p.
Proof.
  destruct_panel p. unfold startAnimation. now destruct p_cache.
Qed.

Lemma isHidden_startHide p : isHidden (startHide p) = isHidden p.
Proof.
  unfold startHide. destruct (_hiding p || isHidden p); [reflexivity|].
  now rewrite isHidden_startAnimation.
Qed.

Lemma contentTooSmall_startAnimation sty p :
  contentTooSmall sty (startAnimation p) = contentTooSmall sty p.
Proof.
  destruct_panel p.
  unfold startAnimation, contentTooSmall, showChildren, hideChildren,
    setChildrenVisible.
  destruct p_cache, p_cover; reflexivity.
Qed.

Lemma contentTooSmall_shown sty p :
  contentTooSmall sty
    (set_hiding false (show (scrollPlaylistToCurrentTrack sty p)))
  = contentTooSmall sty p.
Proof.
  destruct_panel p. unfold scrollPlaylistToCurrentTrack, contentTooSmall.
  now destruct p_list.
Qed.

(** [startShow] shows a hidden panel only past its contentTooSmall()
    check, and the content still fits when it returns. *)
Lemma startShow_shows_fitting sty w p :
  isHidden p = true -> isHidden (startShow sty w p) = false ->
  contentTooSmall sty (ensureCreated sty w p) = false
  /\ contentTooSmall sty (startShow sty w p) = false.
Proof.
  intros Hh Hs. unfold startShow in *. cbv zeta in *.
  pose proof (isHidden_ensureCreated sty w p) as He. rewrite Hh in He.
  destruct (contentTooSmall sty (ensureCreated sty w p)) eqn:Hc;
    [congruence|].
  split; [reflexivity|]. rewrite He.
  now rewrite contentTooSmall_startAnimation, contentTooSmall_shown.
Qed.

Lemma isHidden_leaveEventHook p : isHidden (leaveEventHook p) = isHidden p.
Proof.
  unfold leaveEventHook. destruct (preventAutoHide p); [reflexivity|].
  cbv zeta.
  destruct (_a_appearance (Timer_cancel ShowTimer p)); [|reflexivity].
  now rewrite isHidden_startHide.
Qed.

Lemma isHidden_hideFromOther p : isHidden (hideFromOther p) = isHidden p.
Proof.
  unfold hideFromOther. cbv zeta.
  destruct (_a_appearance (Timer_cancel ShowTimer p)); [|reflexivity].
  now rewrite isHidden_startHide.
Qed.

Lemma isHidden_startHideChecked sty w p :
  isHidden p = true -> isHidden (startHideChecked sty w p) = true.
Proof.
  intros H. unfold startHideChecked.
  destruct (negb (contentTooSmall sty p) && preventAutoHide p); [exact H|].
  rewrite H. apply isHidden_hideFinished.
Qed.

Lemma isHidden_appearanceCallback w p :
  isHidden p = true -> isHidden (appearanceCallback w p) = true.
Proof.
  intros H. unfold appearanceCallback.
  destruct (negb (_a_appearance p) && _hiding p); [|exact H].
  apply isHidden_hideFinished.
Qed.

Lemma isHidden_paintEvent w p :
  isHidden p = true -> isHidden (paintEvent w p) = true.
Proof.
  intros H. unfold paintEvent. destruct (_cache p); [|exact H].
  destruct (_a_appearance p); [exact H|]. rewrite H, orb_true_r.
  apply isHidden_hideFinished.
Qed.

(** No call of the owner or of the framework makes a hidden panel visible
    while its content is too small. *)
Lemma run_shows_fitting sty c w p :
  isHidden p = true -> isHidden (run sty c w p) = false ->
  contentTooSmall sty (run sty c w p) = false.
Proof.
  intros Hh. destruct c; cbn [run].
  - unfold resizeEvent.
    rewrite (isHidden_core _ _ (core_updateControlsGeometry sty w p)).
    congruence.
  - rewrite (isHidden_paintEvent w p Hh). discriminate.
  - unfold enterEventHook.
    destruct (_ignoringEnterEvents p || contentTooSmall sty p);
      [congruence|]. cbv zeta.
    destruct (_a_appearance (Timer_cancel HideTimer p)).
    + intros Hs. now apply startShow_shows_fitting.
    + unfold isHidden in *. cbn. congruence.
  - rewrite isHidden_leaveEventHook. congruence.
  - unfold showFromOther. cbv zeta.
    destruct (_a_appearance (Timer_cancel HideTimer p)).
    + intros Hs. now apply startShow_shows_fitting.
    + unfold isHidden in *. cbn. congruence.
  - rewrite isHidden_hideFromOther. congruence.
  - unfold hideIgnoringEnterEvents. cbv zeta.
    rewrite isHidden_set_ignoringEnterEvents, Hh, isHidden_hideFinished.
    discriminate.
  - rewrite isHidden_setPinCallback. congruence.
  - rewrite isHidden_setCloseCallback. congruence.
  - unfold showTimer_fired. destruct (_showTimer p); [congruence|].
    intros Hs. now apply startShow_shows_fitting.
  - unfold hideTimer_fired. destruct (_hideTimer p); [congruence|].
    rewrite isHidden_startHideChecked; [discriminate | exact Hh].
  - unfold appearance_tick. destruct (_a_appearance p); [|congruence].
    rewrite isHidden_appearanceCallback; [discriminate | exact Hh].
  - unfold activeChanged_signal, windowActiveChanged.
    destruct (activeChanged_connected p); [|congruence].
    destruct (negb (window_isActive w) && negb (isHidden p)); [|congruence].
    rewrite isHidden_leaveEventHook. congruence.
  - unfold playlistChanges_next.
    destruct (_refreshListLifetime p && AudioMsgIdType_eqb type Song);
      [|congruence].
    rewrite isHidden_refreshList. congruence.
  - rewrite (isHidden_core _ _ (core_heightValue_next sty newHeight p)).
    congruence.
  - unfold checkForHide_next.
    destruct (scroll_widget (_scroll p)); [|congruence].
    destruct (negb _); unfold isHidden in *; cbn; congruence.
  - unfold scrollToRequests_next.
    destruct (scroll_widget (_scroll p)); unfold isHidden in *; cbn;
      congruence.
  - rewrite (isHidden_core _ _ (core_with_list _ p)). congruence.
  - rewrite (isHidden_core _ _ (core_with_list _ p)). congruence.
Qed.

(** A call that makes a hidden panel visible ends in [startShow]. *)
Lemma run_shows_via_startShow sty c w p :
  isHidden p = true -> isHidden (run sty c w p) = false ->
  exists p', isHidden p' = true /\ run sty c w p = startShow sty w p'.
Proof.
  intros Hh Hs.
  assert (Hstart : forall p', isHidden p' = true ->
            run sty c w p = startShow sty w p' ->
            exists p', isHidden p' = true /\ run sty c w p = startShow sty w p')
    by (intros p' H1 H2; now exists p').
  destruct c; cbn [run] in *;
    try (exfalso; revert Hs;
         first
           [ rewrite isHidden_leaveEventHook
           | rewrite isHidden_hideFromOther
           | rewrite isHidden_setPinCallback
           | rewrite isHidden_setCloseCallback
           | rewrite (isHidden_paintEvent w p Hh)
           | unfold resizeEvent;
             rewrite (isHidden_core _ _ (core_updateControlsGeometry sty w p))
           | rewrite (isHidden_core _ _ (core_heightValue_next sty _ p))
           | rewrite (isHidden_core _ _ (core_with_list _ p)) ];
         congruence).
  - unfold enterEventHook in *.
    destruct (_ignoringEnterEvents p || contentTooSmall sty p);
      [congruence|]. cbv zeta in *.
    destruct (_a_appearance (Timer_cancel HideTimer p)).
    + apply (Hstart (Timer_cancel HideTimer p)); [exact Hh | reflexivity].
    + unfold isHidden in *. cbn in Hs. congruence.
  - unfold showFromOther in *. cbv zeta in *.
    destruct (_a_appearance (Timer_cancel HideTimer p)).
    + apply (Hstart (Timer_cancel HideTimer p)); [exact Hh | reflexivity].
    + unfold isHidden in *. cbn in Hs. congruence.
  - exfalso. revert Hs. unfold hideIgnoringEnterEvents. cbv zeta.
    rewrite isHidden_set_ignoringEnterEvents, Hh, isHidden_hideFinished.
    discriminate.
  - unfold showTimer_fired in *. destruct (_showTimer p); [congruence|].
    apply (Hstart (set_showTimer Idle p)); [exact Hh | reflexivity].
  - exfalso. revert Hs. unfold hideTimer_fired.
    destruct (_hideTimer p); [congruence|].
    rewrite isHidden_startHideChecked; [discriminate | exact Hh].
  - exfalso. revert Hs. unfold appearance_tick.
    destruct (_a_appearance p); [|congruence].
    rewrite isHidden_appearanceCallback; [discriminate | exact Hh].
  - exfalso. revert Hs. unfold activeChanged_signal, windowActiveChanged.
    destruct (activeChanged_connected p); [|congruence].
    destruct (negb (window_isActive w) && negb (isHidden p)); [|congruence].
    rewrite isHidden_leaveEventHook. congruence.
  - exfalso. revert Hs. unfold playlistChanges_next.
    destruct (_refreshListLifetime p && AudioMsgIdType_eqb type Song);
      [|congruence].
    rewrite isHidden_refreshList. congruence.
  - exfalso. revert Hs. unfold checkForHide_next.
    destruct (scroll_widget (_scroll p)); [|congruence].
    destruct (negb _); unfold isHidden in *; cbn; congruence.
  - exfalso. revert Hs. unfold scrollToRequests_next.
    destruct (scroll_widget (_scroll p)); unfold isHidden in *; cbn;
      congruence.
Qed.

Lemma isHidden_Panel_new sty layout : isHidden (Panel_new sty layout) = true.
Proof.
  unfold Panel_new. now rewrite (isHidden_core _ _ (core_updateSize sty _)).
Qed.

(** C9. [startShow] returns before showing whenever contentTooSmall()
    holds after [ensureCreated]; a call makes a hidden panel visible only
    by running [startShow], and only when contentTooSmall() is false at
    its check; hence every reachable visible panel was shown by a call
    that found, and left, contentTooSmall() false. *)
Theorem shown_only_when_content_fits (sty : Style) :
  (forall w p, contentTooSmall sty (ensureCreated sty w p) = true ->
     startShow sty w p = ensureCreated sty w p
     /\ isHidden (startShow sty w p) = isHidden p)
  /\ (forall w p, isHidden p = true -> isHidden (startShow sty w p) = false ->
      contentTooSmall sty (ensureCreated sty w p) = false)
  /\ (forall c w p, isHidden p = true -> isHidden (run sty c w p) = false ->
      contentTooSmall sty (run sty c w p) = false
      /\ exists p', isHidden p' = true
                    /\ run sty c w p = startShow sty w p')
  /\ (forall p, reachable sty p -> isHidden p = false ->
      exists q, shown_since sty q p /\ contentTooSmall sty q = false).
Proof.
  split; [|split; [|split]].
  - intros w p H. unfold startShow. cbv zeta. rewrite H.
    split; [reflexivity | apply isHidden_ensureCreated].
  - intros w p Hh Hs. now apply startShow_shows_fitting.
  - intros c w p Hh Hs. split.
    + now apply run_shows_fitting.
    + now apply run_shows_via_startShow.
  - intros p Hr. induction Hr as [layout | p c w Hr IH]; intros Hv.
    + rewrite isHidden_Panel_new in Hv. discriminate.
    + destruct (isHidden p) eqn:Hh.
      * exists (run sty c w p). split.
        -- now apply shown_by_call.
        -- now apply run_shows_fitting.
      * destruct (IH eq_refl) as (q & Hq & Hc).
        exists q. split; [|exact Hc]. now apply shown_kept.
Qed.

Lemma shown_only_when_content_fits_witness :
  isHidden (Panel_new sty0 OnlyPlaylist) = true
  /\ isHidden (startShow sty0 world_song (Panel_new sty0 OnlyPlaylist)) = false
  /\ contentTooSmall sty0
       (ensureCreated sty0 world_song (Panel_new sty0 OnlyPlaylist)) = false.
Proof.
  split; [vm_compute; reflexivity|]. split; [vm_compute; reflexivity|].
  apply (proj1 (proj2 (shown_only_when_content_fits sty0)) world_song
           (Panel_new sty0 OnlyPlaylist)); vm_compute; reflexivity.
Defined.

(** ** The properties on concrete panels *)

Lemma updateControlsGeometry_scroll_witness :
  scroll_geometryToRight
    (_scroll (updateControlsGeometry sty0 world_song
                (Panel_new sty0 OnlyPlaylist)))
  = scroll_geometryToRight (_scroll (Panel_new sty0 OnlyPlaylist)).
Proof.
  apply (proj1 (proj2 (proj2 (proj2
           (updateControlsGeometry_scroll sty0 world_song
              (Panel_new sty0 OnlyPlaylist)))))).
  vm_compute. discriminate.
Defined.

Example updateSize_empty_panel :
  widget_size (Panel_new sty0 OnlyPlaylist)
  = {| size_w := 364; size_h := 20 |}.
Proof. vm_compute. reflexivity. Qed.

Example updateSize_playlist_panel :
  widget_size (updateSize sty0 (panel_shown sty0 OnlyPlaylist))
  = {| size_w := 364; size_h := 213 |}
  /\ scroll_visible (_scroll (updateSize sty0 (panel_shown sty0 OnlyPlaylist)))
     = true.
Proof. vm_compute. split; reflexivity. Qed.

Example updateSize_full_panel :
  widget_size (updateSize sty0 (panel_shown sty0 Full))
  = {| size_w := 354; size_h := 283 |}.
Proof. vm_compute. reflexivity. Qed.

Example updateControlsGeometry_playlist_panel :
  scroll_geometryToRight
    (_scroll (updateControlsGeometry sty0 world_song
                (panel_shown sty0 OnlyPlaylist)))
  = Some (10, 10, 344, 193).
Proof. vm_compute. reflexivity. Qed.

Example overlaps_inside :
  overlaps sty0 world_song (QRect_xywh 120 70 50 40)
    (panel_shown sty0 OnlyPlaylist) = true.
Proof. vm_compute. reflexivity. Qed.

Example overlaps_on_the_margin :
  overlaps sty0 world_song (QRect_xywh 100 50 50 40)
    (panel_shown sty0 OnlyPlaylist) = false.
Proof. vm_compute. reflexivity. Qed.

Example overlaps_while_animating :
  overlaps sty0 world_song (QRect_xywh 120 70 50 40)
    (panel_appearing sty0 OnlyPlaylist) = false.
Proof. vm_compute. reflexivity. Qed.

Example leave_then_hide_timer :
  timers (run sty0 Call_leaveEventHook world_song
            (panel_shown sty0 OnlyPlaylist))
  = (Idle, Once 300,
     [TimerCancel HideTimer; TimerCallOnce ShowTimer 300;
      TimerCallOnce HideTimer 0;
      TimerCancel ShowTimer; TimerCallOnce HideTimer 300]).
Proof. vm_compute. reflexivity. Qed.

Example refreshList_song_stopped :
  let p := panel_shown sty0 OnlyPlaylist in
  let q := refreshList sty0 world_idle p in
  has_list p = true /\ _listPeer p = Some 5%positive
  /\ has_list q = false /\ _listPeer q = None
  /\ child_ops (trace q) = [Created ChildList; Destroyed ChildList].
Proof. vm_compute. repeat split; reflexivity. Qed.

Example peer_of_shown_panel :
  peer (panel_shown sty0 OnlyPlaylist) = Returned 5%positive
  /\ peer (hideFinished world_song (panel_shown sty0 OnlyPlaylist))
     = ExpectsFailed.
Proof. vm_compute. split; reflexivity. Qed.

Example empty_playlist_is_not_shown :
  isHidden (startShow sty0 world_idle (Panel_new sty0 OnlyPlaylist)) = true.
Proof. vm_compute. reflexivity. Qed.

(** * Further properties of the methods *)

(** ** [refreshList] follows the playing song *)

Lemma ptr_eqb_refl a : ptr_eqb a a = true.
Proof. now apply ptr_eqb_eq. Qed.

Lemma refreshList_peer_unset w :
  FullMsgId_bool (current_song_contextId w) = false ->
  refreshList_peer w = None.
Proof. intros H. unfold refreshList_peer. cbv zeta. now rewrite H. Qed.

(** X1. On a panel whose list widget and stored peer are coupled,
    [refreshList] ends with the stored (peer, migrated peer) pair equal to
    the pair resolved from the playing song, and with a list widget exactly
    when that peer is non-null, whether or not the pair had changed; in
    particular no list and no peer are left when no song is current. *)
Theorem refreshList_tracks_song (sty : Style) (w : World) (p : Panel) :
  has_list p = is_some (_listPeer p) ->
  let q := refreshList sty w p in
  _listPeer q = refreshList_peer w
  /\ _listMigratedPeer q = refreshList_migrated w
  /\ has_list q = is_some (refreshList_peer w)
  /\ (FullMsgId_bool (current_song_contextId w) = false ->
      has_list q = false /\ _listPeer q = None /\ _listMigratedPeer q = None).
Proof.
  intros Hc q.
  assert (H : _listPeer q = refreshList_peer w
              /\ _listMigratedPeer q = refreshList_migrated w
              /\ has_list q = is_some (refreshList_peer w)).
  { unfold q.
    change (_listPeer (refreshList sty w p))
      with (s_listPeer (structure (refreshList sty w p))).
    change (_listMigratedPeer (refreshList sty w p))
      with (s_listMigratedPeer (structure (refreshList sty w p))).
    rewrite has_list_structure, structure_refreshList.
    unfold S_refreshList.
    change (s_listPeer (structure p)) with (_listPeer p).
    change (s_listMigratedPeer (structure p)) with (_listMigratedPeer p).
    destruct (ptr_eqb (_listPeer p) (refreshList_peer w)) eqn:E1;
      [|now repeat split].
    destruct (ptr_eqb (_listMigratedPeer p) (refreshList_migrated w)) eqn:E2;
      [|now repeat split].
    apply ptr_eqb_eq in E1, E2. cbn [negb orb].
    change (s_listPeer (structure p)) with (_listPeer p).
    change (s_listMigratedPeer (structure p)) with (_listMigratedPeer p).
    rewrite <- has_list_structure, Hc, E1. now repeat split. }
  destruct H as (H1 & H2 & H3). repeat split; try assumption.
  - rewrite H3, (refreshList_peer_unset w H). reflexivity.
  - rewrite H1. now apply refreshList_peer_unset.
  - rewrite H2. apply refreshList_migrated_none.
    now apply refreshList_peer_unset.
Qed.

Lemma refreshList_tracks_song_witness :
  _listPeer (refreshList sty0 world_idle (panel_shown sty0 OnlyPlaylist))
  = refreshList_peer world_idle.
Proof.
  refine (proj1 (refreshList_tracks_song sty0 world_idle
                   (panel_shown sty0 OnlyPlaylist) _)).
  vm_compute. reflexivity.
Defined.

(** X2. [refreshList] is idempotent: a second call in the same world
    changes nothing, whatever the first one did. *)
Theorem refreshList_idempotent (sty : Style) (w : World) (p : Panel) :
  refreshList sty w (refreshList sty w p) = refreshList sty w p.
Proof.
  apply refreshList_unchanged. unfold refreshList_changed.
  change (_listPeer (refreshList sty w p))
    with (s_listPeer (structure (refreshList sty w p))).
  change (_listMigratedPeer (refreshList sty w p))
    with (s_listMigratedPeer (structure (refreshList sty w p))).
  rewrite structure_refreshList. unfold S_refreshList.
  change (s_listPeer (structure p)) with (_listPeer p).
  change (s_listMigratedPeer (structure p)) with (_listMigratedPeer p).
  destruct (ptr_eqb (_listPeer p) (refreshList_peer w)) eqn:E1;
    destruct (ptr_eqb (_listMigratedPeer p) (refreshList_migrated w)) eqn:E2;
    cbn [negb orb s_listPeer s_listMigratedPeer];
    rewrite ?ptr_eqb_refl; try reflexivity.
  change (s_listPeer (structure p)) with (_listPeer p).
  change (s_listMigratedPeer (structure p)) with (_listMigratedPeer p).
  now rewrite E1, E2.
Qed.

(** ** [performDestroy] *)

(** X3. [performDestroy] does nothing while the scroll area owns no list
    widget, even if a cover exists; with a list widget it removes the
    cover, the list widget, both stored peers and the playlist
    subscription.  It never touches the scroll shadow, and running it
    twice is the same as running it once. *)
Theorem performDestroy_effect (w w' : World) (p : Panel) :
  (has_list p = false -> performDestroy w p = p)
  /\ (has_list p = true ->
      has_cover (performDestroy w p) = false
      /\ has_list (performDestroy w p) = false
      /\ _listPeer (performDestroy w p) = None
      /\ _listMigratedPeer (performDestroy w p) = None
      /\ _refreshListLifetime (performDestroy w p) = false)
  /\ _scrollShadow (performDestroy w p) = _scrollShadow p
  /\ performDestroy w' (performDestroy w p) = performDestroy w p.
Proof.
  destruct_panel p.
  unfold performDestroy, cover_destroy, scroll_takeWidget_destroy, has_list,
    has_cover, emit.
  cbn. destruct p_list as [l|]; cbn.
  - destruct p_cover; cbn; destruct (platform_isMac w && has_window w); cbn;
      repeat split; discriminate.
  - repeat split; discriminate.
Qed.

Lemma performDestroy_effect_witness :
  has_cover (performDestroy world_song (panel_shown sty0 Full)) = false
  /\ has_list (performDestroy world_song (panel_shown sty0 Full)) = false
  /\ _listPeer (performDestroy world_song (panel_shown sty0 Full)) = None
  /\ _listMigratedPeer (performDestroy world_song (panel_shown sty0 Full))
     = None
  /\ _refreshListLifetime (performDestroy world_song (panel_shown sty0 Full))
     = false.
Proof.
  apply (proj1 (proj2 (performDestroy_effect world_song world_song
                         (panel_shown sty0 Full)))).
  vm_compute. reflexivity.
Defined.

(** ** [startHide] and [startShow] *)

Lemma hiding_startAnimation p : _hiding (startAnimation p) = _hiding p.
Proof. destruct_panel p. unfold startAnimation. now destruct p_cache. Qed.

(** X4. [startHide] is idempotent: once the hide has started, or while the
    panel is hidden, a further call changes nothing. *)
Theorem startHide_idempotent (p : Panel) :
  startHide (startHide p) = startHide p.
Proof.
  assert (Hskip : forall q, _hiding q || isHidden q = true -> startHide q = q).
  { intros q H. unfold startHide. now rewrite H. }
  apply Hskip. unfold startHide.
  destruct (_hiding p || isHidden p) eqn:E; [exact E|].
  rewrite hiding_startAnimation. reflexivity.
Qed.

Lemma ensureCreated_with_list sty w p :
  has_list p = true -> ensureCreated sty w p = p.
Proof.
  unfold has_list, ensureCreated.
  destruct (scroll_widget (_scroll p)); [reflexivity | discriminate].
Qed.

Lemma has_list_startAnimation p : has_list (startAnimation p) = has_list p.
Proof.
  change (s_list (structure (startAnimation p)) = s_list (structure p)).
  now rewrite structure_startAnimation.
Qed.

(** After [startShow] the content is too small, or the panel is visible and
    not hiding. *)
Lemma startShow_result sty w p :
  contentTooSmall sty (startShow sty w p) = true
  \/ (isHidden (startShow sty w p) = false
      /\ _hiding (startShow sty w p) = false).
Proof.
  unfold startShow. cbv zeta.
  destruct (contentTooSmall sty (ensureCreated sty w p)) eqn:Hc;
    [now left|].
  right.
  destruct (isHidden (ensureCreated sty w p)) eqn:Hh.
  - now rewrite isHidden_startAnimation, hiding_startAnimation.
  - destruct (_hiding (ensureCreated sty w p)) eqn:Hg; cbn [negb].
    + now rewrite isHidden_startAnimation, hiding_startAnimation.
    + now split.
Qed.

(** X5. Once [startShow] has left the panel with a list widget, a second
    [startShow] changes nothing: it neither recreates children nor
    restarts the animation. *)
Theorem startShow_idempotent (sty : Style) (w w' : World) (p : Panel) :
  has_list (startShow sty w p) = true ->
  startShow sty w' (startShow sty w p) = startShow sty w p.
Proof.
  intros Hl. set (q := startShow sty w p) in *.
  unfold startShow at 1. cbv zeta.
  rewrite (ensureCreated_with_list sty w' q Hl).
  destruct (contentTooSmall sty q) eqn:Hc; [reflexivity|].
  destruct (startShow_result sty w p) as [H | [Hh Hg]].
  - fold q in H. congruence.
  - fold q in Hh, Hg. now rewrite Hh, Hg.
Qed.

Lemma startShow_idempotent_witness :
  startShow sty0 world_idle
    (startShow sty0 world_song (Panel_new sty0 OnlyPlaylist))
  = startShow sty0 world_song (Panel_new sty0 OnlyPlaylist).
Proof.
  apply (startShow_idempotent sty0 world_song world_idle
           (Panel_new sty0 OnlyPlaylist)).
  vm_compute. reflexivity.
Defined.

(** ** The hide animation *)

Lemma hiding_performDestroy w p :
  _hiding (performDestroy w p) = _hiding p.
Proof.
  destruct_panel p.
  unfold performDestroy, cover_destroy, scroll_takeWidget_destroy.
  cbn. destruct p_list; [|reflexivity].
  destruct p_cover; cbn; destruct (platform_isMac w && has_window w);
    reflexivity.
Qed.

Lemma animating_performDestroy w p :
  _a_appearance (performDestroy w p) = _a_appearance p.
Proof.
  destruct_panel p.
  unfold performDestroy, cover_destroy, scroll_takeWidget_destroy.
  cbn. destruct p_list; [|reflexivity].
  destruct p_cover; cbn; destruct (platform_isMac w && has_window w);
    reflexivity.
Qed.

Lemma cache_performDestroy w p : _cache (performDestroy w p) = _cache p.
Proof.
  destruct_panel p.
  unfold performDestroy, cover_destroy, scroll_takeWidget_destroy.
  cbn. destruct p_list; [|reflexivity].
  destruct p_cover; cbn; destruct (platform_isMac w && has_window w);
    reflexivity.
Qed.

Lemma has_list_performDestroy w p : has_list (performDestroy w p) = false.
Proof.
  destruct_panel p.
  unfold performDestroy, cover_destroy, scroll_takeWidget_destroy, has_list.
  cbn. destruct p_list; [|reflexivity].
  destruct p_cover; cbn; destruct (platform_isMac w && has_window w);
    reflexivity.
Qed.

Lemma animating_startAnimation p : _a_appearance (startAnimation p) = true.
Proof. reflexivity. Qed.

Lemma listPeer_startAnimation p : _listPeer (startAnimation p) = _listPeer p.
Proof. destruct_panel p. unfold startAnimation. now destruct p_cache. Qed.

(** X6. When the hide animation started by [startHide] on a visible panel
    reaches its end, the panel is hidden, its cache is dropped, the flags
    are reset and the list widget and the stored peer are gone; a tick
    that does not end the animation changes nothing. *)
Theorem hide_animation_ends_hidden (w : World) (p : Panel) :
  isHidden p = false -> _hiding p = false ->
  has_list p = is_some (_listPeer p) ->
  let q := appearance_tick true w (startHide p) in
  isHidden q = true /\ _hiding q = false /\ _a_appearance q = false
  /\ _cache q = false /\ has_list q = false /\ _listPeer q = None
  /\ appearance_tick false w (startHide p) = startHide p.
Proof.
  intros Hh Hg Hc q.
  assert (E0 : startHide p = startAnimation (set_hiding true p)).
  { unfold startHide. now rewrite Hh, Hg. }
  set (q0 := startAnimation (set_hiding true p)) in *.
  assert (Hg0 : _hiding q0 = true).
  { unfold q0. now rewrite hiding_startAnimation. }
  set (x := set_hiding false (set_a_appearance false q0)).
  assert (Eq : q = hideFinished w x).
  { unfold q, appearance_tick, appearanceCallback. rewrite E0.
    change (_a_appearance q0) with true. cbv iota.
    change (_a_appearance (set_a_appearance (negb true) q0)) with false.
    change (_hiding (set_a_appearance (negb true) q0)) with (_hiding q0).
    rewrite Hg0. reflexivity. }
  assert (Hx : has_list x = has_list p /\ _listPeer x = _listPeer p).
  { change (has_list x) with (has_list q0).
    change (_listPeer x) with (_listPeer q0). unfold q0.
    now rewrite has_list_startAnimation, listPeer_startAnimation. }
  destruct Hx as [Hx1 Hx2].
  rewrite Eq. unfold hideFinished.
  rewrite isHidden_performDestroy, hiding_performDestroy,
    animating_performDestroy, cache_performDestroy.
  repeat split.
  - apply has_list_performDestroy.
  - change (_listPeer (performDestroy w (set_cache false (hide x))))
      with (s_listPeer
              (structure (performDestroy w (set_cache false (hide x))))).
    rewrite structure_performDestroy. unfold S_performDestroy.
    change (structure (set_cache false (hide x))) with (structure x).
    rewrite <- has_list_structure.
    assert (Hcx : has_list x = is_some (_listPeer x))
      by (rewrite Hx1, Hx2; exact Hc).
    destruct (has_list x) eqn:E; [reflexivity|].
    change (s_listPeer (structure x)) with (_listPeer x).
    destruct (_listPeer x); [discriminate Hcx | reflexivity].
  - unfold appearance_tick, appearanceCallback. rewrite E0.
    change (_a_appearance q0) with true. cbv iota.
    change (_a_appearance (set_a_appearance (negb false) q0)) with true.
    cbn [negb andb]. reflexivity.
Qed.

Lemma hide_animation_ends_hidden_witness :
  isHidden (appearance_tick true world_song
              (startHide (panel_shown sty0 OnlyPlaylist))) = true.
Proof.
  refine (proj1 (hide_animation_ends_hidden world_song
                   (panel_shown sty0 OnlyPlaylist) _ _ _));
    vm_compute; reflexivity.
Defined.

(** X7. A hide in progress is called off by [startShow]: on a visible
    panel with a list widget and fitting content, [startShow] after
    [startHide] clears _hiding, and when the animation then ends the
    panel is still visible and still owns its list widget. *)
Theorem startShow_calls_off_hide (sty : Style) (w w' : World) (p : Panel) :
  isHidden p = false -> _hiding p = false -> has_list p = true ->
  contentTooSmall sty p = false ->
  let q := startShow sty w (startHide p) in
  _hiding q = false /\ _a_appearance q = true /\ isHidden q = false
  /\ isHidden (appearance_tick true w' q) = false
  /\ has_list (appearance_tick true w' q) = true
  /\ _listPeer (appearance_tick true w' q) = _listPeer p.
Proof.
  intros Hh Hg Hl Hc q.
  assert (E0 : startHide p = startAnimation (set_hiding true p)).
  { unfold startHide. now rewrite Hh, Hg. }
  set (q0 := startAnimation (set_hiding true p)) in *.
  assert (Hl0 : has_list q0 = true).
  { unfold q0. now rewrite has_list_startAnimation. }
  assert (Eq : q = startAnimation (set_hiding false q0)).
  { unfold q, startShow. cbv zeta. rewrite E0.
    rewrite (ensureCreated_with_list sty w q0 Hl0).
    unfold q0 at 1. rewrite contentTooSmall_startAnimation.
    change (contentTooSmall sty (set_hiding true p))
      with (contentTooSmall sty p).
    rewrite Hc. unfold q0 at 1. rewrite isHidden_startAnimation.
    change (isHidden (set_hiding true p)) with (isHidden p). rewrite Hh.
    unfold q0 at 1. rewrite hiding_startAnimation. reflexivity. }
  assert (Hq : _hiding q = false /\ _a_appearance q = true
               /\ isHidden q = false /\ has_list q = true
               /\ _listPeer q = _listPeer p).
  { rewrite Eq. repeat split.
    - now rewrite hiding_startAnimation.
    - rewrite isHidden_startAnimation.
      change (isHidden (set_hiding false q0)) with (isHidden q0).
      unfold q0. now rewrite isHidden_startAnimation.
    - rewrite has_list_startAnimation. exact Hl0.
    - rewrite listPeer_startAnimation.
      change (_listPeer (set_hiding false q0)) with (_listPeer q0).
      unfold q0. now rewrite listPeer_startAnimation. }
  destruct Hq as (H1 & H2 & H3 & H4 & H5).
  repeat split; try assumption;
    unfold appearance_tick, appearanceCallback; rewrite H2;
    change (_a_appearance (set_a_appearance (negb true) q)) with false;
    change (_hiding (set_a_appearance (negb true) q)) with (_hiding q);
    rewrite H1; cbn [negb andb]; assumption.
Qed.

Lemma startShow_calls_off_hide_witness :
  isHidden (appearance_tick true world_song
              (startShow sty0 world_song
                 (startHide (panel_shown sty0 OnlyPlaylist)))) = false.
Proof.
  refine (proj1 (proj2 (proj2 (proj2
            (startShow_calls_off_hide sty0 world_song world_song
               (panel_shown sty0 OnlyPlaylist) _ _ _ _)))));
    vm_compute; reflexivity.
Defined.

(** ** Ignoring enter events *)

Lemma ignoring_performDestroy w p :
  _ignoringEnterEvents (performDestroy w p) = _ignoringEnterEvents p.
Proof.
  destruct_panel p.
  unfold performDestroy, cover_destroy, scroll_takeWidget_destroy.
  cbn. destruct p_list; [|reflexivity].
  destruct p_cover; cbn; destruct (platform_isMac w && has_window w);
    reflexivity.
Qed.

Lemma ignoring_startHide p :
  _ignoringEnterEvents (startHide p) = _ignoringEnterEvents p.
Proof.
  unfold startHide. destruct (_hiding p || isHidden p); [reflexivity|].
  destruct_panel p. unfold startAnimation. now destruct p_cache.
Qed.

Lemma ignoring_core p q :
  core q = core p -> _ignoringEnterEvents q = _ignoringEnterEvents p.
Proof. intros H. exact (f_equal core_ignoring H). Qed.

Lemma ignoring_refreshList sty w p :
  _ignoringEnterEvents (refreshList sty w p) = _ignoringEnterEvents p.
Proof.
  destruct (refreshList_changed w p) eqn:H.
  - destruct (refreshList_peer w) as [pr|] eqn:Hp.
    + rewrite (ignoring_core _ _ (refreshList_changed_some sty w p pr H Hp)).
      destruct_panel p.
      unfold refreshList_installed, refreshList_cleared,
        scroll_setOwnedWidget, scroll_takeWidget_destroy.
      now destruct p_list.
    + rewrite (refreshList_changed_none sty w p H Hp).
      destruct_panel p.
      unfold refreshList_cleared, scroll_takeWidget_destroy.
      now destruct p_list.
  - now rewrite (refreshList_unchanged sty w p H).
Qed.

Lemma ignoring_startAnimation p :
  _ignoringEnterEvents (startAnimation p) = _ignoringEnterEvents p.
Proof. destruct_panel p. unfold startAnimation. now destruct p_cache. Qed.

Lemma ignoring_hideFinished w p :
  _ignoringEnterEvents (hideFinished w p) = _ignoringEnterEvents p.
Proof. unfold hideFinished. now rewrite ignoring_performDestroy. Qed.

Lemma ignoring_ensureCreated sty w p :
  _ignoringEnterEvents (ensureCreated sty w p)
  = if has_list p then _ignoringEnterEvents p else false.
Proof.
  unfold has_list, ensureCreated.
  destruct (scroll_widget (_scroll p)); reflexivity.
Qed.

Lemma ignoring_startShow sty w p :
  _ignoringEnterEvents (startShow sty w p)
  = _ignoringEnterEvents (ensureCreated sty w p).
Proof.
  unfold startShow. cbv zeta. set (x := ensureCreated sty w p).
  destruct (contentTooSmall sty x); [reflexivity|].
  destruct (isHidden x).
  - rewrite ignoring_startAnimation.
    change (_ignoringEnterEvents (scrollPlaylistToCurrentTrack sty x)
            = _ignoringEnterEvents x).
    unfold scrollPlaylistToCurrentTrack.
    now destruct (scroll_widget (_scroll x)).
  - destruct (negb (_hiding x)); [reflexivity|].
    now rewrite ignoring_startAnimation.
Qed.

Lemma ignoring_leaveEventHook p :
  _ignoringEnterEvents (leaveEventHook p) = _ignoringEnterEvents p.
Proof.
  unfold leaveEventHook. destruct (preventAutoHide p); [reflexivity|].
  cbv zeta. destruct (_a_appearance (Timer_cancel ShowTimer p));
    [now rewrite ignoring_startHide | reflexivity].
Qed.

Lemma ignoring_hideIgnoringEnterEvents w p :
  _ignoringEnterEvents (hideIgnoringEnterEvents w p) = true.
Proof.
  unfold hideIgnoringEnterEvents. cbv zeta.
  destruct (isHidden (set_ignoringEnterEvents true p)).
  - now rewrite ignoring_hideFinished.
  - now rewrite ignoring_startHide.
Qed.

(** Every entry point but the two that reach [startShow] keeps the flag. *)
Lemma ignoring_run sty c w p :
  _ignoringEnterEvents p = true ->
  c <> Call_showTimer_fired -> c <> Call_showFromOther ->
  _ignoringEnterEvents (run sty c w p) = true.
Proof.
  intros H Hc1 Hc2. destruct c; cbn [run]; try congruence.
  - unfold resizeEvent.
    now rewrite (ignoring_core _ _ (core_updateControlsGeometry sty w p)).
  - unfold paintEvent. destruct (_cache p); [|exact H].
    destruct (_a_appearance p); [exact H|].
    destruct (_hiding p || isHidden p); [|exact H].
    now rewrite ignoring_hideFinished.
  - unfold enterEventHook. now rewrite H.
  - now rewrite ignoring_leaveEventHook.
  - unfold hideFromOther. cbv zeta.
    destruct (_a_appearance (Timer_cancel ShowTimer p));
      [now rewrite ignoring_startHide | exact H].
  - apply ignoring_hideIgnoringEnterEvents.
  - destruct_panel p. unfold setPinCallback. cbn in *. now destruct p_cover.
  - destruct_panel p. unfold setCloseCallback. cbn in *. now destruct p_cover.
  - unfold hideTimer_fired. destruct (_hideTimer p); [exact H|].
    unfold startHideChecked.
    destruct (negb _ && _); [exact H|].
    destruct (isHidden (set_hideTimer Idle p)).
    + now rewrite ignoring_hideFinished.
    + now rewrite ignoring_startHide.
  - unfold appearance_tick. destruct (_a_appearance p); [|exact H].
    unfold appearanceCallback.
    destruct (negb _ && _); [|exact H].
    now rewrite ignoring_hideFinished.
  - unfold activeChanged_signal, windowActiveChanged.
    destruct (activeChanged_connected p); [|exact H].
    destruct (negb (window_isActive w) && negb (isHidden p)); [|exact H].
    now rewrite ignoring_leaveEventHook.
  - unfold playlistChanges_next.
    destruct (_refreshListLifetime p && AudioMsgIdType_eqb type Song);
      [|exact H].
    now rewrite ignoring_refreshList.
  - now rewrite (ignoring_core _ _ (core_heightValue_next sty newHeight p)).
  - unfold checkForHide_next.
    destruct (scroll_widget (_scroll p)); [|exact H].
    destruct (negb _); exact H.
  - unfold scrollToRequests_next.
    destruct (scroll_widget (_scroll p)); exact H.
  - now rewrite (ignoring_core _ _ (core_with_list _ p)).
  - now rewrite (ignoring_core _ _ (core_with_list _ p)).
Qed.

Lemma Call_eq_dec (c c' : Call) : {c = c'} + {c <> c'}.
Proof. repeat decide equality. Qed.

(** X8. After [hideIgnoringEnterEvents] an enter event does nothing.  The
    flag is cleared again only by an [ensureCreated] that finds no list
    widget; one that finds a list widget returns early and leaves the
    enter events ignored.  No other entry point clears the flag: a call
    after which it is no longer set is the show timer firing or
    [showFromOther], it has run [startShow], and the panel had no list
    widget; [startShow] changes the flag only through [ensureCreated]. *)
Theorem enter_ignored_after_hideIgnoringEnterEvents
    (sty : Style) (w w' : World) (p : Panel) :
  enterEventHook sty w' (hideIgnoringEnterEvents w p)
  = hideIgnoringEnterEvents w p
  /\ (has_list p = false ->
      _ignoringEnterEvents (ensureCreated sty w p) = false)
  /\ (has_list p = true ->
      _ignoringEnterEvents (ensureCreated sty w p) = _ignoringEnterEvents p)
  /\ (forall c,
        _ignoringEnterEvents p = true ->
        _ignoringEnterEvents (run sty c w p) = false ->
        has_list p = false
        /\ ((c = Call_showTimer_fired
             /\ run sty c w p = startShow sty w (set_showTimer Idle p))
            \/ (c = Call_showFromOther
                /\ run sty c w p
                   = startShow sty w (Timer_cancel HideTimer p))))
  /\ _ignoringEnterEvents (startShow sty w p)
     = _ignoringEnterEvents (ensureCreated sty w p).
Proof.
  split; [|split; [|split; [|split]]].
  - unfold enterEventHook.
    now rewrite (ignoring_hideIgnoringEnterEvents w p).
  - intros H. now rewrite ignoring_ensureCreated, H.
  - intros H. now rewrite ignoring_ensureCreated, H.
  - intros c H1 H2.
    destruct (Call_eq_dec c Call_showTimer_fired) as [->|Hc1].
    + cbn [run] in *. unfold showTimer_fired in *.
      destruct (_showTimer p); [congruence|].
      rewrite ignoring_startShow, ignoring_ensureCreated in H2.
      change (has_list (set_showTimer Idle p)) with (has_list p) in H2.
      destruct (has_list p); [exact (False_ind _ (eq_true_false_abs _ H1 H2))|].
      split; [reflexivity|]. left. now split.
    + destruct (Call_eq_dec c Call_showFromOther) as [->|Hc2].
      * cbn [run] in *. unfold showFromOther in *. cbv zeta in *.
        destruct (_a_appearance (Timer_cancel HideTimer p)).
        -- rewrite ignoring_startShow, ignoring_ensureCreated in H2.
           change (has_list (Timer_cancel HideTimer p)) with (has_list p)
             in H2.
           destruct (has_list p);
             [exact (False_ind _ (eq_true_false_abs _ H1 H2))|].
           split; [reflexivity|]. right. now split.
        -- exact (False_ind _ (eq_true_false_abs _ H1 H2)).
      * rewrite (ignoring_run sty c w p H1 Hc1 Hc2) in H2. discriminate H2.
  - apply ignoring_startShow.
Qed.

Lemma enter_ignored_after_hideIgnoringEnterEvents_witness :
  _ignoringEnterEvents
    (ensureCreated sty0 world_song
       (hideIgnoringEnterEvents world_song (Panel_new sty0 Full))) = false
  /\ (has_list (showFromOther sty0 world_song
                  (hideIgnoringEnterEvents world_song (Panel_new sty0 Full)))
      = false
      /\ ((Call_showTimer_fired = Call_showTimer_fired
           /\ run sty0 Call_showTimer_fired world_song
                (showFromOther sty0 world_song
                   (hideIgnoringEnterEvents world_song (Panel_new sty0 Full)))
              = startShow sty0 world_song
                  (set_showTimer Idle
                     (showFromOther sty0 world_song
                        (hideIgnoringEnterEvents world_song
                           (Panel_new sty0 Full)))))
          \/ (Call_showTimer_fired = Call_showFromOther
              /\ run sty0 Call_showTimer_fired world_song
                   (showFromOther sty0 world_song
                      (hideIgnoringEnterEvents world_song
                         (Panel_new sty0 Full)))
                 = startShow sty0 world_song
                     (Timer_cancel HideTimer
                        (showFromOther sty0 world_song
                           (hideIgnoringEnterEvents world_song
                              (Panel_new sty0 Full))))))).
Proof.
  split.
  - refine (proj1 (proj2 (enter_ignored_after_hideIgnoringEnterEvents sty0
                            world_song world_song
                            (hideIgnoringEnterEvents world_song
                               (Panel_new sty0 Full)))) _).
    vm_compute. reflexivity.
  - refine (proj1 (proj2 (proj2 (proj2
              (enter_ignored_after_hideIgnoringEnterEvents sty0
                 world_song world_song
                 (showFromOther sty0 world_song
                    (hideIgnoringEnterEvents world_song
                       (Panel_new sty0 Full)))))))
              Call_showTimer_fired _ _);
      vm_compute; reflexivity.
Defined.

(** ** The list height and the content check *)

Lemma gtb_leb_negb a b : (a >? b) = negb (a <=? b).
Proof. rewrite Z.gtb_ltb. apply Z.ltb_antisym. Qed.

Lemma contentTooSmall_updateSize sty p :
  contentTooSmall sty (updateSize sty p) = contentTooSmall sty p.
Proof.
  destruct_panel p. unfold updateSize, contentTooSmall. cbn.
  destruct p_shadow; reflexivity.
Qed.

Lemma height_updateSize sty p :
  height (updateSize sty p)
  = contentTop sty p + cover_height_or_0 p
    + (if 0 <? updateSize_listHeight p
       then Z.min (updateSize_listHeight p) (mediaPlayerListHeightMax sty)
            + mediaPlayerListMarginBottom sty
       else 0)
    + contentBottom sty p.
Proof.
  destruct_panel p.
  unfold updateSize, cover_height_or_0, height, resize. cbn.
  rewrite Z.gtb_ltb.
  destruct p_shadow; cbn; destruct p_cover; cbn;
    destruct (0 <? _); lia.
Qed.

(** X9. When the list widget publishes a height, [listHeightUpdated]
    agrees with contentTooSmall(): afterwards the content is too small
    exactly when the new height is at most the empty-list height and there
    is no cover; in that case the hide timer is armed once with 0 ms and
    the panel keeps its size, otherwise no timer is touched and the panel
    is resized for the new height. *)
Theorem listHeight_fits_or_hides (sty : Style) (h : Z) (p : Panel) :
  has_list p = true ->
  let q := heightValue_next sty h p in
  contentTooSmall sty q = (h <=? emptyInnerHeight sty) && negb (has_cover p)
  /\ (contentTooSmall sty q = true ->
      _hideTimer q = Once 0 /\ widget_size q = widget_size p)
  /\ (contentTooSmall sty q = false ->
      timers q = timers p
      /\ height q = contentTop sty p + cover_height_or_0 p
                    + (if 0 <? h
                       then Z.min h (mediaPlayerListHeightMax sty)
                            + mediaPlayerListMarginBottom sty
                       else 0)
                    + contentBottom sty p).
Proof.
  intros Hl q. set (p' := with_list (list_setHeight h) p).
  assert (Hq : q = listHeightUpdated sty h p').
  { unfold q, heightValue_next. unfold has_list in Hl.
    now destruct (scroll_widget (_scroll p)). }
  assert (Hs : contentTooSmall sty p'
               = (h <=? emptyInnerHeight sty) && negb (has_cover p)).
  { unfold p'. destruct_panel p. unfold has_list in Hl. cbn in Hl.
    destruct p_list; [reflexivity | discriminate]. }
  assert (Hp' : has_cover p' = has_cover p /\ widget_size p' = widget_size p
                /\ timers p' = timers p /\ updateSize_listHeight p' = h
                /\ cover_height_or_0 p' = cover_height_or_0 p
                /\ _layout p' = _layout p).
  { unfold p'. destruct_panel p. unfold has_list in Hl. cbn in Hl.
    destruct p_list; [now repeat split | discriminate]. }
  destruct Hp' as (Hc & Hw & Ht & Hh & Hch & Hla).
  rewrite Hq. unfold listHeightUpdated. fold (has_cover p').
  change (match _cover p' with Some _ => true | None => false end)
    with (has_cover p').
  rewrite gtb_leb_negb, Hc.
  assert (Hfit : contentTooSmall sty (updateSize sty p')
                 = (h <=? emptyInnerHeight sty) && negb (has_cover p))
    by (now rewrite contentTooSmall_updateSize).
  assert (Hsz : timers (updateSize sty p') = timers p
                /\ height (updateSize sty p')
                   = contentTop sty p + cover_height_or_0 p
                     + (if 0 <? h
                        then Z.min h (mediaPlayerListHeightMax sty)
                             + mediaPlayerListMarginBottom sty
                        else 0)
                     + contentBottom sty p).
  { rewrite timers_updateSize, height_updateSize, Hh, Hch.
    unfold contentTop, contentBottom. rewrite Hla. now split. }
  destruct (h <=? emptyInnerHeight sty) eqn:E1;
    destruct (has_cover p) eqn:E2; cbn [negb orb andb] in *.
  - rewrite Hfit. split; [reflexivity|]. split; [discriminate|].
    intros _. exact Hsz.
  - change (contentTooSmall sty (Timer_callOnce HideTimer 0 p'))
      with (contentTooSmall sty p').
    rewrite Hs. split; [reflexivity|]. split; [|discriminate].
    intros _. split; [reflexivity | exact Hw].
  - rewrite Hfit. split; [reflexivity|]. split; [discriminate|].
    intros _. exact Hsz.
  - rewrite Hfit. split; [reflexivity|]. split; [discriminate|].
    intros _. exact Hsz.
Qed.

Lemma listHeight_fits_or_hides_witness :
  contentTooSmall sty0
    (heightValue_next sty0 40 (panel_shown sty0 OnlyPlaylist))
  = (40 <=? emptyInnerHeight sty0)
    && negb (has_cover (panel_shown sty0 OnlyPlaylist)).
Proof.
  refine (proj1 (listHeight_fits_or_hides sty0 40
                   (panel_shown sty0 OnlyPlaylist) _)).
  vm_compute. reflexivity.
Defined.

Lemma hideTimer_startAnimation p :
  _hideTimer (startAnimation p) = _hideTimer p.
Proof. destruct_panel p. unfold startAnimation. now destruct p_cache. Qed.

(** X10. An emptied playlist hides itself: when the list of a visible
    panel without cover shrinks to at most the empty-list height, the hide
    timer armed by [listHeightUpdated] starts the hide when it fires, even
    while the list asks to prevent auto-hiding. *)
Theorem emptied_playlist_hides (sty : Style) (w : World) (h : Z) (p : Panel) :
  has_list p = true -> has_cover p = false ->
  h <= emptyInnerHeight sty ->
  isHidden p = false -> _hiding p = false ->
  let q := hideTimer_fired sty w (heightValue_next sty h p) in
  _hiding q = true /\ _a_appearance q = true /\ _hideTimer q = Idle
  /\ isHidden q = false.
Proof.
  intros Hl Hc Hh Hv Hg q. set (p' := with_list (list_setHeight h) p).
  apply Z.leb_le in Hh.
  assert (Hs : contentTooSmall sty p' = true).
  { unfold p'. destruct_panel p. unfold has_list, has_cover in *.
    cbn in Hl, Hc. destruct p_list; [|discriminate].
    destruct p_cover; [discriminate|].
    unfold with_list, contentTooSmall. cbn. now rewrite Hh. }
  assert (Hp' : has_cover p' = false /\ isHidden p' = false
                /\ _hiding p' = false).
  { unfold p'. rewrite has_cover_with_list.
    pose proof (core_with_list (list_setHeight h) p) as Hcore.
    split; [exact Hc|]. split.
    - rewrite <- Hv. exact (f_equal core_hidden Hcore).
    - rewrite <- Hg. exact (f_equal core_hiding Hcore). }
  destruct Hp' as (Hc' & Hv' & Hg').
  set (x := set_hideTimer Idle (Timer_callOnce HideTimer 0 p')).
  assert (Eq : q = startAnimation (set_hiding true x)).
  { unfold q, heightValue_next. unfold has_list in Hl.
    destruct (scroll_widget (_scroll p)); [|discriminate].
    fold p'. unfold listHeightUpdated.
    change (match _cover p' with Some _ => true | None => false end)
      with (has_cover p').
    rewrite gtb_leb_negb, Hh, Hc'. cbn [negb orb].
    unfold hideTimer_fired.
    change (_hideTimer (Timer_callOnce HideTimer 0 p')) with (Once 0).
    cbv iota. fold x. unfold startHideChecked.
    change (contentTooSmall sty x) with (contentTooSmall sty p').
    rewrite Hs. cbn [negb andb].
    change (isHidden x) with (isHidden p'). rewrite Hv'.
    unfold startHide.
    change (isHidden x) with (isHidden p').
    change (_hiding x) with (_hiding p').
    now rewrite Hv', Hg'. }
  rewrite Eq. split; [now rewrite hiding_startAnimation|].
  split; [reflexivity|]. split.
  - now rewrite hideTimer_startAnimation.
  - rewrite isHidden_startAnimation. exact Hv'.
Qed.

Lemma emptied_playlist_hides_witness :
  _hiding (hideTimer_fired sty0 world_song
             (heightValue_next sty0 40 (panel_shown sty0 OnlyPlaylist)))
  = true.
Proof.
  refine (proj1 (emptied_playlist_hides sty0 world_song 40
                   (panel_shown sty0 OnlyPlaylist) _ _ _ _ _));
    vm_compute; try reflexivity; discriminate.
Defined.

(** ** Sizes and placement *)

(** X11. [updateSize] is idempotent, and the height it sets is capped: the
    list contributes at most mediaPlayerListHeightMax +
    mediaPlayerListMarginBottom however long the playlist is. *)
Theorem updateSize_idempotent_and_capped (sty : Style) (p : Panel) :
  updateSize sty (updateSize sty p) = updateSize sty p
  /\ (0 <= mediaPlayerListHeightMax sty + mediaPlayerListMarginBottom sty ->
      height (updateSize sty p)
      <= contentTop sty p + cover_height_or_0 p
         + (mediaPlayerListHeightMax sty + mediaPlayerListMarginBottom sty)
         + contentBottom sty p).
Proof.
  destruct_panel p.
  unfold updateSize, updateSize_listHeight, cover_height_or_0, height,
    resize, contentTop, contentBottom, contentLeft, contentRight.
  cbn. split.
  - destruct p_shadow; reflexivity.
  - intros H. rewrite Z.gtb_ltb.
    destruct p_shadow; cbn; destruct p_cover; destruct p_list as [l|];
      try destruct (0 <? list_height l); cbn; lia.
Qed.

Lemma updateSize_idempotent_and_capped_witness :
  height (updateSize sty0 (panel_shown sty0 Full))
  <= contentTop sty0 (panel_shown sty0 Full)
     + cover_height_or_0 (panel_shown sty0 Full)
     + (mediaPlayerListHeightMax sty0 + mediaPlayerListMarginBottom sty0)
     + contentBottom sty0 (panel_shown sty0 Full).
Proof.
  refine (proj2 (updateSize_idempotent_and_capped sty0
                   (panel_shown sty0 Full)) _).
  vm_compute. discriminate.
Defined.

(** X12. [updateControlsGeometry] after [updateSize] gives the scroll area
    exactly the room [updateSize] reserved for it.  With a list of positive
    height (and a cover, if any, already at its laid-out height) the room
    is min(listHeight, mediaPlayerListHeightMax) +
    mediaPlayerListMarginBottom; when that is positive the scroll area is
    placed below the cover, mediaPlayerPanelWidth wide and that high, and
    when the style makes it zero or negative the geometry is left as it
    was.  With no list height the geometry is left as it was too. *)
Theorem scroll_area_fills_reserved_room (sty : Style) (w : World)
    (p : Panel) :
  (forall c, _cover p = Some c ->
     cover_height c = cover_resizeGetHeight w (mediaPlayerPanelWidth sty)) ->
  let listHeight := updateSize_listHeight p in
  let room := Z.min listHeight (mediaPlayerListHeightMax sty)
              + mediaPlayerListMarginBottom sty in
  let q := updateControlsGeometry sty w (updateSize sty p) in
  (0 < listHeight ->
   scroll_geometryToRight (_scroll q)
   = if 0 <? room
     then Some (contentRight sty p, contentTop sty p + cover_height_or_0 p,
                mediaPlayerPanelWidth sty, room)
     else scroll_geometryToRight (_scroll p))
  /\ (listHeight <= 0 ->
      scroll_geometryToRight (_scroll q)
      = scroll_geometryToRight (_scroll p)).
Proof.
  intros Hcov listHeight room q. unfold q.
  rewrite updateControlsGeometry_geometryToRight.
  assert (Hw : contentWidth sty (updateSize sty p)
               = mediaPlayerPanelWidth sty).
  { destruct_panel p.
    unfold contentWidth, width, updateSize, resize, contentLeft,
      contentRight.
    cbn. destruct p_shadow; cbn; lia. }
  assert (Hr : contentRight sty (updateSize sty p) = contentRight sty p).
  { destruct_panel p. unfold contentRight, updateSize. cbn.
    now destruct p_shadow. }
  assert (Hg : scroll_geometryToRight (_scroll (updateSize sty p))
               = scroll_geometryToRight (_scroll p)).
  { destruct_panel p. unfold updateSize. cbn. now destruct p_shadow. }
  assert (Ht : updateControlsGeometry_scrollTop sty w (updateSize sty p)
               = contentTop sty p + cover_height_or_0 p).
  { unfold updateControlsGeometry_scrollTop. rewrite Hw.
    specialize (Hcov).
    destruct_panel p. unfold updateSize, contentTop, cover_height_or_0.
    cbn in *. destruct p_shadow; cbn; destruct p_cover as [c|]; cbn;
      try lia; rewrite (Hcov c eq_refl); lia. }
  assert (Hh : updateControlsGeometry_scrollHeight sty w (updateSize sty p)
               = Z.max (if 0 <? listHeight then room else 0) 0).
  { unfold updateControlsGeometry_scrollHeight. rewrite Ht, height_updateSize.
    fold listHeight. fold room.
    replace (contentBottom sty (updateSize sty p)) with (contentBottom sty p)
      by reflexivity.
    unfold scrollMarginBottom. f_equal. lia. }
  rewrite Hh, Hw, Hr, Ht, Hg. split.
  - intros H1. apply Z.ltb_lt in H1. rewrite H1.
    destruct (Z.ltb_spec 0 room).
    + destruct (Z.gtb_spec (Z.max room 0) 0); [|lia].
      repeat f_equal. lia.
    + destruct (Z.gtb_spec (Z.max room 0) 0); [lia|reflexivity].
  - intros H1. destruct (Z.ltb_spec 0 listHeight); [lia|].
    now destruct (Z.gtb_spec (Z.max 0 0) 0).
Qed.

Lemma scroll_area_fills_reserved_room_witness :
  scroll_geometryToRight
    (_scroll (updateControlsGeometry sty0 world_song
                (updateSize sty0 (panel_shown sty0 OnlyPlaylist))))
  = Some (contentRight sty0 (panel_shown sty0 OnlyPlaylist),
          contentTop sty0 (panel_shown sty0 OnlyPlaylist)
          + cover_height_or_0 (panel_shown sty0 OnlyPlaylist),
          mediaPlayerPanelWidth sty0,
          Z.min (updateSize_listHeight (panel_shown sty0 OnlyPlaylist))
            (mediaPlayerListHeightMax sty0)
          + mediaPlayerListMarginBottom sty0).
Proof.
  refine (eq_trans
            (proj1 (scroll_area_fills_reserved_room sty0 world_song
                      (panel_shown sty0 OnlyPlaylist) _) _) _).
  - intros c H. vm_compute in H. discriminate H.
  - vm_compute. reflexivity.
  - vm_compute. reflexivity.
Defined.

(** X13. [updateControlsGeometry] stacks the children without gaps: the
    cover sits at contentTop, the scroll shadow directly below the cover
    with the cover's width and right offset, and the scroll area, when it
    is placed, starts where the shadow starts. *)
Theorem children_stacked (sty : Style) (w : World) (p : Panel)
    (c : CoverWidget) :
  _cover p = Some c ->
  let q := updateControlsGeometry sty w p in
  exists c',
    _cover q = Some c'
    /\ cover_top c' = contentTop sty p
    /\ cover_right c' = contentRight sty p
    /\ cover_width c' = contentWidth sty p
    /\ (forall s, _scrollShadow p = Some s ->
        exists s',
          _scrollShadow q = Some s'
          /\ shadow_top s' = cover_top c' + cover_height c'
          /\ shadow_width s' = cover_width c'
          /\ shadow_right s' = cover_right c'
          /\ shadow_height s'
             = m_bottom (mediaPlayerScrollShadow_extend sty))
    /\ (0 < updateControlsGeometry_scrollHeight sty w p ->
        exists r wd ht,
          scroll_geometryToRight (_scroll q)
          = Some (r, cover_top c' + cover_height c', wd, ht)).
Proof.
  intros Hc q.
  exists (cover_place w (contentWidth sty p) (contentRight sty p)
            (contentTop sty p) c).
  split; [|split; [|split; [|split; [|split]]]]; try reflexivity.
  - unfold q. now rewrite updateControlsGeometry_cover, Hc.
  - intros s Hs.
    exists (shadow_place (contentWidth sty p)
              (m_bottom (mediaPlayerScrollShadow_extend sty))
              (contentRight sty p)
              (updateControlsGeometry_scrollTop sty w p) s).
    split; [|split; [|split; [|split]]]; try reflexivity.
    + unfold q, updateControlsGeometry, with_list. cbv zeta.
      rewrite Hc.
      change (_scrollShadow (set_cover _ p)) with (_scrollShadow p).
      rewrite Hs.
      destruct (updateControlsGeometry_scrollHeight sty w p >? 0);
        cbn [_scroll set_scroll set_scrollShadow scroll_widget
             scroll_setGeometryToRight set_cover];
        destruct (scroll_widget (_scroll p)); reflexivity.
    + unfold updateControlsGeometry_scrollTop. rewrite Hc. reflexivity.
  - intros H. unfold q. rewrite updateControlsGeometry_geometryToRight.
    destruct (Z.gtb_spec (updateControlsGeometry_scrollHeight sty w p) 0);
      [|lia].
    do 3 eexists. unfold updateControlsGeometry_scrollTop. rewrite Hc.
    reflexivity.
Qed.

Lemma children_stacked_witness :
  exists c',
    _cover (updateControlsGeometry sty0 world_song (panel_shown sty0 Full))
    = Some c'
    /\ cover_top c' = contentTop sty0 (panel_shown sty0 Full).
Proof.
  destruct (_cover (panel_shown sty0 Full)) as [c|] eqn:E.
  - destruct (children_stacked sty0 world_song (panel_shown sty0 Full) c E)
      as (c' & H1 & H2 & _).
    exists c'. split; assumption.
  - vm_compute in E. discriminate E.
Defined.

(** ** [showFromOther] and [hideFromOther] *)

(** X14. [hideFromOther] cancels the show timer and then either calls
    [startHide] (animation running) or arms the hide timer once with 0 ms,
    without asking preventAutoHide(); [showFromOther] cancels the hide
    timer and then either calls [startShow] (animation running) or arms
    the show timer once with 300 ms.  Neither issues another timer call,
    [showFromOther] with a running animation as long as the panel has a
    cover or a list widget. *)
Theorem from_other_timer_driven (sty : Style) (w : World) (p : Panel) :
  (if _a_appearance p
   then hideFromOther p = startHide (Timer_cancel ShowTimer p)
        /\ timers (hideFromOther p)
           = (Idle, _hideTimer p,
              timer_ops (trace p) ++ [TimerCancel ShowTimer])
   else timers (hideFromOther p)
        = (Idle, Once 0,
           timer_ops (trace p)
           ++ [TimerCancel ShowTimer; TimerCallOnce HideTimer 0]))
  /\ (if _a_appearance p
      then showFromOther sty w p = startShow sty w (Timer_cancel HideTimer p)
           /\ (has_cover p || has_list p = true ->
               timers (showFromOther sty w p)
               = (_showTimer p, Idle,
                  timer_ops (trace p) ++ [TimerCancel HideTimer]))
      else timers (showFromOther sty w p)
           = (Once 300, Idle,
              timer_ops (trace p)
              ++ [TimerCancel HideTimer; TimerCallOnce ShowTimer 300])).
Proof.
  split.
  - unfold hideFromOther. cbv zeta.
    change (_a_appearance (Timer_cancel ShowTimer p)) with (_a_appearance p).
    destruct (_a_appearance p).
    + split; [reflexivity|].
      now rewrite timers_startHide, timers_Timer_cancel_show.
    + unfold timers, Timer_callOnce, Timer_cancel, emit. cbn.
      rewrite !timer_ops_app, <- app_assoc. reflexivity.
  - unfold showFromOther. cbv zeta.
    change (_a_appearance (Timer_cancel HideTimer p)) with (_a_appearance p).
    destruct (_a_appearance p).
    + split; [reflexivity|]. intros H.
      rewrite timers_startShow, timers_ensureCreated.
      * apply timers_Timer_cancel_hide.
      * exact H.
    + unfold timers, Timer_callOnce, Timer_cancel, emit. cbn.
      rewrite !timer_ops_app, <- app_assoc. reflexivity.
Qed.

Lemma from_other_timer_driven_witness :
  timers (showFromOther sty0 world_song (panel_appearing sty0 Full))
  = (_showTimer (panel_appearing sty0 Full), Idle,
     timer_ops (trace (panel_appearing sty0 Full)) ++ [TimerCancel HideTimer]).
Proof.
  pose proof (proj2 (from_other_timer_driven sty0 world_song
                       (panel_appearing sty0 Full))) as H.
  destruct (_a_appearance (panel_appearing sty0 Full)) eqn:E.
  - apply (proj2 H). vm_compute. reflexivity.
  - vm_compute in E. discriminate E.
Defined.

(** ** [paintEvent] *)

Lemma showChildren_shown p :
  let q := set_cache false (showChildren p) in
  _cache q = false
  /\ isHidden q = isHidden p
  /\ scroll_visible (_scroll q) = true
  /\ (forall c, _cover q = Some c -> cover_visible c = true)
  /\ (forall s, _scrollShadow q = Some s -> shadow_visible s = true)
  /\ structure q = structure p.
Proof.
  destruct_panel p. unfold showChildren, setChildrenVisible. cbn.
  repeat split.
  - intros c H. destruct p_cover; [|discriminate]. now injection H as <-.
  - intros s H. destruct p_shadow; [|discriminate]. now injection H as <-.
  - unfold structure, structure_of, has_cover, has_scrollShadow, has_list.
    cbn. now destruct p_cover, p_shadow.
Qed.

(** X15. A [paintEvent] that finds no animation running never leaves a
    cached pixmap.  With a cache it either finishes the hide (when _hiding
    is set or the panel is hidden: the result is that of [hideFinished],
    a hidden panel without list widget) or shows the children and drops
    the cache (the panel stays visible, the scroll area, the cover and the
    scroll shadow are visible, and no child is created or destroyed).
    Without a cache, and while the animation runs, it changes nothing. *)
Theorem paintEvent_drops_cache (w : World) (p : Panel) :
  (_a_appearance p = false -> _cache (paintEvent w p) = false)
  /\ (_a_appearance p = true -> paintEvent w p = p)
  /\ (_cache p = false -> paintEvent w p = p)
  /\ (_cache p = true -> _a_appearance p = false ->
      _hiding p || isHidden p = true ->
      paintEvent w p = hideFinished w p
      /\ isHidden (paintEvent w p) = true
      /\ has_list (paintEvent w p) = false)
  /\ (_cache p = true -> _a_appearance p = false ->
      _hiding p || isHidden p = false ->
      paintEvent w p = set_cache false (showChildren p)
      /\ isHidden (paintEvent w p) = false
      /\ scroll_visible (_scroll (paintEvent w p)) = true
      /\ (forall c, _cover (paintEvent w p) = Some c ->
          cover_visible c = true)
      /\ (forall s, _scrollShadow (paintEvent w p) = Some s ->
          shadow_visible s = true)
      /\ structure (paintEvent w p) = structure p).
Proof.
  split; [|split; [|split; [|split]]].
  - intros Ha. unfold paintEvent. rewrite Ha.
    destruct (_cache p) eqn:Hc; [|exact Hc].
    destruct (_hiding p || isHidden p); [|reflexivity].
    unfold hideFinished. now rewrite cache_performDestroy.
  - intros Ha. unfold paintEvent. rewrite Ha. now destruct (_cache p).
  - intros Hc. unfold paintEvent. now rewrite Hc.
  - intros Hc Ha Hh. unfold paintEvent. rewrite Hc, Ha, Hh.
    split; [reflexivity|]. split; [apply isHidden_hideFinished|].
    unfold hideFinished. apply has_list_performDestroy.
  - intros Hc Ha Hh. unfold paintEvent. rewrite Hc, Ha, Hh.
    destruct (showChildren_shown p) as (_ & H2 & H3 & H4 & H5 & H6).
    apply orb_false_elim in Hh as [_ Hh].
    split; [reflexivity|]. split; [now rewrite H2|].
    repeat split; assumption.
Qed.

Lemma paintEvent_drops_cache_witness :
  paintEvent world_song
    (appearance_tick true world_song (panel_appearing sty0 Full))
  = set_cache false
      (showChildren
         (appearance_tick true world_song (panel_appearing sty0 Full)))
  /\ isHidden
       (paintEvent world_song
          (appearance_tick true world_song (panel_appearing sty0 Full)))
     = false
  /\ scroll_visible
       (_scroll
          (paintEvent world_song
             (appearance_tick true world_song (panel_appearing sty0 Full))))
     = true
  /\ (forall c,
        _cover
          (paintEvent world_song
             (appearance_tick true world_song (panel_appearing sty0 Full)))
        = Some c -> cover_visible c = true)
  /\ (forall s,
        _scrollShadow
          (paintEvent world_song
             (appearance_tick true world_song (panel_appearing sty0 Full)))
        = Some s -> shadow_visible s = true)
  /\ structure
       (paintEvent world_song
          (appearance_tick true world_song (panel_appearing sty0 Full)))
     = structure
         (appearance_tick true world_song (panel_appearing sty0 Full)).
Proof.
  refine (proj2 (proj2 (proj2 (proj2
            (paintEvent_drops_cache world_song
               (appearance_tick true world_song
                  (panel_appearing sty0 Full)))))) _ _ _);
    vm_compute; reflexivity.
Defined.

(** ** What [ensureCreated] builds *)

Lemma child_ops_emit e p :
  child_ops (trace (emit e p))
  = child_ops (trace p) ++ (if is_timer_op e then [] else [e]).
Proof.
  unfold emit. cbn. rewrite child_ops_app. cbn. now destruct (is_timer_op e).
Qed.

Lemma child_ops_ensureCreated_children w p :
  child_ops (trace (scrollShadow_create w
                      (setCloseCallback
                         (_closeCallback
                            (setPinCallback (_pinCallback (cover_create w p))
                               (cover_create w p)))
                         (setPinCallback (_pinCallback (cover_create w p))
                            (cover_create w p)))))
  = child_ops (trace p)
    ++ (if has_cover p then [Destroyed ChildCover] else [])
    ++ [Created ChildCover]
    ++ (if has_scrollShadow p then [Destroyed ChildScrollShadow] else [])
    ++ [Created ChildScrollShadow].
Proof.
  destruct_panel p.
  unfold scrollShadow_create, setCloseCallback, setPinCallback, cover_create,
    has_cover, has_scrollShadow, emit.
  destruct p_cover, p_shadow; cbn; rewrite !child_ops_app; cbn;
    rewrite <- ?app_assoc; reflexivity.
Qed.

(** X16. [ensureCreated] looks only at the list widget: when the scroll
    area owns none, a full-layout panel gets a new cover and a new scroll
    shadow, replacing the ones it may still have, and any layout gets a new
    list widget exactly when the resolved pair differs from the stored one
    and the resolved peer is non-null.  With a list widget it creates and
    destroys nothing. *)
Theorem ensureCreated_children (sty : Style) (w : World) (p : Panel) :
  (has_list p = true -> ensureCreated sty w p = p)
  /\ (has_list p = false ->
      child_ops (trace (ensureCreated sty w p))
      = child_ops (trace p)
        ++ (if Layout_eqb (_layout p) Full
            then (if has_cover p then [Destroyed ChildCover] else [])
                 ++ [Created ChildCover]
                 ++ (if has_scrollShadow p
                     then [Destroyed ChildScrollShadow] else [])
                 ++ [Created ChildScrollShadow]
            else [])
        ++ (if refreshList_changed w p && is_some (refreshList_peer w)
            then [Created ChildList] else [])).
Proof.
  split; [apply ensureCreated_with_list|].
  intros Hl. unfold ensureCreated. unfold has_list in Hl.
  destruct (scroll_widget (_scroll p)) eqn:Hw; [discriminate|]. cbv zeta.
  match goal with
  | |- child_ops (trace (set_ignoringEnterEvents false
                           (if ?c then set_activeChanged_connected true ?q
                            else ?q))) = _ =>
      transitivity (child_ops (trace q)); [now destruct c|]
  end.
  rewrite child_ops_refreshList.
  match goal with
  | |- context [refreshList_changed w (set_refreshListLifetime true ?x)] =>
      change (refreshList_changed w (set_refreshListLifetime true x))
        with (refreshList_changed w x);
      change (has_list (set_refreshListLifetime true x)) with (has_list x);
      change (trace (set_refreshListLifetime true x)) with (trace x);
      assert (Hx : refreshList_changed w x = refreshList_changed w p
                   /\ has_list x = false)
  end.
  { destruct (Layout_eqb (_layout p) Full).
    - destruct_panel p. cbn in Hw. subst p_list.
      unfold scrollShadow_create, setCloseCallback, setPinCallback,
        cover_create, refreshList_changed, has_list.
      destruct p_cover, p_shadow; split; reflexivity.
    - unfold has_list. rewrite Hw. now split. }
  destruct Hx as [Hx1 Hx2]. rewrite Hx1, Hx2, andb_false_r.
  cbn [app]. rewrite app_assoc. f_equal.
  destruct (Layout_eqb (_layout p) Full).
  - apply child_ops_ensureCreated_children.
  - now rewrite app_nil_r.
Qed.

Lemma ensureCreated_children_witness :
  child_ops (trace (ensureCreated sty0 world_idle
                      (ensureCreated sty0 world_idle (Panel_new sty0 Full))))
  = child_ops (trace (ensureCreated sty0 world_idle (Panel_new sty0 Full)))
    ++ (if Layout_eqb
             (_layout (ensureCreated sty0 world_idle (Panel_new sty0 Full)))
             Full
        then (if has_cover
                   (ensureCreated sty0 world_idle (Panel_new sty0 Full))
              then [Destroyed ChildCover] else [])
             ++ [Created ChildCover]
             ++ (if has_scrollShadow
                      (ensureCreated sty0 world_idle (Panel_new sty0 Full))
                 then [Destroyed ChildScrollShadow] else [])
             ++ [Created ChildScrollShadow]
        else [])
    ++ (if refreshList_changed world_idle
             (ensureCreated sty0 world_idle (Panel_new sty0 Full))
           && is_some (refreshList_peer world_idle)
        then [Created ChildList] else []).
Proof.
  apply (proj2 (ensureCreated_children sty0 world_idle
                  (ensureCreated sty0 world_idle (Panel_new sty0 Full)))).
  vm_compute. reflexivity.
Defined.

Example cover_rebuilt_while_nothing_plays :
  child_ops (trace (ensureCreated sty0 world_idle
                      (ensureCreated sty0 world_idle (Panel_new sty0 Full))))
  = [Created ChildCover; Created ChildScrollShadow;
     Destroyed ChildCover; Created ChildCover;
     Destroyed ChildScrollShadow; Created ChildScrollShadow].
Proof. vm_compute. reflexivity. Qed.

(** ** The list widget [refreshList] installs *)

Lemma has_list_published sty hs p :
  has_list (fold_left (fun q h => heightValue_next sty h q) hs p)
  = has_list p.
Proof. exact (f_equal core_list (core_published sty hs p)). Qed.

Lemma listMigratedPeer_published sty hs p :
  _listMigratedPeer (fold_left (fun q h => heightValue_next sty h q) hs p)
  = _listMigratedPeer p.
Proof. exact (f_equal core_listMigratedPeer (core_published sty hs p)). Qed.

Lemma has_list_updateSize sty p : has_list (updateSize sty p) = has_list p.
Proof. exact (f_equal core_list (core_updateSize sty p)). Qed.

Lemma has_list_updateControlsGeometry sty w p :
  has_list (updateControlsGeometry sty w p) = has_list p.
Proof. exact (f_equal core_list (core_updateControlsGeometry sty w p)). Qed.

Lemma listMigratedPeer_updateSize sty p :
  _listMigratedPeer (updateSize sty p) = _listMigratedPeer p.
Proof. exact (f_equal core_listMigratedPeer (core_updateSize sty p)). Qed.

Lemma listMigratedPeer_updateControlsGeometry sty w p :
  _listMigratedPeer (updateControlsGeometry sty w p) = _listMigratedPeer p.
Proof.
  exact (f_equal core_listMigratedPeer (core_updateControlsGeometry sty w p)).
Qed.

Lemma listMigratedPeer_setOwnedWidget l p :
  _listMigratedPeer (scroll_setOwnedWidget l p) = _listMigratedPeer p.
Proof.
  destruct_panel p. unfold scroll_setOwnedWidget, scroll_takeWidget_destroy.
  cbn. now destruct p_list.
Qed.

Lemma with_list_restored m p :
  has_list p = true ->
  exists l, scroll_widget (_scroll (with_list (list_restoreState m) p))
            = Some l
            /\ list_restored l = Some m.
Proof.
  destruct_panel p. unfold has_list, with_list. cbn.
  destruct p_list as [l|]; [intros _ | discriminate].
  exists (list_restoreState m l). now split.
Qed.

(** X17. When [refreshList] installs a list widget (the pair differs and
    the resolved peer is non-null), the widget the scroll area owns
    afterwards has been restored from a memento for the resolved peer and
    its migrated peer, around the playing message, limited to
    kPlaylistIdsLimit = 32 ids and scrolled to that message shifted up by
    the top margin, whatever heights the list published meanwhile. *)
Theorem installed_list_is_restored (sty : Style) (w : World) (p : Panel)
    (pr : PeerPtr) :
  refreshList_changed w p = true -> refreshList_peer w = Some pr ->
  exists l,
    scroll_widget (_scroll (refreshList sty w p)) = Some l
    /\ list_restored l
       = Some {| memento_peer := pr;
                 memento_migrated := refreshList_migrated w;
                 memento_aroundId := current_song_contextId w;
                 memento_idsLimit := 32;
                 memento_scrollTopItem := current_song_contextId w;
                 memento_scrollTopShift := - m_top (infoMediaMargin sty) |}.
Proof.
  intros H Hp. unfold refreshList. cbv zeta. rewrite H, Hp.
  change (_listPeer (set_listPeer None _)) with (@None PeerPtr). cbv iota.
  rewrite listMigratedPeer_published, listMigratedPeer_updateControlsGeometry,
    listMigratedPeer_updateSize, listMigratedPeer_setOwnedWidget.
  change (_listMigratedPeer (emit (Created ChildList) ?x))
    with (refreshList_migrated w).
  apply with_list_restored.
  rewrite has_list_published, has_list_updateControlsGeometry,
    has_list_updateSize.
  reflexivity.
Qed.

Lemma installed_list_is_restored_witness :
  exists l,
    scroll_widget
      (_scroll (refreshList sty0 world_song (Panel_new sty0 OnlyPlaylist)))
    = Some l
    /\ list_restored l
       = Some {| memento_peer := 5%positive;
                 memento_migrated := refreshList_migrated world_song;
                 memento_aroundId := current_song_contextId world_song;
                 memento_idsLimit := 32;
                 memento_scrollTopItem := current_song_contextId world_song;
                 memento_scrollTopShift := - m_top (infoMediaMargin sty0) |}.
Proof.
  apply (installed_list_is_restored sty0 world_song
           (Panel_new sty0 OnlyPlaylist) 5%positive);
    vm_compute; reflexivity.
Defined.

(** ** Scrolling to the current track *)

Lemma requestedY_startAnimation p :
  scroll_requestedY (_scroll (startAnimation p))
  = scroll_requestedY (_scroll p).
Proof.
  destruct_panel p. unfold startAnimation. now destruct p_cache.
Qed.

Lemma requestedY_with_list f p :
  scroll_requestedY (_scroll (with_list f p)) = scroll_requestedY (_scroll p).
Proof. unfold with_list. destruct_panel p. cbn. now destruct p_list. Qed.

Lemma requestedY_updateSize sty p :
  scroll_requestedY (_scroll (updateSize sty p))
  = scroll_requestedY (_scroll p).
Proof. destruct_panel p. unfold updateSize. cbn. now destruct p_shadow. Qed.

Lemma requestedY_updateControlsGeometry sty w p :
  scroll_requestedY (_scroll (updateControlsGeometry sty w p))
  = scroll_requestedY (_scroll p).
Proof.
  unfold updateControlsGeometry. cbv zeta. rewrite requestedY_with_list.
  destruct (updateControlsGeometry_scrollHeight sty w p >? 0);
    destruct_panel p; cbn; destruct p_cover; cbn; destruct p_shadow;
    reflexivity.
Qed.

Lemma requestedY_heightValue_next sty h p :
  scroll_requestedY (_scroll (heightValue_next sty h p))
  = scroll_requestedY (_scroll p).
Proof.
  unfold heightValue_next.
  destruct (scroll_widget (_scroll p)) eqn:E; [|reflexivity].
  unfold listHeightUpdated. destruct (_ || _).
  - now rewrite requestedY_updateSize, requestedY_with_list.
  - change (scroll_requestedY
              (_scroll (with_list (list_setHeight h) p))
            = scroll_requestedY (_scroll p)).
    apply requestedY_with_list.
Qed.

Lemma requestedY_published sty hs p :
  scroll_requestedY
    (_scroll (fold_left (fun q h => heightValue_next sty h q) hs p))
  = scroll_requestedY (_scroll p).
Proof.
  revert p. induction hs as [|h hs IH]; intros p; cbn; [reflexivity|].
  now rewrite IH, requestedY_heightValue_next.
Qed.

Lemma requestedY_refreshList sty w p :
  scroll_requestedY (_scroll (refreshList sty w p))
  = scroll_requestedY (_scroll p).
Proof.
  assert (Hc : forall q,
             scroll_requestedY (_scroll (refreshList_cleared q))
             = scroll_requestedY (_scroll q)).
  { intros q. destruct_panel q.
    unfold refreshList_cleared, scroll_takeWidget_destroy. cbn.
    now destruct p_list. }
  destruct (refreshList_changed w p) eqn:H.
  - destruct (refreshList_peer w) as [pr|] eqn:Hp.
    + unfold refreshList. cbv zeta. rewrite H, Hp.
      fold (refreshList_cleared p).
      change (_listPeer (refreshList_cleared p)) with (@None PeerPtr).
      cbv iota.
      rewrite requestedY_with_list, requestedY_published,
        requestedY_updateControlsGeometry, requestedY_updateSize.
      rewrite <- (Hc p). generalize (refreshList_cleared p). intros q.
      destruct_panel q.
      unfold scroll_setOwnedWidget, scroll_takeWidget_destroy.
      cbn. now destruct p_list.
    + rewrite (refreshList_changed_none sty w p H Hp). apply Hc.
  - now rewrite (refreshList_unchanged sty w p H).
Qed.

Lemma requestedY_ensureCreated sty w p :
  scroll_requestedY (_scroll (ensureCreated sty w p))
  = scroll_requestedY (_scroll p).
Proof.
  unfold ensureCreated.
  destruct (scroll_widget (_scroll p)) eqn:E; [reflexivity|]. cbv zeta.
  match goal with
  | |- context [refreshList sty w ?y] => set (X := refreshList sty w y)
  end.
  assert (HX : scroll_requestedY (_scroll X)
               = scroll_requestedY (_scroll p)).
  { unfold X. rewrite requestedY_refreshList.
    match goal with
    | |- scroll_requestedY (_scroll (set_refreshListLifetime true ?y)) = _ =>
        change (scroll_requestedY (_scroll y)
                = scroll_requestedY (_scroll p))
    end.
    destruct (Layout_eqb (_layout p) Full); [|reflexivity].
    clear X E. destruct_panel p.
    unfold scrollShadow_create, setCloseCallback, setPinCallback,
      cover_create.
    cbn. destruct p_cover; cbn; destruct p_shadow; reflexivity. }
  destruct (platform_isMac w && has_window w); exact HX.
Qed.

(** X18. [startShow] scrolls the playlist to the current track only when
    it brings a hidden panel up: with a list widget and content that fits,
    a hidden panel becomes visible and the scroll position asked for is the
    top of the current song's row minus the top margin.  In every other
    case (the panel is already visible, the content is too small so the
    panel stays as it was, or there is no list widget) the scroll position
    asked for is the one the panel had before the call. *)
Theorem startShow_scrolls_when_showing (sty : Style) (w : World)
    (p : Panel) :
  (forall l, isHidden p = true ->
     scroll_widget (_scroll (ensureCreated sty w p)) = Some l ->
     contentTooSmall sty (ensureCreated sty w p) = false ->
     scroll_requestedY (_scroll (startShow sty w p))
     = Some (y1 (list_currentSongGeometry l) - m_top (infoMediaMargin sty))
     /\ isHidden (startShow sty w p) = false)
  /\ (isHidden p = false ->
      scroll_requestedY (_scroll (startShow sty w p))
      = scroll_requestedY (_scroll (ensureCreated sty w p))
      /\ scroll_requestedY (_scroll (startShow sty w p))
         = scroll_requestedY (_scroll p))
  /\ (contentTooSmall sty (ensureCreated sty w p) = true ->
      startShow sty w p = ensureCreated sty w p
      /\ isHidden (startShow sty w p) = isHidden p
      /\ scroll_requestedY (_scroll (startShow sty w p))
         = scroll_requestedY (_scroll p))
  /\ (has_list (ensureCreated sty w p) = false ->
      scroll_requestedY (_scroll (startShow sty w p))
      = scroll_requestedY (_scroll p)).
Proof.
  assert (Hvis : isHidden p = false ->
                 scroll_requestedY (_scroll (startShow sty w p))
                 = scroll_requestedY (_scroll (ensureCreated sty w p))).
  { intros Hh. unfold startShow. cbv zeta.
    destruct (contentTooSmall sty (ensureCreated sty w p)); [reflexivity|].
    rewrite isHidden_ensureCreated, Hh.
    destruct (negb (_hiding (ensureCreated sty w p))); [reflexivity|].
    now rewrite requestedY_startAnimation. }
  split; [|split; [|split]].
  - intros l Hh Hl Hc. unfold startShow. cbv zeta.
    rewrite Hc, isHidden_ensureCreated, Hh, requestedY_startAnimation,
      isHidden_startAnimation.
    set (x := ensureCreated sty w p) in *.
    change (scroll_requestedY
              (_scroll (set_hiding false
                          (show (scrollPlaylistToCurrentTrack sty x)))))
      with (scroll_requestedY (_scroll (scrollPlaylistToCurrentTrack sty x))).
    unfold scrollPlaylistToCurrentTrack. rewrite Hl. now split.
  - intros Hh. split; [now apply Hvis|].
    rewrite (Hvis Hh). apply requestedY_ensureCreated.
  - intros Hc.
    assert (He : startShow sty w p = ensureCreated sty w p).
    { unfold startShow. cbv zeta. now rewrite Hc. }
    rewrite He. split; [reflexivity|].
    split; [apply isHidden_ensureCreated | apply requestedY_ensureCreated].
  - intros Hl. destruct (isHidden p) eqn:Hh.
    + unfold startShow. cbv zeta.
      destruct (contentTooSmall sty (ensureCreated sty w p));
        [apply requestedY_ensureCreated|].
      rewrite isHidden_ensureCreated, Hh, requestedY_startAnimation.
      set (x := ensureCreated sty w p) in *.
      change (scroll_requestedY
                (_scroll (set_hiding false
                            (show (scrollPlaylistToCurrentTrack sty x)))))
        with (scroll_requestedY
                (_scroll (scrollPlaylistToCurrentTrack sty x))).
      unfold scrollPlaylistToCurrentTrack. unfold has_list in Hl.
      destruct (scroll_widget (_scroll x)); [discriminate|].
      apply requestedY_ensureCreated.
    + rewrite (Hvis eq_refl). apply requestedY_ensureCreated.
Qed.

Lemma startShow_scrolls_when_showing_witness :
  (exists l,
     scroll_widget
       (_scroll (ensureCreated sty0 world_song (Panel_new sty0 OnlyPlaylist)))
     = Some l
     /\ scroll_requestedY
          (_scroll (startShow sty0 world_song (Panel_new sty0 OnlyPlaylist)))
        = Some (y1 (list_currentSongGeometry l) - m_top (infoMediaMargin sty0))
     /\ isHidden (startShow sty0 world_song (Panel_new sty0 OnlyPlaylist))
        = false)
  /\ scroll_requestedY
       (_scroll (startShow sty0 world_idle (Panel_new sty0 OnlyPlaylist)))
     = scroll_requestedY (_scroll (Panel_new sty0 OnlyPlaylist)).
Proof.
  split.
  - destruct (scroll_widget
                (_scroll (ensureCreated sty0 world_song
                            (Panel_new sty0 OnlyPlaylist)))) as [l|] eqn:E.
    + exists l. split; [reflexivity|].
      refine (proj1 (startShow_scrolls_when_showing sty0 world_song
                       (Panel_new sty0 OnlyPlaylist)) l _ E _);
        vm_compute; reflexivity.
    + vm_compute in E. discriminate E.
  - refine (proj2 (proj2 (proj1 (proj2 (proj2
              (startShow_scrolls_when_showing sty0 world_idle
                 (Panel_new sty0 OnlyPlaylist)))) _))).
    vm_compute. reflexivity.
Defined.

(** ** Visibility flags *)

Lemma vis_core p q : core q = core p -> vis q = vis p.
Proof.
  intros H. unfold vis, isHidden.
  now rewrite (f_equal core_hidden H : widget_hidden q = widget_hidden p),
    (f_equal core_hiding H : _hiding q = _hiding p),
    (f_equal core_animating H : _a_appearance q = _a_appearance p),
    (f_equal core_cache H : _cache q = _cache p).
Qed.

Lemma vis_performDestroy w p : vis (performDestroy w p) = vis p.
Proof.
  unfold vis.
  now rewrite isHidden_performDestroy, hiding_performDestroy,
    animating_performDestroy, cache_performDestroy.
Qed.

Lemma vis_refreshList sty w p : vis (refreshList sty w p) = vis p.
Proof.
  destruct (refreshList_changed w p) eqn:H.
  - destruct (refreshList_peer w) as [pr|] eqn:Hp.
    + rewrite (vis_core _ _ (refreshList_changed_some sty w p pr H Hp)).
      destruct_panel p.
      unfold refreshList_installed, refreshList_cleared,
        scroll_setOwnedWidget, scroll_takeWidget_destroy.
      now destruct p_list.
    + rewrite (refreshList_changed_none sty w p H Hp).
      destruct_panel p.
      unfold refreshList_cleared, scroll_takeWidget_destroy.
      now destruct p_list.
  - now rewrite (refreshList_unchanged sty w p H).
Qed.

Lemma vis_cover_create w p : vis (cover_create w p) = vis p.
Proof. destruct_panel p. unfold cover_create. now destruct p_cover. Qed.

Lemma vis_scrollShadow_create w p : vis (scrollShadow_create w p) = vis p.
Proof. destruct_panel p. unfold scrollShadow_create. now destruct p_shadow. Qed.

Lemma vis_setPinCallback cb p : vis (setPinCallback cb p) = vis p.
Proof. destruct_panel p. unfold setPinCallback. now destruct p_cover. Qed.

Lemma vis_setCloseCallback cb p : vis (setCloseCallback cb p) = vis p.
Proof. destruct_panel p. unfold setCloseCallback. now destruct p_cover. Qed.

Lemma vis_set_ignoringEnterEvents v p :
  vis (set_ignoringEnterEvents v p) = vis p.
Proof. reflexivity. Qed.

Lemma vis_set_activeChanged_connected v p :
  vis (set_activeChanged_connected v p) = vis p.
Proof. reflexivity. Qed.

Lemma vis_set_refreshListLifetime v p :
  vis (set_refreshListLifetime v p) = vis p.
Proof. reflexivity. Qed.

Lemma vis_ensureCreated sty w p : vis (ensureCreated sty w p) = vis p.
Proof.
  unfold ensureCreated.
  destruct (scroll_widget (_scroll p)); [reflexivity|]. cbv zeta.
  rewrite vis_set_ignoringEnterEvents.
  match goal with
  | |- vis (if ?c then _ else _) = _ =>
      destruct c; rewrite ?vis_set_activeChanged_connected
  end.
  all: rewrite vis_refreshList, vis_set_refreshListLifetime.
  all: destruct (Layout_eqb (_layout p) Full); [|reflexivity].
  all: now rewrite vis_scrollShadow_create, vis_setCloseCallback,
         vis_setPinCallback, vis_cover_create.
Qed.

Lemma vis_startAnimation p :
  vis (startAnimation p) = (isHidden p, _hiding p, true, true).
Proof.
  unfold vis. rewrite isHidden_startAnimation, hiding_startAnimation.
  destruct_panel p. unfold startAnimation. now destruct p_cache.
Qed.

Ltac vis_bools p :=
  unfold vis, vis_ok, isHidden in *; cbn in *;
  repeat match goal with
         | H : context [widget_hidden p] |- _ => revert H
         | H : context [_hiding p] |- _ => revert H
         | H : context [_a_appearance p] |- _ => revert H
         | H : context [_cache p] |- _ => revert H
         end;
  generalize (widget_hidden p) (_hiding p) (_a_appearance p) (_cache p);
  intros [] [] [] []; cbn; intuition congruence.

Lemma vis_ok_startHide p : vis_ok (vis p) -> vis_ok (vis (startHide p)).
Proof.
  intros H. unfold startHide.
  destruct (_hiding p || isHidden p) eqn:E; [exact H|].
  rewrite vis_startAnimation.
  change (isHidden (set_hiding true p)) with (isHidden p).
  change (_hiding (set_hiding true p)) with true.
  vis_bools p.
Qed.

Lemma vis_ok_hideFinished w p :
  _a_appearance p = false -> _hiding p = false ->
  vis_ok (vis (hideFinished w p)).
Proof.
  intros Ha Hg. unfold hideFinished. rewrite vis_performDestroy.
  vis_bools p.
Qed.

Lemma vis_ok_startShow sty w p :
  vis_ok (vis p) -> vis_ok (vis (startShow sty w p)).
Proof.
  intros H. rewrite <- (vis_ensureCreated sty w p) in H.
  unfold startShow. cbv zeta. set (x := ensureCreated sty w p) in *.
  destruct (contentTooSmall sty x); [exact H|].
  destruct (isHidden x) eqn:Hh.
  - rewrite vis_startAnimation. cbn. repeat split; congruence.
  - destruct (negb (_hiding x)); [exact H|].
    rewrite vis_startAnimation.
    change (isHidden (set_hiding false x)) with (isHidden x). rewrite Hh.
    cbn. repeat split; congruence.
Qed.

Lemma vis_ok_hidden p :
  vis_ok (vis p) -> isHidden p = true ->
  _a_appearance p = false /\ _hiding p = false.
Proof. intros H Hh. vis_bools p. Qed.

Lemma vis_ok_run sty c w p : vis_ok (vis p) -> vis_ok (vis (run sty c w p)).
Proof.
  intros H. destruct c; cbn [run].
  - unfold resizeEvent.
    now rewrite (vis_core _ _ (core_updateControlsGeometry sty w p)).
  - unfold paintEvent. destruct (_cache p) eqn:Hc; [|exact H].
    destruct (_a_appearance p) eqn:Ha; [exact H|].
    destruct (_hiding p || isHidden p) eqn:E.
    + apply vis_ok_hideFinished; [exact Ha|]. vis_bools p.
    + clear Hc. vis_bools p.
  - unfold enterEventHook.
    destruct (_ignoringEnterEvents p || contentTooSmall sty p);
      [exact H|]. cbv zeta.
    destruct (_a_appearance (Timer_cancel HideTimer p));
      [now apply vis_ok_startShow | exact H].
  - unfold leaveEventHook. destruct (preventAutoHide p); [exact H|].
    cbv zeta.
    destruct (_a_appearance (Timer_cancel ShowTimer p));
      [now apply vis_ok_startHide | exact H].
  - unfold showFromOther. cbv zeta.
    destruct (_a_appearance (Timer_cancel HideTimer p));
      [now apply vis_ok_startShow | exact H].
  - unfold hideFromOther. cbv zeta.
    destruct (_a_appearance (Timer_cancel ShowTimer p));
      [now apply vis_ok_startHide | exact H].
  - unfold hideIgnoringEnterEvents. cbv zeta.
    change (isHidden (set_ignoringEnterEvents true p)) with (isHidden p).
    destruct (isHidden p) eqn:Hh.
    + destruct (vis_ok_hidden p H Hh). now apply vis_ok_hideFinished.
    + now apply vis_ok_startHide.
  - now rewrite vis_setPinCallback.
  - now rewrite vis_setCloseCallback.
  - unfold showTimer_fired. destruct (_showTimer p); [exact H|].
    now apply vis_ok_startShow.
  - unfold hideTimer_fired. destruct (_hideTimer p); [exact H|].
    unfold startHideChecked.
    destruct (negb _ && _); [exact H|].
    change (isHidden (set_hideTimer Idle p)) with (isHidden p).
    destruct (isHidden p) eqn:Hh.
    + destruct (vis_ok_hidden p H Hh). now apply vis_ok_hideFinished.
    + now apply vis_ok_startHide.
  - unfold appearance_tick. destruct (_a_appearance p) eqn:Ha; [|exact H].
    unfold appearanceCallback.
    change (_a_appearance (set_a_appearance (negb finished) p))
      with (negb finished).
    change (_hiding (set_a_appearance (negb finished) p)) with (_hiding p).
    destruct finished; cbn [negb andb].
    + destruct (_hiding p) eqn:Hg.
      * now apply vis_ok_hideFinished.
      * vis_bools p.
    + vis_bools p.
  - unfold activeChanged_signal, windowActiveChanged.
    destruct (activeChanged_connected p); [|exact H].
    destruct (negb (window_isActive w) && negb (isHidden p)); [|exact H].
    unfold leaveEventHook. destruct (preventAutoHide p); [exact H|].
    cbv zeta.
    destruct (_a_appearance (Timer_cancel ShowTimer p));
      [now apply vis_ok_startHide | exact H].
  - unfold playlistChanges_next.
    destruct (_refreshListLifetime p && AudioMsgIdType_eqb type Song);
      [|exact H].
    now rewrite vis_refreshList.
  - now rewrite (vis_core _ _ (core_heightValue_next sty newHeight p)).
  - unfold checkForHide_next.
    destruct (scroll_widget (_scroll p)); [|exact H].
    destruct (negb _); exact H.
  - unfold scrollToRequests_next.
    destruct (scroll_widget (_scroll p)); exact H.
  - now rewrite (vis_core _ _ (core_with_list _ p)).
  - now rewrite (vis_core _ _ (core_with_list _ p)).
Qed.

(** X19. In every reachable state a hidden panel is neither animating nor
    hiding, _hiding is set only while the appearance animation runs (on a
    visible panel), and the animation runs only over a cached pixmap. *)
Theorem visibility_flags_consistent (sty : Style) (p : Panel) :
  reachable sty p ->
  (isHidden p = true -> _a_appearance p = false /\ _hiding p = false)
  /\ (_hiding p = true -> _a_appearance p = true /\ isHidden p = false)
  /\ (_a_appearance p = true -> _cache p = true).
Proof.
  intros Hr.
  assert (H : vis_ok (vis p)).
  { induction Hr as [layout | p c w _ IH].
    - unfold Panel_new.
      rewrite (vis_core _ _ (core_updateSize sty _)).
      cbn. repeat split; congruence.
    - now apply vis_ok_run. }
  vis_bools p.
Qed.

Lemma visibility_flags_consistent_witness :
  (isHidden (panel_appearing sty0 Full) = true ->
   _a_appearance (panel_appearing sty0 Full) = false
   /\ _hiding (panel_appearing sty0 Full) = false)
  /\ (_hiding (panel_appearing sty0 Full) = true ->
      _a_appearance (panel_appearing sty0 Full) = true
      /\ isHidden (panel_appearing sty0 Full) = false)
  /\ (_a_appearance (panel_appearing sty0 Full) = true ->
      _cache (panel_appearing sty0 Full) = true).
Proof.
  apply (visibility_flags_consistent sty0 (panel_appearing sty0 Full)).
  apply reachable_panel_appearing.
Defined.

(** ** The callbacks of the cover *)

Lemma callbacks_forwarded_eq p q :
  callbacks q = callbacks p -> callbacks_forwarded p -> callbacks_forwarded q.
Proof.
  unfold callbacks, callbacks_forwarded. intros H.
  destruct (_cover p), (_cover q); cbn in H; try discriminate;
    injection H; intros; try tauto.
  match goal with
  | Hf : _ /\ _ |- _ => destruct Hf
  end.
  split; congruence.
Qed.

Lemma callbacks_with_list f p : callbacks (with_list f p) = callbacks p.
Proof. destruct_panel p. unfold with_list. now destruct p_list. Qed.

Lemma callbacks_updateSize sty p : callbacks (updateSize sty p) = callbacks p.
Proof. destruct_panel p. unfold updateSize. cbn. now destruct p_shadow. Qed.

Lemma callbacks_updateControlsGeometry sty w p :
  callbacks (updateControlsGeometry sty w p) = callbacks p.
Proof.
  unfold callbacks.
  rewrite updateControlsGeometry_cover.
  assert (H : _pinCallback (updateControlsGeometry sty w p) = _pinCallback p
              /\ _closeCallback (updateControlsGeometry sty w p)
                 = _closeCallback p).
  { unfold updateControlsGeometry, with_list. cbv zeta.
    destruct (updateControlsGeometry_scrollHeight sty w p >? 0);
      destruct (_cover p) eqn:Hc; cbn;
      destruct (_scrollShadow p) eqn:Hs; cbn;
      destruct (scroll_widget (_scroll p)) eqn:Hl; cbn; now split. }
  destruct H as [-> ->]. now destruct (_cover p).
Qed.

Lemma callbacks_listHeightUpdated sty h p :
  callbacks (listHeightUpdated sty h p) = callbacks p.
Proof.
  unfold listHeightUpdated.
  destruct (_ || _); [apply callbacks_updateSize | reflexivity].
Qed.

Lemma callbacks_heightValue_next sty h p :
  callbacks (heightValue_next sty h p) = callbacks p.
Proof.
  unfold heightValue_next. destruct (scroll_widget (_scroll p)) eqn:Hl;
    [|reflexivity].
  rewrite callbacks_listHeightUpdated. apply callbacks_with_list.
Qed.

Lemma callbacks_published sty hs p :
  callbacks (fold_left (fun q h => heightValue_next sty h q) hs p)
  = callbacks p.
Proof.
  revert p. induction hs as [|h hs IH]; intros p; cbn; [reflexivity|].
  now rewrite IH, callbacks_heightValue_next.
Qed.

Lemma callbacks_refreshList sty w p :
  callbacks (refreshList sty w p) = callbacks p.
Proof.
  destruct (refreshList_changed w p) eqn:H.
  - destruct (refreshList_peer w) as [pr|] eqn:Hp.
    + unfold refreshList. cbv zeta. rewrite H, Hp.
      change (_listPeer (set_listPeer None _)) with (@None PeerPtr).
      cbv iota.
      rewrite callbacks_with_list, callbacks_published,
        callbacks_updateControlsGeometry, callbacks_updateSize.
      destruct_panel p.
      unfold scroll_setOwnedWidget, scroll_takeWidget_destroy.
      cbn. now destruct p_list.
    + rewrite (refreshList_changed_none sty w p H Hp).
      destruct_panel p.
      unfold refreshList_cleared, scroll_takeWidget_destroy.
      cbn. now destruct p_list.
  - now rewrite (refreshList_unchanged sty w p H).
Qed.

Lemma callbacks_startAnimation p : callbacks (startAnimation p) = callbacks p.
Proof.
  destruct_panel p.
  unfold startAnimation, hideChildren, showChildren, setChildrenVisible.
  destruct p_cache, p_cover; reflexivity.
Qed.

Lemma callbacks_startHide p : callbacks (startHide p) = callbacks p.
Proof.
  unfold startHide. destruct (_hiding p || isHidden p); [reflexivity|].
  now rewrite callbacks_startAnimation.
Qed.

Lemma callbacks_forwarded_performDestroy w p :
  callbacks_forwarded p -> callbacks_forwarded (performDestroy w p).
Proof.
  destruct_panel p.
  unfold performDestroy, cover_destroy, scroll_takeWidget_destroy,
    callbacks_forwarded.
  cbn. destruct p_list; [|trivial].
  destruct p_cover; cbn; destruct (platform_isMac w && has_window w);
    cbn; trivial.
Qed.

Lemma callbacks_forwarded_hideFinished w p :
  callbacks_forwarded p -> callbacks_forwarded (hideFinished w p).
Proof.
  intros H. unfold hideFinished.
  now apply callbacks_forwarded_performDestroy.
Qed.

Lemma callbacks_forwarded_setPinCallback cb p :
  callbacks_forwarded p -> callbacks_forwarded (setPinCallback cb p).
Proof.
  destruct_panel p. unfold setPinCallback, callbacks_forwarded. cbn.
  destruct p_cover; cbn; tauto.
Qed.

Lemma callbacks_forwarded_setCloseCallback cb p :
  callbacks_forwarded p -> callbacks_forwarded (setCloseCallback cb p).
Proof.
  destruct_panel p. unfold setCloseCallback, callbacks_forwarded. cbn.
  destruct p_cover; cbn; tauto.
Qed.

Lemma callbacks_forwarded_created w p :
  callbacks_forwarded
    (scrollShadow_create w
       (setCloseCallback
          (_closeCallback
             (setPinCallback (_pinCallback (cover_create w p))
                (cover_create w p)))
          (setPinCallback (_pinCallback (cover_create w p))
             (cover_create w p)))).
Proof.
  destruct_panel p.
  unfold scrollShadow_create, setCloseCallback, setPinCallback, cover_create,
    callbacks_forwarded.
  destruct p_cover, p_shadow; cbn; now split.
Qed.

Lemma callbacks_forwarded_ensureCreated sty w p :
  callbacks_forwarded p -> callbacks_forwarded (ensureCreated sty w p).
Proof.
  intros H. unfold ensureCreated.
  destruct (scroll_widget (_scroll p)); [exact H|]. cbv zeta.
  match goal with
  | |- callbacks_forwarded
         (set_ignoringEnterEvents false
            (if ?c then set_activeChanged_connected true ?q else ?q)) =>
      apply (callbacks_forwarded_eq q); [now destruct c|]
  end.
  match goal with
  | |- callbacks_forwarded
         (refreshList sty w (set_refreshListLifetime true ?x)) =>
      apply (callbacks_forwarded_eq x);
        [now rewrite callbacks_refreshList|]
  end.
  destruct (Layout_eqb (_layout p) Full);
    [apply callbacks_forwarded_created | exact H].
Qed.

Lemma callbacks_forwarded_startShow sty w p :
  callbacks_forwarded p -> callbacks_forwarded (startShow sty w p).
Proof.
  intros H. apply (callbacks_forwarded_ensureCreated sty w) in H.
  unfold startShow. cbv zeta. set (x := ensureCreated sty w p) in *.
  destruct (contentTooSmall sty x); [exact H|].
  destruct (isHidden x).
  - apply (callbacks_forwarded_eq x); [|exact H].
    rewrite callbacks_startAnimation.
    unfold scrollPlaylistToCurrentTrack.
    now destruct (scroll_widget (_scroll x)).
  - destruct (negb (_hiding x)); [exact H|].
    apply (callbacks_forwarded_eq x); [|exact H].
    now rewrite callbacks_startAnimation.
Qed.

Lemma callbacks_forwarded_leaveEventHook p :
  callbacks_forwarded p -> callbacks_forwarded (leaveEventHook p).
Proof.
  intros H. unfold leaveEventHook. destruct (preventAutoHide p); [exact H|].
  cbv zeta. destruct (_a_appearance (Timer_cancel ShowTimer p));
    [|exact H].
  apply (callbacks_forwarded_eq p); [|exact H].
  now rewrite callbacks_startHide.
Qed.

Lemma callbacks_forwarded_hideOrFinish w p :
  callbacks_forwarded p ->
  callbacks_forwarded (if isHidden p then hideFinished w p else startHide p).
Proof.
  intros H. destruct (isHidden p).
  - now apply callbacks_forwarded_hideFinished.
  - apply (callbacks_forwarded_eq p); [|exact H].
    now rewrite callbacks_startHide.
Qed.

Lemma callbacks_forwarded_run sty c w p :
  callbacks_forwarded p -> callbacks_forwarded (run sty c w p).
Proof.
  intros H. destruct c; cbn [run].
  - apply (callbacks_forwarded_eq p); [|exact H].
    apply callbacks_updateControlsGeometry.
  - unfold paintEvent. destruct (_cache p); [|exact H].
    destruct (_a_appearance p); [exact H|].
    destruct (_hiding p || isHidden p).
    + now apply callbacks_forwarded_hideFinished.
    + apply (callbacks_forwarded_eq p); [|exact H].
      destruct_panel p. unfold showChildren, setChildrenVisible.
      now destruct p_cover.
  - unfold enterEventHook.
    destruct (_ignoringEnterEvents p || contentTooSmall sty p);
      [exact H|]. cbv zeta.
    destruct (_a_appearance (Timer_cancel HideTimer p)); [|exact H].
    now apply callbacks_forwarded_startShow.
  - now apply callbacks_forwarded_leaveEventHook.
  - unfold showFromOther. cbv zeta.
    destruct (_a_appearance (Timer_cancel HideTimer p)); [|exact H].
    now apply callbacks_forwarded_startShow.
  - unfold hideFromOther. cbv zeta.
    destruct (_a_appearance (Timer_cancel ShowTimer p)); [|exact H].
    apply (callbacks_forwarded_eq p); [|exact H].
    now rewrite callbacks_startHide.
  - unfold hideIgnoringEnterEvents. cbv zeta.
    apply (callbacks_forwarded_hideOrFinish w
             (set_ignoringEnterEvents true p)).
    exact H.
  - now apply callbacks_forwarded_setPinCallback.
  - now apply callbacks_forwarded_setCloseCallback.
  - unfold showTimer_fired. destruct (_showTimer p); [exact H|].
    now apply callbacks_forwarded_startShow.
  - unfold hideTimer_fired. destruct (_hideTimer p); [exact H|].
    unfold startHideChecked. destruct (negb _ && _); [exact H|].
    apply (callbacks_forwarded_hideOrFinish w (set_hideTimer Idle p)).
    exact H.
  - unfold appearance_tick. destruct (_a_appearance p); [|exact H].
    unfold appearanceCallback. destruct (negb _ && _); [|exact H].
    now apply callbacks_forwarded_hideFinished.
  - unfold activeChanged_signal, windowActiveChanged.
    destruct (activeChanged_connected p); [|exact H].
    destruct (negb (window_isActive w) && negb (isHidden p)); [|exact H].
    now apply callbacks_forwarded_leaveEventHook.
  - unfold playlistChanges_next.
    destruct (_refreshListLifetime p && AudioMsgIdType_eqb type Song);
      [|exact H].
    apply (callbacks_forwarded_eq p); [|exact H].
    apply callbacks_refreshList.
  - apply (callbacks_forwarded_eq p); [|exact H].
    apply callbacks_heightValue_next.
  - unfold checkForHide_next.
    destruct (scroll_widget (_scroll p)); [|exact H].
    destruct (negb _); exact H.
  - unfold scrollToRequests_next.
    destruct (scroll_widget (_scroll p)); exact H.
  - apply (callbacks_forwarded_eq p); [|exact H]. apply callbacks_with_list.
  - apply (callbacks_forwarded_eq p); [|exact H]. apply callbacks_with_list.
Qed.

(** X20. In every reachable state the cover, when it exists, holds the pin
    and close callbacks the panel stores: callbacks set before the cover
    exists reach it when [ensureCreated] makes it, and [setPinCallback] /
    [setCloseCallback] update an existing cover at once. *)
Theorem cover_holds_panel_callbacks (sty : Style) (p : Panel) :
  reachable sty p ->
  forall c, _cover p = Some c ->
    cover_pinCallback c = _pinCallback p
    /\ cover_closeCallback c = _closeCallback p.
Proof.
  intros Hr.
  assert (H : callbacks_forwarded p).
  { induction Hr as [layout | p c w _ IH].
    - unfold Panel_new.
      match goal with
      | |- callbacks_forwarded (updateSize _ ?q) =>
          apply (callbacks_forwarded_eq q)
      end;
        [apply callbacks_updateSize | exact I].
    - now apply callbacks_forwarded_run. }
  intros c Hc. unfold callbacks_forwarded in H. now rewrite Hc in H.
Qed.

Lemma cover_holds_panel_callbacks_witness :
  exists c, _cover (panel_with_callbacks sty0) = Some c
            /\ cover_pinCallback c = Some 1%nat
            /\ cover_closeCallback c = Some 2%nat.
Proof.
  destruct (_cover (panel_with_callbacks sty0)) as [c|] eqn:E.
  - exists c. split; [reflexivity|].
    assert (Hr : reachable sty0 (panel_with_callbacks sty0))
      by (do 4 apply reachable_step; apply reachable_new).
    destruct (cover_holds_panel_callbacks sty0 (panel_with_callbacks sty0)
                Hr c E) as [H1 H2].
    rewrite H1, H2. vm_compute. split; reflexivity.
  - vm_compute in E. discriminate E.
Defined.

(** ** The cursor check of the list widget *)

(** X21. When the list widget asks the panel to check for hiding, the
    panel arms the hide timer once with kDelayedHideTimeout = 3000 ms
    exactly when the cursor is outside the panel's rectangle, and does
    nothing when the cursor is inside; without a list widget the request
    cannot arrive. *)
Theorem checkForHide_cursor (w : World) (p : Panel) :
  has_list p = true -> 0 < width p -> 0 < height p ->
  let cx := px (cursor_pos w) - px (global_origin w) in
  let cy := py (cursor_pos w) - py (global_origin w) in
  (0 <= cx < width p /\ 0 <= cy < height p ->
   checkForHide_next w p = p)
  /\ (~ (0 <= cx < width p /\ 0 <= cy < height p) ->
      checkForHide_next w p = Timer_callOnce HideTimer 3000 p
      /\ _hideTimer (checkForHide_next w p) = Once 3000).
Proof.
  intros Hl Hw Hh cx cy. unfold checkForHide_next. unfold has_list in Hl.
  destruct (scroll_widget (_scroll p)); [|discriminate].
  assert (Hc : rect_contains_point (rect p) (mapFromGlobal w (cursor_pos w))
               = true
               <-> (0 <= cx < width p /\ 0 <= cy < height p)).
  { unfold rect_contains_point, rect_isNull, rect, QRect_xywh, mapFromGlobal.
    cbn [x1 y1 x2 y2 px py]. fold cx cy.
    destruct (Z.eqb_spec (0 + width p - 1) (0 - 1)); [lia|]. cbn [andb].
    rewrite !andb_true_iff, !Z.leb_le. lia. }
  split.
  - intros H. apply Hc in H. now rewrite H.
  - intros H.
    destruct (rect_contains_point (rect p)
                (mapFromGlobal w (cursor_pos w))) eqn:E.
    + exfalso. apply H. now apply Hc.
    + cbn [negb]. now split.
Qed.

Lemma checkForHide_cursor_witness :
  checkForHide_next world_song (panel_shown sty0 OnlyPlaylist)
  = Timer_callOnce HideTimer 3000 (panel_shown sty0 OnlyPlaylist)
  /\ _hideTimer (checkForHide_next world_song (panel_shown sty0 OnlyPlaylist))
     = Once 3000.
Proof.
  refine (proj2 (checkForHide_cursor world_song
                   (panel_shown sty0 OnlyPlaylist) _ _ _) _).
  - vm_compute. reflexivity.
  - vm_compute. reflexivity.
  - vm_compute. reflexivity.
  - vm_compute. intros [[H _] _]. apply H. reflexivity.
Defined.

(** ** Which panels come up *)

Lemma contentTooSmall_cover sty p :
  has_cover p = true -> contentTooSmall sty p = false.
Proof.
  unfold has_cover, contentTooSmall, is_some.
  destruct (_cover p); [|discriminate]. intros _. apply andb_false_r.
Qed.

Lemma contentTooSmall_nothing sty p :
  has_cover p = false -> has_list p = false -> contentTooSmall sty p = true.
Proof.
  unfold has_cover, has_list, contentTooSmall, is_some.
  destruct (_cover p); [discriminate|].
  destruct (scroll_widget (_scroll p)); [discriminate|].
  intros _ _. cbn. now rewrite Z.leb_refl.
Qed.

(** X22. A hidden full-layout panel with no list widget always comes up
    on [startShow], whatever is playing, because [ensureCreated] gives it
    a cover.  A panel of the other layout with neither cover nor list
    widget stays as hidden as it was when no shared music file is playing:
    [startShow] creates nothing to show. *)
Theorem startShow_needs_content (sty : Style) (w : World) (p : Panel) :
  has_list p = false ->
  (_layout p = Full -> isHidden p = true ->
   isHidden (startShow sty w p) = false
   /\ _a_appearance (startShow sty w p) = true
   /\ has_cover (startShow sty w p) = true)
  /\ (_layout p <> Full -> has_cover p = false ->
      refreshList_peer w = None -> _listPeer p = None ->
      startShow sty w p = ensureCreated sty w p
      /\ isHidden (startShow sty w p) = isHidden p
      /\ has_list (startShow sty w p) = false).
Proof.
  intros Hl.
  assert (Hs : structure (ensureCreated sty w p)
               = S_ensureCreated w (structure p))
    by apply structure_ensureCreated.
  unfold S_ensureCreated in Hs. rewrite <- has_list_structure, Hl in Hs.
  change (s_layout (structure p)) with (_layout p) in Hs.
  split.
  - intros Hf Hh. rewrite Hf in Hs. cbn [Layout_eqb orb] in Hs.
    assert (Hc : has_cover (ensureCreated sty w p) = true).
    { rewrite has_cover_structure, Hs. unfold S_refreshList.
      now destruct (_ || _). }
    unfold startShow. cbv zeta.
    rewrite (contentTooSmall_cover sty _ Hc), isHidden_ensureCreated, Hh.
    rewrite isHidden_startAnimation. split; [reflexivity|].
    split; [reflexivity|].
    change (has_cover (startAnimation ?x))
      with (s_cover (structure (startAnimation x))).
    rewrite structure_startAnimation.
    match goal with
    | |- s_cover (structure (set_hiding false (show ?x))) = _ =>
        change (structure (set_hiding false (show x))) with (structure x)
    end.
    rewrite structure_scrollPlaylistToCurrentTrack.
    rewrite <- has_cover_structure. exact Hc.
  - intros Hf Hc Hp Hlp.
    destruct (Layout_eqb (_layout p) Full) eqn:E;
      [now apply Layout_eqb_eq in E|].
    cbn [orb] in Hs.
    change (s_cover (structure p)) with (has_cover p) in Hs.
    assert (Hx : has_cover (ensureCreated sty w p) = false
                 /\ has_list (ensureCreated sty w p) = false).
    { rewrite has_cover_structure, has_list_structure, Hs.
      unfold S_refreshList. cbn [s_listPeer s_listMigratedPeer].
      rewrite Hp. destruct (_ || _); cbn; rewrite ?Hc; now split. }
    destruct Hx as [Hx1 Hx2].
    unfold startShow. cbv zeta.
    rewrite (contentTooSmall_nothing sty _ Hx1 Hx2).
    split; [reflexivity|]. split; [apply isHidden_ensureCreated|exact Hx2].
Qed.

Lemma startShow_needs_content_witness :
  isHidden (startShow sty0 world_idle (Panel_new sty0 Full)) = false
  /\ _a_appearance (startShow sty0 world_idle (Panel_new sty0 Full)) = true
  /\ has_cover (startShow sty0 world_idle (Panel_new sty0 Full)) = true.
Proof.
  refine (proj1 (startShow_needs_content sty0 world_idle
                   (Panel_new sty0 Full) _) _ _);
    vm_compute; reflexivity.
Defined.
